(** * Agile practice prediction engine: a shallow embedding

    Embedding of the prediction-and-validation core of the repository
    ([src/data/processor.py], [src/ml/similarity.py], [src/ml/sequences.py],
    [src/ml/recommender.py], [src/validation/backtest.py],
    [src/validation/optimizer.py]) and the properties checked against it.

    Conventions of the embedding:
    - a Python [dict] (insertion ordered) is an association list; [d[k] = v]
      overwrites in place or appends at the end; a [set] is a duplicate-free
      list in insertion order (Python leaves the order of iteration of a set
      open; no property below depends on it);
    - a Python [float] is a rational number ([Q]); order comparisons are the
      exact ones;
    - exceptions are values of [exn]; code that may raise returns a [result];
      code that mutates [self] before raising returns the state it left;
    - [self.processed] of the data processor is taken to be set;
    - [sklearn]'s [cosine_similarity] and [scipy]'s [comb] are library
      functions outside the repository: the model takes them as parameters;
    - logging, the progress callback of the optimizer, its handling of
      [KeyboardInterrupt] and the writing of its result file are left out. *)

From Stdlib Require Import List ZArith QArith String Bool Lia Lqa Permutation Sorted.
Import ListNotations.
Local Open Scope Z_scope.

(** ** Python values *)

Module Py.

Inductive exn : Type := ValueError | IndexError | KeyError.

Inductive result (A : Type) : Type :=
| Ok (a : A)
| Raise (e : exn).
Arguments Ok {A} a.
Arguments Raise {A} e.

Class EqKey (K : Type) : Type := {
  keqb : K -> K -> bool;
  keqb_eq : forall a b, keqb a b = true <-> a = b
}.

#[export] Instance EqKey_string : EqKey string :=
  {| keqb := String.eqb; keqb_eq := String.eqb_eq |}.

#[export] Instance EqKey_Z : EqKey Z :=
  {| keqb := Z.eqb; keqb_eq := Z.eqb_eq |}.

(** [dict]: insertion-ordered association list. *)
Definition dict (K V : Type) : Type := list (K * V).

Fixpoint dict_get {K V} `{EqKey K} (d : dict K V) (k : K) : option V :=
  match d with
  | [] => None
  | (k', v) :: d' => if keqb k k' then Some v else dict_get d' k
  end.

(** [d[k] = v] *)
Fixpoint dict_set {K V} `{EqKey K} (d : dict K V) (k : K) (v : V) : dict K V :=
  match d with
  | [] => [(k, v)]
  | (k', v') :: d' =>
      if keqb k k' then (k', v) :: d' else (k', v') :: dict_set d' k v
  end.

(** [k in d] *)
Definition dict_mem {K V} `{EqKey K} (d : dict K V) (k : K) : bool :=
  match dict_get d k with Some _ => true | None => false end.

Definition dict_keys {K V} (d : dict K V) : list K := map fst d.
Definition dict_values {K V} (d : dict K V) : list V := map snd d.

(** [x in l] for a list or a set *)
Fixpoint mem {K} `{EqKey K} (x : K) (l : list K) : bool :=
  match l with
  | [] => false
  | y :: l' => keqb x y || mem x l'
  end.

(** [s.add(x)] on a set kept as a duplicate-free list *)
Definition set_add {K} `{EqKey K} (s : list K) (x : K) : list K :=
  if mem x s then s else s ++ [x].

(** [l.index(x)], which raises [ValueError] when [x] is absent *)
Fixpoint index {K} `{EqKey K} (l : list K) (x : K) : option nat :=
  match l with
  | [] => None
  | y :: l' =>
      if keqb x y then Some O
      else match index l' x with Some i => Some (S i) | None => None end
  end.

(** [sorted(l)] on integers *)
Fixpoint insert (x : Z) (l : list Z) : list Z :=
  match l with
  | [] => [x]
  | y :: l' => if x <=? y then x :: l else y :: insert x l'
  end.

Definition sorted (l : list Z) : list Z := fold_right insert [] l.

Definition Qlt_bool (x y : Q) : bool := negb (Qle_bool y x).

(** [l.sort(key=..., reverse=True)]: stable, descending by [key] *)
Section SortDesc.
Context {A : Type} (key : A -> Q).

Fixpoint insert_desc (x : A) (l : list A) : list A :=
  match l with
  | [] => [x]
  | y :: l' =>
      if Qle_bool (key y) (key x) then x :: l else y :: insert_desc x l'
  end.

Definition sort_desc (l : list A) : list A := fold_right insert_desc [] l.

(** Descending order of keys. *)
Definition desc (a b : A) : Prop := (key b <= key a)%Q.

(** The first element, in list order, of greatest key: the running best of
    a left-to-right scan that replaces it on a strictly greater key only. *)
Definition better (best : option A) (x : A) : option A :=
  match best with
  | None => Some x
  | Some b => if Qlt_bool (key b) (key x) then Some x else Some b
  end.

Definition first_max (l : list A) : option A := fold_left better l None.
End SortDesc.

(** [l.sort(key=...)] for a key that is not a number: stable, ascending in
    the order [le] of the keys. *)
Section SortBy.
Context {A : Type} (le : A -> A -> bool).

Fixpoint insert_by (x : A) (l : list A) : list A :=
  match l with
  | [] => [x]
  | y :: l' => if le x y then x :: l else y :: insert_by x l'
  end.

Definition sort_by (l : list A) : list A := fold_right insert_by [] l.
End SortBy.

(** [max(l)] of a non-empty list of floats *)
Definition Qmax (x y : Q) : Q := if Qle_bool x y then y else x.
Definition Qmin (x y : Q) : Q := if Qle_bool x y then x else y.

Definition max_of (l : list Q) : option Q :=
  match l with
  | [] => None
  | x :: l' => Some (fold_left Qmax l' x)
  end.

Definition sum_Q (l : list Q) : Q := fold_left Qplus l 0%Q.
Definition sum_Z (l : list Z) : Z := fold_left Z.add l 0.

(** A loop whose body may raise: the state reached is kept either way. *)
Fixpoint for_each {A S} (body : A -> S -> result unit * S) (l : list A) (s : S)
  : result unit * S :=
  match l with
  | [] => (Ok tt, s)
  | a :: l' =>
      match body a s with
      | (Ok _, s') => for_each body l' s'
      | (Raise e, s') => (Raise e, s')
      end
  end.

(** [zip(l, l[1:])]: the pairs [(l[i], l[i+1])] for [i in range(len(l) - 1)] *)
Fixpoint consecutive {A} (l : list A) : list (A * A) :=
  match l with
  | x :: ((y :: _) as l') => (x, y) :: consecutive l'
  | _ => []
  end.

End Py.
Import Py.

(** ** [DataProcessor]: the history store *)

Module DataProcessor.

Definition vector : Type := list Q.
Definition history : Type := dict Z vector.

(** [self.team_histories] of a processed [DataProcessor] *)
Definition t : Type := dict string history.

Definition get_team_history (p : t) (team_name : string) : result history :=
  match dict_get p team_name with
  | Some h => Ok h
  | None => Raise ValueError
  end.

Definition get_all_teams (p : t) : list string := dict_keys p.

(** the months of every team, collected in a set *)
Definition month_set (p : t) : list Z :=
  fold_left (fun acc h => fold_left set_add (dict_keys h) acc) (dict_values p) [].

Definition get_all_months (p : t) : list Z := sorted (month_set p).

End DataProcessor.

(** ** [SequenceMapper] *)

Module SequenceMapper.
Import DataProcessor.

Definition counter : Type := dict string Z.
Definition matrix : Type := dict string counter.

(** [c[k]] of a [Counter]: absent keys read as 0 *)
Definition counter_get (c : counter) (k : string) : Z :=
  match dict_get c k with Some n => n | None => 0 end.

(** [c[k] += 1] *)
Definition counter_incr (c : counter) (k : string) : counter :=
  dict_set c k (counter_get c k + 1).

Definition matrix_row (tm : matrix) (k : string) : counter :=
  match dict_get tm k with Some c => c | None => [] end.

Definition matrix_get (tm : matrix) (prev curr : string) : Z :=
  counter_get (matrix_row tm prev) curr.

(** [tm[prev][curr] += 1] on a [defaultdict(Counter)] *)
Definition matrix_incr (tm : matrix) (prev curr : string) : matrix :=
  dict_set tm prev (counter_incr (matrix_row tm prev) curr).

Record mapper : Type := {
  practices : list string;
  transition_matrix : matrix;
  practice_improvement_freq : counter;
  learned : bool;
  sequence_cache : dict Z (matrix * counter)
}.

(** [__init__] *)
Definition init (practices : list string) : mapper :=
  {| practices := practices;
     transition_matrix := [];
     practice_improvement_freq := [];
     learned := false;
     sequence_cache := [] |}.

(** The loop over [enumerate(zip(current_vector, next_vector))]: collects
    the improved practices and counts them; [self.practices[j]] raises
    [IndexError] past the end of the practice list. *)
Fixpoint find_improved (practices : list string) (j : nat)
    (current_vector next_vector : vector)
    (improved_practices : list string) (freq : counter)
  : result (list string) * counter :=
  match current_vector, next_vector with
  | curr :: cv, nxt :: nv =>
      if Qlt_bool curr nxt then
        match nth_error practices j with
        | Some practice_name =>
            find_improved practices (S j) cv nv
              (improved_practices ++ [practice_name])
              (counter_incr freq practice_name)
        | None => (Raise IndexError, freq)
        end
      else find_improved practices (S j) cv nv improved_practices freq
  | _, _ => (Ok improved_practices, freq)
  end.

(** [for j in range(len(improved) - 1): tm[improved[j]][improved[j+1]] += 1] *)
Definition add_transitions (improved_practices : list string) (tm : matrix) : matrix :=
  fold_left (fun tm '(prev, curr) => matrix_incr tm prev curr)
    (consecutive improved_practices) tm.

(** Body of the loop over consecutive months of one team. *)
Definition learn_pair (practices : list string) (max_month : Z) (h : history)
    (pair : Z * Z) (w : matrix * counter) : result unit * (matrix * counter) :=
  let '(current_month, next_month) := pair in
  if (max_month <=? current_month) || (max_month <=? next_month) then (Ok tt, w)
  else
    match dict_get h current_month, dict_get h next_month with
    | Some current_vector, Some next_vector =>
        match find_improved practices 0 current_vector next_vector [] (snd w) with
        | (Ok improved_practices, freq) =>
            (Ok tt, (add_transitions improved_practices (fst w), freq))
        | (Raise e, freq) => (Raise e, (fst w, freq))
        end
    | _, _ => (Raise KeyError, w)
    end.

(** Body of the loop over teams. *)
Definition learn_team (p : DataProcessor.t) (practices : list string)
    (max_month : Z) (available_months : list Z)
    (team : string) (w : matrix * counter) : result unit * (matrix * counter) :=
  match get_team_history p team with
  | Raise e => (Raise e, w)
  | Ok h =>
      let team_months := sorted (filter (fun m => dict_mem h m) available_months) in
      for_each (learn_pair practices max_month h) (consecutive team_months) w
  end.

(** Which branch a call of [learn_sequences_up_to_month] took. *)
Inductive path : Type := FromCache | Computed.

Definition learn_sequences_up_to_month (p : DataProcessor.t) (max_month : Z)
    (s : mapper) : result path * mapper :=
  match dict_get (sequence_cache s) max_month with
  | Some (cached_transition_matrix, cached_practice_improvement_freq) =>
      (Ok FromCache,
       {| practices := practices s;
          transition_matrix := cached_transition_matrix;
          practice_improvement_freq := cached_practice_improvement_freq;
          learned := true;
          sequence_cache := sequence_cache s |})
  | None =>
      let teams := get_all_teams p in
      let months := get_all_months p in
      let available_months := filter (fun m => m <? max_month) months in
      if (List.length available_months <? 2)%nat then
        (Ok Computed,
         {| practices := practices s;
            transition_matrix := [];
            practice_improvement_freq := [];
            learned := true;
            sequence_cache := dict_set (sequence_cache s) max_month ([], []) |})
      else
        match for_each (learn_team p (practices s) max_month available_months)
                teams ([], []) with
        | (Ok _, (tm, freq)) =>
            (Ok Computed,
             {| practices := practices s;
                transition_matrix := tm;
                practice_improvement_freq := freq;
                learned := true;
                sequence_cache := dict_set (sequence_cache s) max_month (tm, freq) |})
        | (Raise e, (tm, freq)) =>
            (Raise e,
             {| practices := practices s;
                transition_matrix := tm;
                practice_improvement_freq := freq;
                learned := learned s;
                sequence_cache := sequence_cache s |})
        end
  end.

(** [Counter.most_common(n)]: by count, descending, ties in insertion order *)
Definition most_common (c : counter) (n : nat) : list (string * Z) :=
  firstn n (sort_desc (fun e => inject_Z (snd e)) c).

Definition get_typical_next_practices (s : mapper) (practice : string) (top_n : nat)
  : result (list (string * Q)) :=
  if negb (learned s) then Raise ValueError
  else
    match dict_get (transition_matrix s) practice with
    | None => Ok []
    | Some row =>
        let transitions := most_common row top_n in
        let total := sum_Z (dict_values row) in
        if total =? 0 then Ok []
        else Ok (map (fun '(p, count) => (p, (inject_Z count / inject_Z total)%Q)) transitions)
    end.

(** Body of the loop over consecutive months of [learn_sequences]. *)
Definition learn_pair_all (practices : list string) (h : history)
    (pair : Z * Z) (w : matrix * counter) : result unit * (matrix * counter) :=
  let '(current_month, next_month) := pair in
  match dict_get h current_month, dict_get h next_month with
  | Some current_vector, Some next_vector =>
      match find_improved practices 0 current_vector next_vector [] (snd w) with
      | (Ok improved_practices, freq) =>
          (Ok tt, (add_transitions improved_practices (fst w), freq))
      | (Raise e, freq) => (Raise e, (fst w, freq))
      end
  | _, _ => (Raise KeyError, w)
  end.

(** Body of the loop over teams of [learn_sequences]. *)
Definition learn_team_all (p : DataProcessor.t) (practices : list string)
    (months : list Z) (team : string) (w : matrix * counter)
  : result unit * (matrix * counter) :=
  match get_team_history p team with
  | Raise e => (Raise e, w)
  | Ok h =>
      let team_months := sorted (filter (fun m => dict_mem h m) months) in
      for_each (learn_pair_all practices h) (consecutive team_months) w
  end.

(** [learn_sequences]: learns from every month, on top of what the mapper
    already holds. *)
Definition learn_sequences (p : DataProcessor.t) (s : mapper) : result unit * mapper :=
  match for_each (learn_team_all p (practices s) (get_all_months p))
          (get_all_teams p)
          (transition_matrix s, practice_improvement_freq s) with
  | (Ok _, (tm, freq)) =>
      (Ok tt,
       {| practices := practices s;
          transition_matrix := tm;
          practice_improvement_freq := freq;
          learned := true;
          sequence_cache := sequence_cache s |})
  | (Raise e, (tm, freq)) =>
      (Raise e,
       {| practices := practices s;
          transition_matrix := tm;
          practice_improvement_freq := freq;
          learned := learned s;
          sequence_cache := sequence_cache s |})
  end.

(** [get_improvement_frequency]: [dict(freq.most_common())] *)
Definition get_improvement_frequency (s : mapper) : result (dict string Z) :=
  if negb (learned s) then Raise ValueError
  else Ok (sort_desc (fun e => inject_Z (snd e)) (practice_improvement_freq s)).

(** An element of the list of [get_all_sequences]:
    [(from_practice, to_practice, count, probability)]. *)
Definition sequence : Type := string * string * Z * Q.

Definition seq_from (x : sequence) : string := fst (fst (fst x)).
Definition seq_to (x : sequence) : string := snd (fst (fst x)).
Definition seq_count (x : sequence) : Z := snd (fst x).
Definition seq_probability (x : sequence) : Q := snd x.

(** The order of the keys [(-x[2], -x[3])]: tuples compare by their first
    components, and by the second ones when the first are equal. *)
Definition sequence_key_le (a b : sequence) : bool :=
  (- seq_count a <? - seq_count b)
  || ((- seq_count a =? - seq_count b)
      && Qle_bool (- seq_probability a) (- seq_probability b)).

(** Body of the loop over the rows of the matrix. *)
Definition sequences_of_row (min_count : Z) (row : string * counter)
  : list sequence :=
  let '(from_practice, transitions) := row in
  let total_from := sum_Z (dict_values transitions) in
  map (fun '(to_practice, count) =>
         (from_practice, to_practice, count,
          if 0 <? total_from
          then (inject_Z count / inject_Z total_from)%Q else 0%Q))
      (filter (fun e => min_count <=? snd e) transitions).

Definition get_all_sequences (s : mapper) (min_count : Z) : list sequence :=
  if negb (learned s) then []
  else sort_by sequence_key_le
         (flat_map (sequences_of_row min_count) (transition_matrix s)).

(** The counts of [w] are those of [w0] plus [dm] and [d]. *)
Definition offset (dm : string -> string -> Z) (d : string -> Z)
    (w w0 : matrix * counter) : Prop :=
  (forall a b, matrix_get (fst w) a b = matrix_get (fst w0) a b + dm a b)
  /\ (forall k, counter_get (snd w) k = counter_get (snd w0) k + d k).

(** Every count stored is at least 1. *)
Definition counts_positive (w : matrix * counter) : Prop :=
  Forall (fun e => Forall (fun c => 1 <= snd c) (snd e)) (fst w)
  /\ Forall (fun c => 1 <= snd c) (snd w).

Definition cache_positive (s : mapper) : Prop :=
  forall M w, dict_get (sequence_cache s) M = Some w -> counts_positive w.

End SequenceMapper.

(** ** [SimilarityEngine] *)

Module SimilarityEngine.
Import DataProcessor.

(** A similarity result: [(team_name, similarity_score, historical_month)] *)
Definition neighbour : Type := string * Q * Z.

Definition nb_team (n : neighbour) : string := fst (fst n).
Definition nb_similarity (n : neighbour) : Q := snd (fst n).
Definition nb_month (n : neighbour) : Z := snd n.

(** [l[:k]] for an integer [k] of either sign *)
Definition take {A} (k : Z) (l : list A) : list A :=
  if 0 <=? k then firstn (Z.to_nat k) l
  else firstn (List.length l - Z.to_nat (- k)) l.

Section WithCosine.
(** [sklearn.metrics.pairwise.cosine_similarity] on two row vectors *)
Variable cosine_similarity : vector -> vector -> Q.

(** Body of the double loop over past months and teams. *)
Definition compare_team (p : DataProcessor.t) (target_team : string)
    (target_vector : vector) (min_similarity : Q) (historical_month : Z)
    (team : string) : list neighbour :=
  if keqb team target_team then []
  else
    match dict_get p team with
    | None => []
    | Some team_history =>
        match dict_get team_history historical_month with
        | None => []
        | Some team_vector =>
            let similarity := cosine_similarity target_vector team_vector in
            if Qle_bool min_similarity similarity
            then [(team, similarity, historical_month)]
            else []
        end
    end.

(** Keeps, per team, the first entry of greatest similarity. *)
Definition keep_best (team_best_similarity : dict string neighbour) (n : neighbour)
  : dict string neighbour :=
  match dict_get team_best_similarity (nb_team n) with
  | None => dict_set team_best_similarity (nb_team n) n
  | Some best =>
      if Qlt_bool (nb_similarity best) (nb_similarity n)
      then dict_set team_best_similarity (nb_team n) n
      else team_best_similarity
  end.

Definition find_similar_teams (p : DataProcessor.t) (target_team : string)
    (target_month : Z) (k : Z) (min_similarity : Q) : result (list neighbour) :=
  match get_team_history p target_team with
  | Raise e => Raise e
  | Ok target_history =>
      match dict_get target_history target_month with
      | None => Raise ValueError
      | Some target_vector =>
          let all_months := get_all_months p in
          let past_months := filter (fun m => m <? target_month) all_months in
          match past_months with
          | [] => Raise ValueError
          | _ =>
              let all_similarities :=
                flat_map (fun historical_month =>
                            flat_map (compare_team p target_team target_vector
                                        min_similarity historical_month)
                                     (get_all_teams p))
                         past_months in
              match all_similarities with
              | [] => Raise ValueError
              | _ =>
                  let team_best_similarity := fold_left keep_best all_similarities [] in
                  let unique_similarities :=
                    sort_desc nb_similarity (dict_values team_best_similarity) in
                  Ok (take k unique_similarities)
              end
          end
      end
  end.
End WithCosine.

(** [n] is a candidate neighbour of [target_team] at [target_month]: another
    team, at an earlier month at which it has a vector, whose similarity to
    the target's vector is the cosine of the two and reaches the threshold. *)
Definition candidate (cosine_similarity : vector -> vector -> Q)
    (p : DataProcessor.t) (target_team : string) (target_month : Z)
    (min_similarity : Q) (n : neighbour) : Prop :=
  nb_team n <> target_team
  /\ nb_month n < target_month
  /\ exists target_history target_vector h v,
       dict_get p target_team = Some target_history
       /\ dict_get target_history target_month = Some target_vector
       /\ dict_get p (nb_team n) = Some h
       /\ dict_get h (nb_month n) = Some v
       /\ nb_similarity n = cosine_similarity target_vector v
       /\ (min_similarity <= nb_similarity n)%Q.

(** The keys of [d] are distinct and each is the team of its entry. *)
Definition keyed (d : dict string neighbour) : Prop :=
  NoDup (dict_keys d) /\ Forall (fun e => fst e = nb_team (snd e)) d.

End SimilarityEngine.

(** ** [RecommendationEngine] *)

Module RecommendationEngine.
Import DataProcessor SimilarityEngine.

(** A recommendation: [(practice_name, score, current_level)] *)
Definition item : Type := string * Q * Q.
Definition item_score (r : item) : Q := snd (fst r).
Definition item_practice (r : item) : string := fst (fst r).
Definition item_level (r : item) : Q := snd r.

(** [d[k]] of a [defaultdict(float)] *)
Definition score_get (d : dict string Q) (k : string) : Q :=
  match dict_get d k with Some x => x | None => 0%Q end.

Definition max_months_ahead : nat := 3.

(** The months visited by [for months_ahead in range(1, max_months_ahead + 1)],
    with its two [break]s.  The lookahead argument of [recommend] is in
    scope of that loop and is not read by it. *)
Fixpoint forward_months_from (similar_teams_lookahead_months : Z)
    (aheads : list nat) (similar_months : list Z)
    (hist_idx : nat) (current_month : Z) : list Z :=
  match aheads with
  | [] => []
  | months_ahead :: rest =>
      match nth_error similar_months (hist_idx + months_ahead) with
      | None => []
      | Some similar_future_month =>
          if current_month <? similar_future_month then []
          else similar_future_month ::
               forward_months_from similar_teams_lookahead_months rest
                 similar_months hist_idx current_month
      end
  end.

Definition forward_months (similar_teams_lookahead_months : Z)
    (similar_months : list Z) (hist_idx : nat) (current_month : Z) : list Z :=
  forward_months_from similar_teams_lookahead_months (seq 1 max_months_ahead)
    similar_months hist_idx current_month.

(** The loop over [enumerate(zip(hist_state, future_state))] of step 2;
    [None] stands for the [IndexError] of [self.practices[j]]. *)
Fixpoint improvements_between (practices : list string) (j : nat)
    (hist_states future_states : vector) (best_improvements : dict string Q)
  : option (dict string Q) :=
  match hist_states, future_states with
  | hist_state :: hs, future_state :: fs =>
      if Qlt_bool hist_state future_state then
        match nth_error practices j with
        | None => None
        | Some practice_name =>
            let improvement_magnitude := (future_state - hist_state)%Q in
            let best' :=
              match dict_get best_improvements practice_name with
              | None => dict_set best_improvements practice_name improvement_magnitude
              | Some b =>
                  if Qlt_bool b improvement_magnitude
                  then dict_set best_improvements practice_name improvement_magnitude
                  else best_improvements
              end in
            improvements_between practices (S j) hs fs best'
        end
      else improvements_between practices (S j) hs fs best_improvements
  | _, _ => Some best_improvements
  end.

Fixpoint best_over_months (practices : list string) (similar_history : history)
    (similar_state_at_historical : vector) (months : list Z)
    (best_improvements : dict string Q) : option (dict string Q) :=
  match months with
  | [] => Some best_improvements
  | similar_future_month :: rest =>
      match dict_get similar_history similar_future_month with
      | None => None
      | Some similar_state_at_future =>
          match improvements_between practices 0 similar_state_at_historical
                  similar_state_at_future best_improvements with
          | None => None
          | Some best' =>
              best_over_months practices similar_history
                similar_state_at_historical rest best'
          end
      end
  end.

(** Body of the loop over the similar teams; [None] when the neighbour is
    left by [continue], directly or through the [except] clause. *)
Definition neighbour_improvements (p : DataProcessor.t) (practices : list string)
    (current_month : Z) (similar_teams_lookahead_months : Z) (n : neighbour)
  : option (dict string Q) :=
  match dict_get p (nb_team n) with
  | None => None
  | Some similar_history =>
      match dict_get similar_history (nb_month n) with
      | None => None
      | Some similar_state_at_historical =>
          let similar_months := sorted (dict_keys similar_history) in
          match index similar_months (nb_month n) with
          | None => None
          | Some hist_idx =>
              best_over_months practices similar_history similar_state_at_historical
                (forward_months similar_teams_lookahead_months similar_months
                   hist_idx current_month)
                []
          end
      end
  end.

Definition add_weighted (w : Q) (scores : dict string Q) (e : string * Q)
  : dict string Q :=
  dict_set scores (fst e) (score_get scores (fst e) + w * snd e)%Q.

(** Step 2: the similarity-based scores. *)
Definition similarity_scores_of (p : DataProcessor.t) (practices : list string)
    (current_month : Z) (similar_teams_lookahead_months : Z)
    (similar_teams : list neighbour) : dict string Q :=
  fold_left
    (fun scores n =>
       match neighbour_improvements p practices current_month
               similar_teams_lookahead_months n with
       | None => scores
       | Some best_improvements =>
           fold_left (add_weighted (nb_similarity n)) best_improvements scores
       end)
    similar_teams [].

(** The name [similarity_weight] after the loop
    [for similar_team, similarity_weight, historical_month in similar_teams]:
    the loop rebinds the argument of [recommend] at every iteration. *)
Definition similarity_weight_after_loop (similarity_weight : Q)
    (similar_teams : list neighbour) : Q :=
  fold_left (fun _ n => nb_similarity n) similar_teams similarity_weight.

(** Inner loop of step 3 over [enumerate(zip(past_scores, current_scores))]. *)
Fixpoint add_improved (practices : list string) (j : nat)
    (past_scores current_scores : vector) (recently : list string)
  : result (list string) :=
  match past_scores, current_scores with
  | past :: ps, curr :: cs =>
      if Qlt_bool past curr then
        match nth_error practices j with
        | None => Raise IndexError
        | Some practice_name =>
            add_improved practices (S j) ps cs (set_add recently practice_name)
        end
      else add_improved practices (S j) ps cs recently
  | _, _ => Ok recently
  end.

Fixpoint recently_improved_from (practices : list string) (h : history)
    (months_list : list Z) (current_idx : nat) (current_scores : vector)
    (months_backs : list nat) (recently : list string) : result (list string) :=
  match months_backs with
  | [] => Ok recently
  | months_back :: rest =>
      if (current_idx <? months_back)%nat then Ok recently
      else
        match nth_error months_list (current_idx - months_back) with
        | None => Raise IndexError
        | Some past_month =>
            match dict_get h past_month with
            | None => Raise KeyError
            | Some past_scores =>
                match add_improved practices 0 past_scores current_scores recently with
                | Raise e => Raise e
                | Ok recently' =>
                    recently_improved_from practices h months_list current_idx
                      current_scores rest recently'
                end
            end
        end
  end.

(** Step 3, first half: the practices the target improved recently. *)
Definition recently_improved (practices : list string) (h : history)
    (months_list : list Z) (current_idx : nat) (current_scores : vector)
    (recent_improvements_months : Z) : result (list string) :=
  let months_to_check := Z.min recent_improvements_months (Z.of_nat current_idx) in
  recently_improved_from practices h months_list current_idx current_scores
    (seq 1 (Z.to_nat months_to_check)) [].

(** Step 3, second half: the sequence-based scores. *)
Definition sequence_scores_of (s : SequenceMapper.mapper)
    (recently_improved_practices : list string) : dict string Q :=
  fold_left
    (fun scores recently_improved =>
       match SequenceMapper.get_typical_next_practices s recently_improved 3 with
       | Raise _ => scores
       | Ok nexts => fold_left (add_weighted 1%Q) nexts scores
       end)
    recently_improved_practices [].

(** [{p: (s / m if m > 0 else 0.0) for p, s in scores.items()}] with
    [m = max(scores.values()) if scores else 1.0] *)
Definition max_or_one (scores : dict string Q) : Q :=
  match max_of (dict_values scores) with Some m => m | None => 1%Q end.

Definition normalize (scores : dict string Q) : dict string Q :=
  let m := max_or_one scores in
  map (fun '(p, s) => (p, if Qlt_bool 0 m then (s / m)%Q else 0%Q)) scores.

(** Step 4: [practices_scores].  [similarity_weight] is the value the name
    holds when the combination is computed. *)
Definition combine (similarity_weight : Q)
    (similarity_scores sequence_scores : dict string Q) : dict string Q :=
  let normalized_similarity := normalize similarity_scores in
  let normalized_sequence := normalize sequence_scores in
  let all_practices :=
    fold_left set_add (dict_keys normalized_sequence)
      (fold_left set_add (dict_keys normalized_similarity) []) in
  fold_left
    (fun practices_scores practice =>
       let sim_score := score_get normalized_similarity practice in
       let seq_score := score_get normalized_sequence practice in
       dict_set practices_scores practice
         (similarity_weight * sim_score + (1 - similarity_weight) * seq_score)%Q)
    all_practices [].

(** Step 5, the loop over [practices_scores.items()]. *)
Fixpoint filter_scores (practices : list string) (current_scores : vector)
    (max_score : Q) (entries : list (string * Q)) (recommendations : list item)
  : result (list item) :=
  match entries with
  | [] => Ok recommendations
  | (practice, score) :: rest =>
      match index practices practice with
      | None => Raise ValueError
      | Some practice_idx =>
          match nth_error current_scores practice_idx with
          | None => Raise IndexError
          | Some current_level =>
              if Qle_bool 1 current_level
              then filter_scores practices current_scores max_score rest recommendations
              else
                let normalized_score :=
                  if Qlt_bool 0 max_score then (score / max_score)%Q else 0%Q in
                filter_scores practices current_scores max_score rest
                  (recommendations ++ [(practice, normalized_score, current_level)])
          end
      end
  end.

Definition filter_and_rank (practices : list string) (current_scores : vector)
    (practices_scores : dict string Q) (top_n : Z) : result (list item) :=
  let max_score := max_or_one practices_scores in
  match filter_scores practices current_scores max_score practices_scores [] with
  | Raise e => Raise e
  | Ok recommendations => Ok (take top_n (sort_desc item_score recommendations))
  end.

Section WithCosine.
Variable cosine_similarity : vector -> vector -> Q.

(** The state of one call of [recommend] once the similar teams are known;
    [practices_scores] is the map of combined scores of step 4. *)
Record scoring : Type := {
  current_scores : vector;
  similar_teams : list neighbour;
  similarity_scores : dict string Q;
  sequence_scores : dict string Q;
  practices_scores : dict string Q;
  recommendations : list item
}.

(** [recommend], returning with the list the values of its local variables. *)
Definition recommend_trace (p : DataProcessor.t) (practices : list string)
    (target_team : string) (current_month : Z) (top_n : Z) (k_similar : Z)
    (allow_first_three_months : bool) (similarity_weight : Q)
    (similar_teams_lookahead_months : Z) (recent_improvements_months : Z)
    (min_similarity_threshold : Q) (s : SequenceMapper.mapper)
  : result scoring * SequenceMapper.mapper :=
  match get_team_history p target_team with
  | Raise e => (Raise e, s)
  | Ok h =>
      let months_list := sorted (dict_keys h) in
      match dict_get h current_month with
      | None => (Raise ValueError, s)
      | Some current_scores =>
          let all_months := sorted (get_all_months p) in
          if negb allow_first_three_months
             && (2 <=? List.length all_months)%nat
             && mem current_month (firstn 1 all_months)
          then (Raise ValueError, s)
          else
            match index months_list current_month with
            | None => (Raise ValueError, s)
            | Some current_idx =>
                match SequenceMapper.learn_sequences_up_to_month p current_month s with
                | (Raise e, s') => (Raise e, s')
                | (Ok _, s') =>
                    match find_similar_teams cosine_similarity p target_team
                            current_month k_similar min_similarity_threshold with
                    | Raise e => (Raise e, s')
                    | Ok [] => (Raise ValueError, s')
                    | Ok similar_teams =>
                        let similarity_scores :=
                          similarity_scores_of p practices current_month
                            similar_teams_lookahead_months similar_teams in
                        let similarity_weight :=
                          similarity_weight_after_loop similarity_weight similar_teams in
                        match recently_improved practices h months_list current_idx
                                current_scores recent_improvements_months with
                        | Raise e => (Raise e, s')
                        | Ok recently_improved_practices =>
                            let sequence_scores :=
                              sequence_scores_of s' recently_improved_practices in
                            let practices_scores :=
                              combine similarity_weight similarity_scores sequence_scores in
                            match filter_and_rank practices current_scores
                                    practices_scores top_n with
                            | Raise e => (Raise e, s')
                            | Ok recs =>
                                (Ok {| current_scores := current_scores;
                                   similar_teams := similar_teams;
                                       similarity_scores := similarity_scores;
                                       sequence_scores := sequence_scores;
                                       practices_scores := practices_scores;
                                       recommendations := recs |}, s')
                            end
                        end
                    end
                end
            end
      end
  end.

Definition recommend (p : DataProcessor.t) (practices : list string)
    (target_team : string) (current_month : Z) (top_n : Z) (k_similar : Z)
    (allow_first_three_months : bool) (similarity_weight : Q)
    (similar_teams_lookahead_months : Z) (recent_improvements_months : Z)
    (min_similarity_threshold : Q) (s : SequenceMapper.mapper)
  : result (list item) * SequenceMapper.mapper :=
  match recommend_trace p practices target_team current_month top_n k_similar
          allow_first_three_months similarity_weight
          similar_teams_lookahead_months recent_improvements_months
          min_similarity_threshold s with
  | (Ok t, s') => (Ok (recommendations t), s')
  | (Raise e, s') => (Raise e, s')
  end.
End WithCosine.

(** The item [r] stands for an entry of [practices_scores] of a practice
    below full maturity, its score divided by [divisor]. *)
Definition rescaled (practices : list string) (t : scoring) (divisor : Q)
    (r : item) : Prop :=
  exists combined practice_idx,
    In (item_practice r, combined) (practices_scores t)
    /\ index practices (item_practice r) = Some practice_idx
    /\ nth_error (current_scores t) practice_idx = Some (item_level r)
    /\ (item_level r < 1)%Q
    /\ item_score r = if Qlt_bool 0 divisor then (combined / divisor)%Q else 0%Q.

End RecommendationEngine.

(** ** [BacktestEngine] *)

Module BacktestEngine.
Import DataProcessor SimilarityEngine RecommendationEngine.

(** The [config] dictionary, read with [config.get(key, default)]. *)
Record config : Type := {
  top_n : Z;
  k_similar : Z;
  similarity_weight : Q;
  similar_teams_lookahead_months : Z;
  recent_improvements_months : Z;
  min_similarity_threshold : Q
}.

Definition default_config : config :=
  {| top_n := 2;
     k_similar := 19;
     similarity_weight := 6 # 10;
     similar_teams_lookahead_months := 3;
     recent_improvements_months := 3;
     min_similarity_threshold := 75 # 100 |}.

Record month_result : Type := {
  month : Z;
  train_months : list Z;
  predictions : Z;
  correct : Z;
  accuracy : Q;
  teams_tested : nat
}.

(** Values stored in the result dictionaries. *)
Inductive value : Type :=
| VNone
| VInt (z : Z)
| VFloat (q : Q)
| VBool (b : bool)
| VStr (s : string)
| VMonths (l : list month_result)
| VConfig (c : config).

(** The accumulators of [run_backtest]. *)
Record progress : Type := {
  per_month_results : list month_result;
  total_predictions : Z;
  total_correct : Z;
  improvements_per_case : list Z;
  all_teams_tested : list string
}.

Definition start : progress :=
  {| per_month_results := [];
     total_predictions := 0;
     total_correct := 0;
     improvements_per_case := [];
     all_teams_tested := [] |}.

(** What the call works on besides its accumulators: the sequence mapper of
    the recommender, and how often the cancellation predicate was polled. *)
Record world : Type := {
  mapper : SequenceMapper.mapper;
  polls : nat
}.

(** [cancellation_check]: [None] when absent, else the answer of each poll
    in turn. *)
Definition cancellation : Type := option (nat -> bool).

Definition poll (cancellation_check : cancellation) (w : world) : bool * world :=
  match cancellation_check with
  | None => (false, w)
  | Some check => (check (polls w), {| mapper := mapper w; polls := S (polls w) |})
  end.

(** [sum(r["accuracy"] for r in per_month_results) / len(per_month_results)],
    or 0 *)
Definition overall_accuracy_of (per_month : list month_result) : Q :=
  match per_month with
  | [] => 0%Q
  | _ => (sum_Q (map accuracy per_month) / inject_Z (Z.of_nat (List.length per_month)))%Q
  end.

Definition mean_Z (l : list Z) : Q :=
  (inject_Z (sum_Z l) / inject_Z (Z.of_nat (List.length l)))%Q.

Definition linear_baseline (n : nat) (k_avg : Q) (top_n : Z) : Q :=
  Qmin 1 ((k_avg / inject_Z (Z.of_nat n)) * inject_Z top_n)%Q.

Section WithComb.
(** [scipy.special.comb(N, k, exact=True)]; [None] when it raises
    [ValueError]. *)
Variable comb : Q -> Z -> option Q.

Definition random_baseline_of (n : nat) (improvements : list Z) (top_n : Z) : Q :=
  match improvements, n with
  | [], _ | _, O => 0%Q
  | _, _ =>
      let k_avg := mean_Z improvements in
      let nq := inject_Z (Z.of_nat n) in
      if Qlt_bool 0 k_avg && (0 <? top_n) && Qle_bool k_avg nq
         && (top_n <=? Z.of_nat n)
      then
        match comb (nq - k_avg)%Q top_n, comb nq top_n with
        | Some a, Some b =>
            if Qeq_bool b 0 then linear_baseline n k_avg top_n
            else (1 - a / b)%Q
        | _, _ => linear_baseline n k_avg top_n
        end
      else linear_baseline n k_avg top_n
  end.

Definition improvement_gap_of (n : nat) (pr : progress) (top_n : Z) : Q :=
  match improvements_per_case pr, n with
  | [], _ | _, O => 0%Q
  | _, _ =>
      (overall_accuracy_of (per_month_results pr)
       - random_baseline_of n (improvements_per_case pr) top_n)%Q
  end.

Definition improvement_factor_of (n : nat) (pr : progress) (top_n : Z) : Q :=
  let random_baseline := random_baseline_of n (improvements_per_case pr) top_n in
  if Qlt_bool 0 random_baseline
  then (overall_accuracy_of (per_month_results pr) / random_baseline)%Q
  else 0%Q.

Definition avg_improvements_of (pr : progress) : Q :=
  match improvements_per_case pr with
  | [] => 0%Q
  | l => mean_Z l
  end.

Definition _build_partial_results (practices : list string) (pr : progress)
    (top_n : Z) : dict string value :=
  let n := List.length practices in
  [("status"%string, VStr "success");
   ("per_month_results"%string, VMonths (per_month_results pr));
   ("total_predictions"%string, VInt (total_predictions pr));
   ("correct_predictions"%string, VInt (total_correct pr));
   ("overall_accuracy"%string, VFloat (overall_accuracy_of (per_month_results pr)));
   ("random_baseline"%string, VFloat (random_baseline_of n (improvements_per_case pr) top_n));
   ("improvement_gap"%string, VFloat (improvement_gap_of n pr top_n));
   ("improvement_factor"%string, VFloat (improvement_factor_of n pr top_n));
   ("teams_tested"%string, VInt (Z.of_nat (List.length (all_teams_tested pr))));
   ("avg_improvements_per_case"%string, VFloat (avg_improvements_of pr));
   ("cancelled"%string, VBool true)].

(** The dictionary returned at the end of an uncancelled run. *)
Definition final_results (practices : list string) (pr : progress)
    (top_n : Z) : dict string value :=
  let n := List.length practices in
  let overall_accuracy := overall_accuracy_of (per_month_results pr) in
  let random_baseline := random_baseline_of n (improvements_per_case pr) top_n in
  [("status"%string, VStr "success");
   ("per_month_results"%string, VMonths (per_month_results pr));
   ("total_predictions"%string, VInt (total_predictions pr));
   ("correct_predictions"%string, VInt (total_correct pr));
   ("overall_accuracy"%string, VFloat overall_accuracy);
   ("random_baseline"%string, VFloat random_baseline);
   ("improvement_gap"%string, VFloat (improvement_gap_of n pr top_n));
   ("improvement_factor"%string, VFloat (improvement_factor_of n pr top_n));
   ("teams_tested"%string, VInt (Z.of_nat (List.length (all_teams_tested pr))));
   ("avg_improvements_per_case"%string, VFloat (avg_improvements_of pr));
   ("cancelled"%string, VBool false)].

Definition insufficient_data : dict string value :=
  [("error"%string, VStr "Need at least 4 time periods (start from month 4)");
   ("cancelled"%string, VBool false)].
End WithComb.

(** The practices that rose from [prev_vector] to [other]; [None] stands for
    the [IndexError] of [self.recommender.practices[j]]. *)
Fixpoint improved_set (practices : list string) (j : nat)
    (prev_vector other : vector) (acc : list string) : option (list string) :=
  match prev_vector, other with
  | p :: pv, t :: ov =>
      if Qlt_bool p t then
        match nth_error practices j with
        | None => None
        | Some name => improved_set practices (S j) pv ov (set_add acc name)
        end
      else improved_set practices (S j) pv ov acc
  | _, _ => Some acc
  end.

(** The improvements [offset] months after the test month, if that month
    exists in the team's own months. *)
Definition improved_later (practices : list string) (h : history)
    (team_months : list Z) (prev_vector : vector) (idx : nat)
  : option (list string) :=
  match nth_error team_months idx with
  | None => Some []
  | Some m =>
      match dict_get h m with
      | None => None
      | Some v => improved_set practices 0 prev_vector v []
      end
  end.

(** How a loop ends: it runs to its end, or returns the partial results,
    or an exception leaves [run_backtest]. *)
Inductive ending (A : Type) : Type :=
| Completed (a : A) (w : world)
| Cancelled (pr : progress) (w : world)
| Failed (e : exn) (w : world).
Arguments Completed {A} a w.
Arguments Cancelled {A} pr w.
Arguments Failed {A} e w.

Record month_counters : Type := {
  month_predictions : Z;
  month_correct : Z;
  teams_tested_this_month : list string
}.

Section WithLibraries.
Variable cosine_similarity : vector -> vector -> Q.
Variable comb : Q -> Z -> option Q.

(** Body of the [try] of the loop over teams: every exception is caught
    and the loop goes to the next team with what was recorded so far. *)
Definition evaluate_team (p : DataProcessor.t) (practices : list string)
    (cfg : config) (months : list Z) (test_month : Z) (team : string)
    (st : progress * month_counters * SequenceMapper.mapper)
  : progress * month_counters * SequenceMapper.mapper :=
  let '(pr, mc, s) := st in
  match dict_get p team with
  | None => st
  | Some h =>
      let team_months := sorted (filter (fun m => dict_mem h m) months) in
      match dict_get h test_month, index team_months test_month with
      | Some test_vector, Some (S prev_idx as test_idx) =>
          match nth_error team_months prev_idx with
          | None => st
          | Some prev_month =>
              match dict_get h prev_month with
              | None => st
              | Some prev_vector =>
                  match improved_set practices 0 prev_vector test_vector [],
                        improved_later practices h team_months prev_vector (test_idx + 1),
                        improved_later practices h team_months prev_vector (test_idx + 2)
                  with
                  | Some m1, Some m2, Some m3 =>
                      let actual_improved :=
                        fold_left set_add m3 (fold_left set_add m2 m1) in
                      match actual_improved with
                      | [] => st
                      | _ =>
                          let pr1 :=
                            {| per_month_results := per_month_results pr;
                               total_predictions := total_predictions pr;
                               total_correct := total_correct pr;
                               improvements_per_case :=
                                 improvements_per_case pr
                                 ++ [Z.of_nat (List.length actual_improved)];
                               all_teams_tested := all_teams_tested pr |} in
                          match recommend cosine_similarity p practices team
                                  prev_month (top_n cfg) (k_similar cfg) true
                                  (similarity_weight cfg)
                                  (similar_teams_lookahead_months cfg)
                                  (recent_improvements_months cfg)
                                  (min_similarity_threshold cfg) s with
                          | (Raise _, s') => (pr1, mc, s')
                          | (Ok recs, s') =>
                              let recommended := map item_practice recs in
                              let hit :=
                                existsb (fun r => mem r actual_improved) recommended in
                              ({| per_month_results := per_month_results pr1;
                                  total_predictions := total_predictions pr1 + 1;
                                  total_correct :=
                                    if hit then total_correct pr1 + 1
                                    else total_correct pr1;
                                  improvements_per_case := improvements_per_case pr1;
                                  all_teams_tested := set_add (all_teams_tested pr1) team |},
                               {| month_predictions := month_predictions mc + 1;
                                  month_correct :=
                                    if hit then month_correct mc + 1 else month_correct mc;
                                  teams_tested_this_month :=
                                    set_add (teams_tested_this_month mc) team |},
                               s')
                          end
                      end
                  | _, _, _ => st
                  end
              end
          end
      | _, _ => st
      end
  end.

(** The loop over teams of one test month. *)
Fixpoint run_teams (p : DataProcessor.t) (practices : list string)
    (cfg : config) (cancellation_check : cancellation) (months : list Z)
    (test_month : Z) (teams : list string) (team_count : Z)
    (pr : progress) (mc : month_counters) (w : world)
  : ending (progress * month_counters) :=
  match teams with
  | [] => Completed (pr, mc) w
  | team :: rest =>
      let team_count := team_count + 1 in
      let '(is_cancelled, w1) :=
        match cancellation_check with
        | Some _ =>
            if team_count mod 10 =? 0 then poll cancellation_check w else (false, w)
        | None => (false, w)
        end in
      if is_cancelled then Cancelled pr w1
      else
        let '(pr', mc', s') :=
          evaluate_team p practices cfg months test_month team (pr, mc, mapper w1) in
        run_teams p practices cfg cancellation_check months test_month rest
          team_count pr' mc' {| mapper := s'; polls := polls w1 |}
  end.

(** Body of the loop over test months. *)
Definition run_month (p : DataProcessor.t) (practices : list string)
    (cfg : config) (cancellation_check : cancellation) (months : list Z)
    (teams : list string) (test_month_idx : nat) (pr : progress) (w : world)
  : ending progress :=
  let '(is_cancelled, w1) := poll cancellation_check w in
  if is_cancelled then Cancelled pr w1
  else
    match nth_error months test_month_idx with
    | None => Failed IndexError w1
    | Some test_month =>
        let train := firstn test_month_idx months in
        match train with
        | [] => Completed pr w1
        | _ =>
            let '(is_cancelled, w2) := poll cancellation_check w1 in
            if is_cancelled then Cancelled pr w2
            else
              match SequenceMapper.learn_sequences_up_to_month p test_month (mapper w2) with
              | (Raise e, s') => Failed e {| mapper := s'; polls := polls w2 |}
              | (Ok _, s') =>
                  match run_teams p practices cfg cancellation_check months test_month
                          teams 0 pr
                          {| month_predictions := 0; month_correct := 0;
                             teams_tested_this_month := [] |}
                          {| mapper := s'; polls := polls w2 |} with
                  | Failed e w3 => Failed e w3
                  | Cancelled pr' w3 => Cancelled pr' w3
                  | Completed (pr', mc) w3 =>
                      let month_accuracy :=
                        if 0 <? month_predictions mc
                        then (inject_Z (month_correct mc)
                              / inject_Z (month_predictions mc))%Q
                        else 0%Q in
                      Completed
                        {| per_month_results :=
                             per_month_results pr'
                             ++ [{| month := test_month;
                                    train_months := train;
                                    predictions := month_predictions mc;
                                    correct := month_correct mc;
                                    accuracy := month_accuracy;
                                    teams_tested :=
                                      List.length (teams_tested_this_month mc) |}];
                           total_predictions := total_predictions pr';
                           total_correct := total_correct pr';
                           improvements_per_case := improvements_per_case pr';
                           all_teams_tested := all_teams_tested pr' |}
                        w3
                  end
              end
        end
    end.

Fixpoint run_months (p : DataProcessor.t) (practices : list string)
    (cfg : config) (cancellation_check : cancellation) (months : list Z)
    (teams : list string) (idxs : list nat) (pr : progress) (w : world)
  : ending progress :=
  match idxs with
  | [] => Completed pr w
  | test_month_idx :: rest =>
      match run_month p practices cfg cancellation_check months teams
              test_month_idx pr w with
      | Completed pr' w' =>
          run_months p practices cfg cancellation_check months teams rest pr' w'
      | stop => stop
      end
  end.

(** [run_backtest(config=cfg, cancellation_check=...)]; [practices] is
    [self.recommender.practices]. *)
Definition run_backtest (p : DataProcessor.t) (practices : list string)
    (cfg : config) (cancellation_check : cancellation) (w : world)
  : result (dict string value) * world :=
  let months := sorted (get_all_months p) in
  let teams := get_all_teams p in
  if (List.length months <? 4)%nat then (Ok insufficient_data, w)
  else
    match run_months p practices cfg cancellation_check months teams
            (seq 3 (List.length months - 3)) start w with
    | Failed e w' => (Raise e, w')
    | Cancelled pr w' => (Ok (_build_partial_results comb practices pr (top_n cfg)), w')
    | Completed pr w' => (Ok (final_results comb practices pr (top_n cfg)), w')
    end.
End WithLibraries.


Definition is_integral (x : Q) : Prop := exists z : Z, (x == inject_Z z)%Q.




(** A month's accuracy is [correct / predictions], or 0 without predictions. *)
Definition month_ok (r : month_result) : Prop :=
  accuracy r
  = if 0 <? predictions r
    then (inject_Z (correct r) / inject_Z (predictions r))%Q
    else 0%Q.

(** Every recorded month is of that kind, and every recorded case improved
    at least one practice. *)
Definition progress_ok (pr : progress) : Prop :=
  Forall month_ok (per_month_results pr)
  /\ Forall (fun k => 1 <= k) (improvements_per_case pr).

Definition ending_ok {A} (get : A -> progress) (e : ending A) : Prop :=
  match e with
  | Completed a _ => progress_ok (get a)
  | Cancelled pr _ => progress_ok pr
  | Failed _ _ => True
  end.

(** The result reports [pr]: it is the dictionary built from [pr], for a
    cancelled or for a completed run. *)
Definition reports (comb : Q -> Z -> option Q) (practices : list string)
    (top_n : Z) (d : dict string value) (pr : progress) : Prop :=
  d = _build_partial_results comb practices pr top_n
  \/ d = final_results comb practices pr top_n.

(** The counters of a month in progress agree with the totals: the totals
    are the sums over the recorded months plus the month in progress, hits
    never exceed predictions, and the teams tested are distinct teams of
    [teams]. *)
Definition loop_sound (teams : list string) (pr : progress) (mc : month_counters)
  : Prop :=
  Forall (fun r => 0 <= correct r <= predictions r /\ month_ok r)
    (per_month_results pr)
  /\ total_predictions pr
     = sum_Z (map predictions (per_month_results pr)) + month_predictions mc
  /\ total_correct pr
     = sum_Z (map correct (per_month_results pr)) + month_correct mc
  /\ 0 <= month_correct mc <= month_predictions mc
  /\ NoDup (all_teams_tested pr)
  /\ incl (all_teams_tested pr) teams.

Definition no_month : month_counters :=
  {| month_predictions := 0; month_correct := 0; teams_tested_this_month := [] |}.

(** The result [r] is for the month of index [i], trained on the months
    before it. *)
Definition month_at (months : list Z) (r : month_result) (i : nat) : Prop :=
  nth_error months i = Some (month r) /\ train_months r = firstn i months.

(** Every poll numbered from [a] up to [b], [b] excluded, answered "go on". *)
Definition all_false (check : nat -> bool) (a b : nat) : Prop :=
  forall k, (a <= k < b)%nat -> check k = false.

(** The last poll before [b] asked to stop, and none before it did. *)
Definition stopped_at (check : nat -> bool) (a b : nat) : Prop :=
  (a < b)%nat /\ check (Nat.pred b) = true /\ all_false check a (Nat.pred b).

(** How [get_accuracy_summary] ends: with its text, with the [KeyError] of a
    key that is missing, or with the [TypeError] or [ValueError] of a value
    that the comparison, the division, the format or [len] does not take. *)
Inductive summary : Type :=
| Text (text : string)
| MissingKey (key : string)
| BadValue.

(** The values Python compares, divides and formats as numbers *)
Definition number_of (v : value) : option Q :=
  match v with
  | VInt z => Some (inject_Z z)
  | VFloat q => Some q
  | VBool b => Some (if b then 1 else 0)%Q
  | _ => None
  end.

(** The values [len] takes *)
Definition sized (v : value) : bool :=
  match v with
  | VStr _ | VMonths _ | VConfig _ => true
  | _ => false
  end.

Section WithFormat.
(** The two f-strings of [get_accuracy_summary], applied to the values they
    interpolate. *)
Variable format_error : value -> string.
Variable format_summary :
  value -> value -> Q -> Q -> Q -> value -> value -> value -> string.

Definition get_accuracy_summary (backtest_results : dict string value) : summary :=
  if dict_mem backtest_results "error"%string then
    match dict_get backtest_results "error"%string with
    | Some e => Text (format_error e)
    | None => MissingKey "error"
    end
  else
    match dict_get backtest_results "overall_accuracy"%string with
    | None => MissingKey "overall_accuracy"
    | Some accuracy =>
    match dict_get backtest_results "random_baseline"%string with
    | None => MissingKey "random_baseline"
    | Some baseline =>
    match number_of baseline with
    | None => BadValue
    | Some b =>
    match (if Qlt_bool 0 b
           then option_map (fun a => (a / b)%Q) (number_of accuracy)
           else Some 0%Q) with
    | None => BadValue
    | Some improvement =>
    match dict_get backtest_results "total_predictions"%string with
    | None => MissingKey "total_predictions"
    | Some total =>
    match dict_get backtest_results "correct_predictions"%string with
    | None => MissingKey "correct_predictions"
    | Some hits =>
    match number_of accuracy with
    | None => BadValue
    | Some a =>
    match dict_get backtest_results "teams_tested"%string with
    | None => MissingKey "teams_tested"
    | Some teams =>
    match dict_get backtest_results "train_months"%string with
    | None => MissingKey "train_months"
    | Some train =>
    if negb (sized train) then BadValue
    else
    match dict_get backtest_results "test_months"%string with
    | None => MissingKey "test_months"
    | Some test =>
    if negb (sized test) then BadValue
    else Text (format_summary total hits a b improvement teams train test)
    end end end end end end end end end end.
End WithFormat.

End BacktestEngine.

(** ** [OptimizationEngine] *)

Module OptimizationEngine.

Definition world : Type := BacktestEngine.world.
Definition value : Type := BacktestEngine.value.

(** The six parameter lists of [generate_parameter_combinations]. *)
Record ranges : Type := {
  top_n_range : list Z;
  similarity_weight_range : list Q;
  k_similar_range : list Z;
  similar_teams_lookahead_months_range : list Z;
  recent_improvements_months_range : list Z;
  min_similarity_threshold_range : list Q
}.

Definition default_ranges : ranges :=
  {| top_n_range := [2; 3; 4; 5];
     similarity_weight_range := [6 # 10; 7 # 10; 8 # 10];
     k_similar_range := [5; 10; 15; 19; 20];
     similar_teams_lookahead_months_range := [3];
     recent_improvements_months_range := [3];
     min_similarity_threshold_range := [0%Q; 5 # 10; 75 # 100] |}.

(** [itertools.product] of the six lists, then [config.update(fixed_params)]. *)
Definition generate_parameter_combinations (r : ranges)
    (fixed_params : BacktestEngine.config -> BacktestEngine.config)
  : list BacktestEngine.config :=
  flat_map (fun top_n =>
  flat_map (fun similarity_weight =>
  flat_map (fun k_similar =>
  flat_map (fun lookahead =>
  flat_map (fun recent =>
  map (fun min_sim =>
         fixed_params
           {| BacktestEngine.top_n := top_n;
              BacktestEngine.k_similar := k_similar;
              BacktestEngine.similarity_weight := similarity_weight;
              BacktestEngine.similar_teams_lookahead_months := lookahead;
              BacktestEngine.recent_improvements_months := recent;
              BacktestEngine.min_similarity_threshold := min_sim |})
      (min_similarity_threshold_range r))
      (recent_improvements_months_range r))
      (similar_teams_lookahead_months_range r))
      (k_similar_range r))
      (similarity_weight_range r))
      (top_n_range r).

(** [result.get(key, default)] for a number, a count and a flag *)
Definition num_get (d : dict string value) (key : string) (default : Q) : Q :=
  match dict_get d key with
  | Some (BacktestEngine.VFloat q) => q
  | Some (BacktestEngine.VInt z) => inject_Z z
  | _ => default
  end.

Definition int_get (d : dict string value) (key : string) (default : Z) : Z :=
  match dict_get d key with
  | Some (BacktestEngine.VInt z) => z
  | _ => default
  end.

Definition flag_get (d : dict string value) (key : string) (default : bool) : bool :=
  match dict_get d key with
  | Some (BacktestEngine.VBool b) => b
  | _ => default
  end.

(** An element of [valid_results]. *)
Record entry : Type := {
  config : BacktestEngine.config;
  model_accuracy : Q;
  random_baseline : Q;
  improvement_gap : Q;
  improvement_factor : Q;
  total_predictions : Z;
  correct_predictions : Z
}.

Definition entry_of (c : BacktestEngine.config) (accuracy : Q)
    (result : dict string value) : entry :=
  {| config := c;
     model_accuracy := accuracy;
     random_baseline := num_get result "random_baseline" 0;
     improvement_gap := num_get result "improvement_gap" 0;
     improvement_factor := num_get result "improvement_factor" 0;
     total_predictions := int_get result "total_predictions" 0;
     correct_predictions := int_get result "correct_predictions" 0 |}.

(** The local variables of the search loop; [best_config = None] stands for
    the initial [best_improvement_gap = float("-inf")]. *)
Record search : Type := {
  valid_results : list entry;
  best_config : option entry;
  early_stopped : bool;
  cancelled : bool;
  last_idx : option nat
}.

Definition search_start : search :=
  {| valid_results := []; best_config := None;
     early_stopped := false; cancelled := false; last_idx := None |}.

Definition beats (gap : Q) (best : option entry) : bool :=
  match best with
  | None => true
  | Some b => Qlt_bool (improvement_gap b) gap
  end.

Record optimization_result : Type := {
  optimal_config : option BacktestEngine.config;
  optimal : option entry;
  total_combinations_tested : nat;
  total_combinations_available : nat;
  valid_combinations : nat;
  all_results : list entry;
  result_early_stopped : bool;
  result_cancelled : bool
}.

Section WithBacktest.
(** [self.backtest_engine.run_backtest(config=..., cancellation_check=...)] *)
Variable run_backtest :
  BacktestEngine.config -> BacktestEngine.cancellation -> world
  -> result (dict string value) * world.

Variables (min_accuracy early_stop_threshold early_stop_min_tested : Q).

(** The loop [for idx, config in enumerate(combinations)].  [flag] gives
    the value of [self._cancelled] at each read. *)
Fixpoint search_loop (flag : nat -> bool) (total_combinations : nat)
    (combinations : list BacktestEngine.config) (idx : nat)
    (st : search) (w : world) : search * world :=
  match combinations with
  | [] => (st, w)
  | c :: rest =>
      let st := {| valid_results := valid_results st;
                   best_config := best_config st;
                   early_stopped := early_stopped st;
                   cancelled := cancelled st;
                   last_idx := Some idx |} in
      let '(is_cancelled, w1) := BacktestEngine.poll (Some flag) w in
      if is_cancelled then
        ({| valid_results := valid_results st; best_config := best_config st;
            early_stopped := early_stopped st; cancelled := true;
            last_idx := last_idx st |}, w1)
      else
        match run_backtest c (Some flag) w1 with
        | (Raise _, w2) => search_loop flag total_combinations rest (S idx) st w2
        | (Ok result, w2) =>
            if flag_get result "cancelled" false then
              ({| valid_results := valid_results st; best_config := best_config st;
                  early_stopped := early_stopped st; cancelled := true;
                  last_idx := last_idx st |}, w2)
            else if dict_mem result "error"%string then
              search_loop flag total_combinations rest (S idx) st w2
            else
              let accuracy := num_get result "overall_accuracy" 0 in
              if Qle_bool min_accuracy accuracy then
                let e := entry_of c accuracy result in
                let gap := improvement_gap e in
                let valid := valid_results st ++ [e] in
                if beats gap (best_config st) then
                  let tested_fraction :=
                    (inject_Z (Z.of_nat (S idx))
                     / inject_Z (Z.of_nat total_combinations))%Q in
                  let stop_now :=
                    if Qlt_bool early_stop_threshold gap
                    then Qle_bool early_stop_min_tested tested_fraction
                         || Qlt_bool (30 # 100) gap
                    else Qlt_bool (20 # 100) gap
                         && Qle_bool (5 # 10) tested_fraction in
                  let st' := {| valid_results := valid; best_config := Some e;
                                early_stopped := stop_now; cancelled := cancelled st;
                                last_idx := last_idx st |} in
                  if stop_now then (st', w2)
                  else search_loop flag total_combinations rest (S idx) st' w2
                else
                  search_loop flag total_combinations rest (S idx)
                    {| valid_results := valid; best_config := best_config st;
                       early_stopped := early_stopped st; cancelled := cancelled st;
                       last_idx := last_idx st |} w2
              else search_loop flag total_combinations rest (S idx) st w2
        end
  end.

(** [find_optimal_config]; writing the result file is left out. *)
Definition find_optimal_config (r : ranges)
    (fixed_params : BacktestEngine.config -> BacktestEngine.config)
    (flag : nat -> bool) (w : world) : optimization_result * world :=
  let combinations := generate_parameter_combinations r fixed_params in
  let total_combinations := List.length combinations in
  let '(st, w') :=
    search_loop flag total_combinations combinations 0 search_start w in
  let sorted_results := sort_desc improvement_gap (valid_results st) in
  let tested_count :=
    if cancelled st || early_stopped st then
      match last_idx st with Some idx => S idx | None => O end
    else total_combinations in
  ({| optimal_config :=
        match best_config st with Some b => Some (config b) | None => None end;
      optimal := best_config st;
      total_combinations_tested := tested_count;
      total_combinations_available := total_combinations;
      valid_combinations := List.length (valid_results st);
      all_results := firstn 50 sorted_results;
      result_early_stopped := early_stopped st;
      result_cancelled := cancelled st |}, w').
End WithBacktest.

(** The early-stopping test on a new best gap, after [tested] of [total]
    combinations. *)
Definition stop_rule (early_stop_threshold early_stop_min_tested gap : Q)
    (tested total : nat) : bool :=
  let tested_fraction :=
    (inject_Z (Z.of_nat tested) / inject_Z (Z.of_nat total))%Q in
  if Qlt_bool early_stop_threshold gap
  then Qle_bool early_stop_min_tested tested_fraction || Qlt_bool (30 # 100) gap
  else Qlt_bool (20 # 100) gap && Qle_bool (5 # 10) tested_fraction.

(** The state before the iteration of index [idx]: nothing has stopped the
    loop, and at most [idx] results were accepted. *)
Definition running (idx : nat) (st : search) : Prop :=
  cancelled st = false
  /\ early_stopped st = false
  /\ (List.length (valid_results st) <= idx)%nat
  /\ last_idx st = match idx with O => None | S i => Some i end.

(** The state after the loop over [total] combinations. *)
Definition ended (early_stop_threshold early_stop_min_tested : Q) (total : nat)
    (st : search) : Prop :=
  match cancelled st, early_stopped st with
  | false, false => (List.length (valid_results st) <= total)%nat
  | true, false =>
      exists j, last_idx st = Some j /\ (j < total)%nat
                /\ (List.length (valid_results st) <= j)%nat
  | false, true =>
      exists j e, last_idx st = Some j /\ (j < total)%nat
                  /\ (List.length (valid_results st) <= S j)%nat
                  /\ best_config st = Some e
                  /\ stop_rule early_stop_threshold early_stop_min_tested
                       (improvement_gap e) (S j) total = true
  | true, true => False
  end.

(** The best configuration is the first accepted one of greatest gap. *)
Definition tracked (st : search) : Prop :=
  best_config st = first_max improvement_gap (valid_results st).

End OptimizationEngine.


(** ** Library functions and data used to run the model *)

Module Examples.
Import DataProcessor.

Definition dot (a b : vector) : Q :=
  sum_Q (map (fun '(x, y) => (x * y)%Q) (combine a b)).

(** The non-negative root of a rational square. *)
Definition Qroot (q : Q) : Q :=
  let r := Qred q in Z.sqrt (Qnum r) # Pos.sqrt (Qden r).

(** Cosine of two vectors whose norms are rational (a zero vector has
    similarity 0 with every vector, as in [sklearn]). *)
Definition cosine_exact (a b : vector) : Q :=
  let n := (Qroot (dot a a) * Qroot (dot b b))%Q in
  if Qeq_bool n 0 then 0%Q else Qred (dot a b / n).

Fixpoint falling (x : Q) (k : nat) : Q :=
  match k with
  | O => 1%Q
  | S k' => (x * falling (x - 1) k')%Q
  end.

(** The binomial coefficient [x (x-1) ... (x-k+1) / k!] of a real [x]. *)
Definition binomial (x : Q) (k : Z) : Q :=
  (falling x (Z.to_nat k) / inject_Z (Z.of_nat (fact (Z.to_nat k))))%Q.


(** [comb] of the releases of [scipy] that disregard [exact=True] on a
    fractional argument: the real-valued coefficient, 0 outside [0 <= k <= N]. *)
Definition comb_real (N : Q) (k : Z) : option Q :=
  Some (if (0 <=? k) && Qle_bool (inject_Z k) N then Qred (binomial N k) else 0%Q).

(** [comb] of the [scipy] releases that cast the arguments to integers. *)
Definition comb_cast (N : Q) (k : Z) : option Q :=
  comb_real (inject_Z (Qnum N / Z.pos (Qden N))) k.

Definition m1 : Z := 20200101.
Definition m2 : Z := 20200201.
Definition m3 : Z := 20200301.
Definition m4 : Z := 20200401.

Definition P3 : list string := ["P1"; "P2"; "P3"]%string.

(** Three teams over three months: [TeamC] improved P1 and P2 together,
    [TeamB] improved P3 after resembling [TeamA], [TeamA] just improved P1. *)
Definition store_weight : DataProcessor.t :=
  [("TeamA"%string, [(m2, [0; 0; 0]%Q); (m3, [1 # 3; 0; 0]%Q)]);
   ("TeamB"%string, [(m1, [1 # 3; 0; 0]%Q); (m2, [1 # 3; 0; 0]%Q); (m3, [1 # 3; 0; 1 # 3]%Q)]);
   ("TeamC"%string, [(m1, [0; 0; 0]%Q); (m2, [3 # 5; 4 # 5; 0]%Q)])].

Definition P4 : list string := ["P1"; "P2"; "P3"; "P4"]%string.

(** Two teams over four months: at the fourth month [TeamX] improves one
    practice and [TeamY] two. *)
Definition store_four : DataProcessor.t :=
  [("TeamX"%string,
    [(m1, [1 # 3; 0; 0; 0]%Q); (m2, [1 # 3; 0; 0; 0]%Q);
     (m3, [1 # 3; 0; 0; 0]%Q); (m4, [2 # 3; 0; 0; 0]%Q)]);
   ("TeamY"%string,
    [(m1, [1 # 3; 0; 0; 0]%Q); (m2, [2 # 3; 0; 0; 0]%Q);
     (m3, [2 # 3; 0; 0; 0]%Q); (m4, [1; 1 # 3; 0; 0]%Q)])].

(** A neighbour whose only improvement comes three months after the month
    at which it resembles the target. *)
Definition store_late : DataProcessor.t :=
  [("TeamT"%string, [(m3, [2 # 3; 0; 0]%Q); (m4, [2 # 3; 0; 0]%Q)]);
   ("TeamN"%string,
    [(m1, [1 # 3; 0; 0]%Q); (m2, [1 # 3; 0; 0]%Q);
     (m3, [1 # 3; 0; 0]%Q); (m4, [1 # 3; 1 # 3; 0]%Q)])].

Definition P2 : list string := ["P1"; "P2"]%string.

(** A target at full maturity on the practice its neighbour improved most. *)
Definition store_maxed : DataProcessor.t :=
  [("TeamT"%string, [(m1, [1; 0]%Q); (m2, [1; 0]%Q)]);
   ("TeamN"%string, [(m1, [1 # 2; 0]%Q); (m2, [1; 1 # 4]%Q)])].

Definition m5 : Z := 20200501.
Definition m6 : Z := 20200601.


(** [store_four] continued over six months: at the fifth only [TeamX] has
    data and improves P1, at the sixth [TeamX] improves P3 and [TeamY] P4,
    which nothing before suggests. *)
Definition store_six : DataProcessor.t :=
  [("TeamX"%string,
    [(m1, [1 # 3; 0; 0; 0]%Q); (m2, [1 # 3; 0; 0; 0]%Q);
     (m3, [1 # 3; 0; 0; 0]%Q); (m4, [2 # 3; 0; 0; 0]%Q);
     (m5, [1; 0; 0; 0]%Q); (m6, [1; 0; 1 # 3; 0]%Q)]);
   ("TeamY"%string,
    [(m1, [1 # 3; 0; 0; 0]%Q); (m2, [2 # 3; 0; 0; 0]%Q);
     (m3, [2 # 3; 0; 0; 0]%Q); (m4, [1; 1 # 3; 0; 0]%Q);
     (m6, [1; 1 # 3; 0; 1 # 3]%Q)])].

(** Two teams improve P1 and P2 together, one of them then P1 and P3. *)
Definition store_rows : DataProcessor.t :=
  [("TeamA"%string,
    [(m1, [0; 0; 0]%Q); (m2, [1 # 3; 1 # 3; 0]%Q); (m3, [2 # 3; 1 # 3; 1 # 3]%Q)]);
   ("TeamB"%string,
    [(m1, [0; 0; 0]%Q); (m2, [1 # 3; 1 # 3; 0]%Q); (m3, [1 # 3; 1 # 3; 0]%Q)])].

Definition fresh (practices : list string) : BacktestEngine.world :=
  {| BacktestEngine.mapper := SequenceMapper.init practices;
     BacktestEngine.polls := 0 |}.

(** What [run_backtest] has recorded at the end of its run on [store_four]. *)
Definition progress_four : BacktestEngine.progress :=
  {| BacktestEngine.per_month_results :=
       [{| BacktestEngine.month := m4;
           BacktestEngine.train_months := [m1; m2; m3];
           BacktestEngine.predictions := 2;
           BacktestEngine.correct := 1;
           BacktestEngine.accuracy := 1 # 2;
           BacktestEngine.teams_tested := 2 |}];
     BacktestEngine.total_predictions := 2;
     BacktestEngine.total_correct := 1;
     BacktestEngine.improvements_per_case := [1; 2];
     BacktestEngine.all_teams_tested := ["TeamX"; "TeamY"]%string |}.


(** What [run_backtest] has recorded at the end of its run on [store_six]:
    two of five predictions are correct, one of two at the fourth month, one
    of one at the fifth, none of two at the sixth. *)
Definition progress_six : BacktestEngine.progress :=
  {| BacktestEngine.per_month_results :=
       [{| BacktestEngine.month := m4;
           BacktestEngine.train_months := [m1; m2; m3];
           BacktestEngine.predictions := 2;
           BacktestEngine.correct := 1;
           BacktestEngine.accuracy := 1 # 2;
           BacktestEngine.teams_tested := 2 |};
        {| BacktestEngine.month := m5;
           BacktestEngine.train_months := [m1; m2; m3; m4];
           BacktestEngine.predictions := 1;
           BacktestEngine.correct := 1;
           BacktestEngine.accuracy := 1 # 1;
           BacktestEngine.teams_tested := 1 |};
        {| BacktestEngine.month := m6;
           BacktestEngine.train_months := [m1; m2; m3; m4; m5];
           BacktestEngine.predictions := 2;
           BacktestEngine.correct := 0;
           BacktestEngine.accuracy := 0 # 2;
           BacktestEngine.teams_tested := 2 |}];
     BacktestEngine.total_predictions := 5;
     BacktestEngine.total_correct := 2;
     BacktestEngine.improvements_per_case := [2; 3; 2; 1; 1];
     BacktestEngine.all_teams_tested := ["TeamX"; "TeamY"]%string |}.

(** A stand-in for the backtest engine, as the tests of the optimizer use:
    the first three configurations are accepted, with gaps 0.10, 0.40, 0.25. *)
Definition mock_backtest (c : BacktestEngine.config)
    (cancellation_check : BacktestEngine.cancellation) (w : BacktestEngine.world)
  : result (dict string BacktestEngine.value) * BacktestEngine.world :=
  let t := BacktestEngine.top_n c in
  (Ok [("overall_accuracy"%string,
        BacktestEngine.VFloat (if t <=? 3 then 1 # 2 else 1 # 10));
       ("improvement_gap"%string,
        BacktestEngine.VFloat
          (if t =? 1 then 10 # 100 else if t =? 2 then 40 # 100 else 25 # 100));
       ("cancelled"%string, BacktestEngine.VBool false)], w).

Definition six_ranges : OptimizationEngine.ranges :=
  {| OptimizationEngine.top_n_range := [1; 2; 3; 4; 5; 6];
     OptimizationEngine.similarity_weight_range := [6 # 10];
     OptimizationEngine.k_similar_range := [19];
     OptimizationEngine.similar_teams_lookahead_months_range := [3];
     OptimizationEngine.recent_improvements_months_range := [3];
     OptimizationEngine.min_similarity_threshold_range := [75 # 100] |}.

End Examples.


(** ** What the properties speak about *)

Module Past.
Import DataProcessor SequenceMapper.







End Past.


(** * Properties *)

(** ** Dictionaries, counters and sorting *)

Section DictFacts.
Context {K V : Type} `{EqKey K}.

Lemma keqb_refl (k : K) : keqb k k = true.
Proof. now apply keqb_eq. Qed.

Lemma keqb_neq (a b : K) : a <> b -> keqb a b = false.
Proof.
  intros Hab. destruct (keqb a b) eqn:E; [|reflexivity].
  apply keqb_eq in E. contradiction.
Qed.

Lemma dict_get_set_same (d : dict K V) (k : K) (v : V) :
  dict_get (dict_set d k v) k = Some v.
Proof.
  induction d as [|[k' v'] d IH]; simpl.
  - now rewrite keqb_refl.
  - destruct (keqb k k') eqn:E; simpl; rewrite E; [reflexivity | exact IH].
Qed.

Lemma dict_get_set_other (d : dict K V) (k k' : K) (v : V) :
  k' <> k -> dict_get (dict_set d k v) k' = dict_get d k'.
Proof.
  intros Hne. induction d as [|[k0 v0] d IH]; simpl.
  - now rewrite (keqb_neq k' k).
  - destruct (keqb k k0) eqn:E; simpl.
    + apply keqb_eq in E. subst k0. now rewrite (keqb_neq k' k).
    + now rewrite IH.
Qed.

Lemma dict_get_In (d : dict K V) (k : K) (v : V) :
  dict_get d k = Some v -> In (k, v) d.
Proof.
  induction d as [|[k' v'] d IH]; simpl; [discriminate|].
  destruct (keqb k k') eqn:E.
  - apply keqb_eq in E. intros [= ->]. subst. now left.
  - intros Hg. right. now apply IH.
Qed.

Lemma dict_mem_keys (d : dict K V) (k : K) :
  dict_mem d k = true <-> In k (dict_keys d).
Proof.
  unfold dict_mem, dict_keys.
  induction d as [|[k' v'] d IH]; simpl.
  - split; [discriminate | tauto].
  - destruct (keqb k k') eqn:E.
    + apply keqb_eq in E. subst. split; auto.
    + rewrite IH. split; [auto|].
      intros [Hk|Hk]; [|exact Hk].
      subst k'. rewrite keqb_refl in E. discriminate.
Qed.

Lemma mem_In (x : K) (l : list K) : mem x l = true <-> In x l.
Proof.
  induction l as [|y l IH]; simpl.
  - split; [discriminate | tauto].
  - rewrite orb_true_iff, IH, keqb_eq. split; intros [E|E]; auto.
Qed.

Lemma set_add_In (s : list K) (x y : K) :
  In y (set_add s x) <-> y = x \/ In y s.
Proof.
  unfold set_add. destruct (mem x s) eqn:E.
  - apply mem_In in E. split; [auto|]. intros [->|Hy]; auto.
  - rewrite in_app_iff. simpl. split; intros [Hy|Hy]; auto.
    + destruct Hy as [->|[]]. auto.
Qed.

Lemma set_add_NoDup (s : list K) (x : K) : NoDup s -> NoDup (set_add s x).
Proof.
  intros Hs. unfold set_add. destruct (mem x s) eqn:E; [exact Hs|].
  assert (Hx : ~ In x s).
  { intros Hin. apply mem_In in Hin. congruence. }
  clear E. induction Hs as [|y s Hy Hs IH]; simpl.
  - constructor; [auto | constructor].
  - constructor.
    + rewrite in_app_iff. simpl. intros [Hin|[->|[]]]; [auto|].
      apply Hx. now left.
    + apply IH. intros Hin. apply Hx. now right.
Qed.

End DictFacts.

Lemma Qlt_bool_iff (x y : Q) : Qlt_bool x y = true <-> (x < y)%Q.
Proof.
  unfold Qlt_bool. rewrite negb_true_iff. split.
  - intros E. apply Qnot_le_lt. intros Hle.
    apply Qle_bool_iff in Hle. congruence.
  - intros Hlt. destruct (Qle_bool y x) eqn:E; [|reflexivity].
    apply Qle_bool_iff in E. exfalso. exact (Qlt_not_le _ _ Hlt E).
Qed.

Lemma insert_perm (x : Z) (l : list Z) : Permutation (x :: l) (insert x l).
Proof.
  induction l as [|y l IH]; simpl; [reflexivity|].
  destruct (x <=? y); [reflexivity|].
  rewrite perm_swap. now constructor.
Qed.

Lemma sorted_perm (l : list Z) : Permutation l (sorted l).
Proof.
  induction l as [|x l IH]; simpl; [constructor|].
  rewrite <- insert_perm. now constructor.
Qed.

Lemma sorted_In (l : list Z) (x : Z) : In x (sorted l) <-> In x l.
Proof.
  split; apply Permutation_in; [symmetry|]; apply sorted_perm.
Qed.

Lemma sorted_length (l : list Z) : List.length (sorted l) = List.length l.
Proof. symmetry. apply Permutation_length, sorted_perm. Qed.

Lemma sorted_NoDup (l : list Z) : NoDup l -> NoDup (sorted l).
Proof. apply Permutation_NoDup, sorted_perm. Qed.

Lemma insert_sorted (x : Z) (l : list Z) :
  StronglySorted Z.le l -> StronglySorted Z.le (insert x l).
Proof.
  induction 1 as [|y l Hl IH Hy]; simpl.
  - repeat constructor.
  - destruct (x <=? y) eqn:E.
    + apply Z.leb_le in E. constructor; [now constructor|].
      constructor; [exact E|].
      eapply Forall_impl; [|exact Hy]. intros; lia.
    + apply Z.leb_gt in E. constructor; [exact IH|].
      apply (Permutation_Forall (insert_perm x l)).
      constructor; [lia | exact Hy].
Qed.

Lemma sorted_sorted (l : list Z) : StronglySorted Z.le (sorted l).
Proof.
  induction l as [|x l IH]; simpl; [constructor | now apply insert_sorted].
Qed.

(** ** The sequence cache (C9) *)

Section CacheFacts.
Import SequenceMapper.


End CacheFacts.

(** ** Months of the store *)

Section MonthFacts.
Import DataProcessor.

Lemma fold_set_add_In (l acc : list Z) (m : Z) :
  In m (fold_left set_add l acc) <-> In m acc \/ In m l.
Proof.
  revert acc. induction l as [|x l IH]; intros acc; simpl; [tauto|].
  rewrite IH, set_add_In. intuition (subst; auto).
Qed.

Lemma fold_set_add_NoDup (l acc : list Z) :
  NoDup acc -> NoDup (fold_left set_add l acc).
Proof.
  revert acc. induction l as [|x l IH]; intros acc Hacc; simpl; [exact Hacc|].
  apply IH. now apply set_add_NoDup.
Qed.

Lemma month_set_In (p : DataProcessor.t) (m : Z) :
  In m (month_set p) <-> exists h : history, In h (dict_values p) /\ In m (dict_keys h).
Proof.
  unfold month_set.
  assert (G : forall (hs : list history) acc,
             In m (fold_left (fun acc h => fold_left set_add (dict_keys h) acc) hs acc)
             <-> In m acc \/ exists h : history, In h hs /\ In m (dict_keys h)).
  { induction hs as [|h hs IH]; intros acc; simpl.
    - split; [auto|]. intros [Hm|[h [[] _]]]. exact Hm.
    - rewrite IH, fold_set_add_In. split.
      + intros [[Hm|Hm]|[h' [Hh Hm]]]; eauto.
      + intros [Hm|[h' [[->|Hh] Hm]]]; eauto. }
  rewrite G. simpl. split; [intros [[]|Hm]; exact Hm | auto].
Qed.

Lemma month_set_NoDup (p : DataProcessor.t) : NoDup (month_set p).
Proof.
  unfold month_set. generalize (dict_values p) as hs.
  assert (G : forall (hs : list history) acc, NoDup acc ->
             NoDup (fold_left (fun acc h => fold_left set_add (dict_keys h) acc) hs acc)).
  { induction hs as [|h hs IH]; intros acc Hacc; simpl; [exact Hacc|].
    apply IH. now apply fold_set_add_NoDup. }
  intros hs. apply G. constructor.
Qed.

Lemma get_all_months_NoDup (p : DataProcessor.t) : NoDup (get_all_months p).
Proof. apply sorted_NoDup, month_set_NoDup. Qed.

Lemma get_all_months_In (p : DataProcessor.t) (m : Z) :
  In m (get_all_months p)
  <-> exists team (h : history), In (team, h) p /\ In m (dict_keys h).
Proof.
  unfold get_all_months. rewrite sorted_In, month_set_In. unfold dict_values.
  split.
  - intros [h [Hh Hm]]. apply in_map_iff in Hh as [[team h'] [E Hin]].
    simpl in E. subst h'. eauto.
  - intros [team [h [Hin Hm]]]. exists h. split; [|exact Hm].
    apply in_map_iff. now exists (team, h).
Qed.

Lemma history_month_known (p : DataProcessor.t) (team : string) (h : history) (m : Z) :
  dict_get p team = Some h -> dict_mem h m = true -> In m (get_all_months p).
Proof.
  intros Hp Hm. apply get_all_months_In. exists team, h. split.
  - now apply dict_get_In.
  - now apply dict_mem_keys.
Qed.

End MonthFacts.

(** ** Consecutive elements of a sorted list *)

Lemma consecutive_In {A} (l : list A) (x y : A) :
  In (x, y) (consecutive l) -> In x l /\ In y l.
Proof.
  induction l as [|a [|b l] IH]; simpl; try tauto.
  intros [[= -> ->]|Hin]; [auto|].
  destruct (IH Hin) as [Hx Hy]. auto.
Qed.


(** ** Loops *)

Lemma for_each_invariant {A S} (body : A -> S -> result unit * S)
    (I : S -> Prop) (l : list A) :
  (forall a s, In a l -> I s -> I (snd (body a s))) ->
  forall s, I s -> I (snd (for_each body l s)).
Proof.
  induction l as [|a l IH]; intros Hbody s Hs; simpl; [exact Hs|].
  pose proof (Hbody a s (or_introl eq_refl) Hs) as Hstep.
  destruct (body a s) as [[u|e] s']; simpl in *; [|exact Hstep].
  apply IH; [|exact Hstep]. intros; apply Hbody; [now right | assumption].
Qed.

Lemma fold_left_invariant {A S} (f : S -> A -> S) (I : S -> Prop) (l : list A) :
  (forall a s, In a l -> I s -> I (f s a)) ->
  forall s, I s -> I (fold_left f l s).
Proof.
  induction l as [|a l IH]; intros Hf s Hs; simpl; [exact Hs|].
  apply IH; [intros; apply Hf; [now right | assumption]|].
  apply Hf; [now left | exact Hs].
Qed.

(** ** Learning only from the past (C3) *)

Section LearnedBefore.
Import DataProcessor SequenceMapper Past.



Variables (p : DataProcessor.t) (practices : list string) (M : Z).







End LearnedBefore.

Section LearnUpTo.
Import DataProcessor SequenceMapper Past.





End LearnUpTo.

(** ** Stable descending sort *)

Section SortDescFacts.
Context {A : Type} (key : A -> Q).

Lemma insert_desc_perm (x : A) (l : list A) :
  Permutation (x :: l) (insert_desc key x l).
Proof.
  induction l as [|y l IH]; simpl; [reflexivity|].
  destruct (Qle_bool (key y) (key x)); [reflexivity|].
  rewrite perm_swap. now constructor.
Qed.

Lemma sort_desc_perm (l : list A) : Permutation l (sort_desc key l).
Proof.
  induction l as [|x l IH]; simpl; [constructor|].
  rewrite <- insert_desc_perm. now constructor.
Qed.

Lemma insert_desc_sorted (x : A) (l : list A) :
  StronglySorted (desc key) l -> StronglySorted (desc key) (insert_desc key x l).
Proof.
  induction 1 as [|y l Hl IH Hy]; simpl.
  - repeat constructor.
  - destruct (Qle_bool (key y) (key x)) eqn:E.
    + apply Qle_bool_iff in E. constructor; [now constructor|].
      constructor; [exact E|].
      eapply Forall_impl; [|exact Hy]. unfold desc. intros a Ha. lra.
    + assert (Hlt : (key x < key y)%Q).
      { apply Qnot_le_lt. intros Hle. apply Qle_bool_iff in Hle. congruence. }
      constructor; [exact IH|].
      apply (Permutation_Forall (insert_desc_perm x l)).
      constructor; [unfold desc; lra | exact Hy].
Qed.

Lemma sort_desc_sorted (l : list A) : StronglySorted (desc key) (sort_desc key l).
Proof.
  induction l as [|x l IH]; simpl; [constructor | now apply insert_desc_sorted].
Qed.

Lemma firstn_sorted (n : nat) (l : list A) :
  StronglySorted (desc key) l -> StronglySorted (desc key) (firstn n l).
Proof.
  intros Hl. revert n. induction Hl as [|x l Hl IH Hx]; intros [|n]; simpl;
    try constructor; auto.
  rewrite Forall_forall in *. intros a Ha. apply Hx.
  rewrite <- (firstn_skipn n l). apply in_or_app. now left.
Qed.

Lemma hd_sort_desc_cons (x : A) (l : list A) :
  hd_error (sort_desc key (x :: l))
  = match hd_error (sort_desc key l) with
    | None => Some x
    | Some y => if Qlt_bool (key x) (key y) then Some y else Some x
    end.
Proof.
  simpl. destruct (sort_desc key l) as [|y l']; simpl; [reflexivity|].
  unfold Qlt_bool. destruct (Qle_bool (key y) (key x)); reflexivity.
Qed.

Lemma fold_better_from (l : list A) (b : A) :
  fold_left (better key) l (Some b)
  = match hd_error (sort_desc key l) with
    | None => Some b
    | Some y => if Qlt_bool (key b) (key y) then Some y else Some b
    end.
Proof.
  revert b. induction l as [|x l IH]; intros b; [reflexivity|].
  rewrite hd_sort_desc_cons. cbn [fold_left better].
  destruct (Qlt_bool (key b) (key x)) eqn:Ebx; rewrite IH;
    destruct (hd_error (sort_desc key l)) as [y|]; rewrite ?Ebx; try reflexivity;
    destruct (Qlt_bool (key x) (key y)) eqn:Exy; rewrite ?Ebx; try reflexivity.
  - apply Qlt_bool_iff in Ebx, Exy.
    assert (E : Qlt_bool (key b) (key y) = true) by (apply Qlt_bool_iff; lra).
    now rewrite E.
  - assert (E : Qlt_bool (key b) (key y) = false).
    { destruct (Qlt_bool (key b) (key y)) eqn:E; [|reflexivity].
      apply Qlt_bool_iff in E.
      assert (Hxy : ~ (key x < key y)%Q) by (rewrite <- Qlt_bool_iff; congruence).
      assert (Hbx : ~ (key b < key x)%Q) by (rewrite <- Qlt_bool_iff; congruence).
      lra. }
    now rewrite E.
Qed.

Lemma first_max_is_sorted_head (l : list A) :
  first_max key l = hd_error (sort_desc key l).
Proof.
  unfold first_max. destruct l as [|x l]; [reflexivity|].
  rewrite hd_sort_desc_cons. cbn [fold_left better]. apply fold_better_from.
Qed.

Lemma first_max_snoc (l : list A) (x : A) :
  first_max key (l ++ [x]) = better key (first_max key l) x.
Proof. unfold first_max. now rewrite fold_left_app. Qed.

End SortDescFacts.

(** ** Ranking of the optimizer's results (C6) *)

Section Ranking.
Import OptimizationEngine.

Variable run_backtest :
  BacktestEngine.config -> BacktestEngine.cancellation -> world
  -> result (dict string value) * world.
Variables (min_accuracy early_stop_threshold early_stop_min_tested : Q).

Lemma better_beats (best : option entry) (e : entry) :
  better improvement_gap best e
  = if beats (improvement_gap e) best then Some e else best.
Proof.
  destruct best as [b|]; simpl; [|reflexivity].
  destruct (Qlt_bool (improvement_gap b) (improvement_gap e)); reflexivity.
Qed.

Lemma tracked_accept (st : search) (e : entry) :
  tracked st ->
  first_max improvement_gap (valid_results st ++ [e])
  = if beats (improvement_gap e) (best_config st) then Some e else best_config st.
Proof.
  intros Hst. rewrite first_max_snoc, <- Hst. apply better_beats.
Qed.

Lemma search_loop_tracked (flag : nat -> bool) (total : nat)
    (combinations : list BacktestEngine.config) :
  forall (idx : nat) (st : search) (w : world),
    tracked st ->
    tracked (fst (search_loop run_backtest min_accuracy early_stop_threshold
                    early_stop_min_tested flag total combinations idx st w)).
Proof.
  induction combinations as [|c rest IH]; intros idx st w Hst; [exact Hst|].
  cbn [search_loop].
  destruct (BacktestEngine.poll (Some flag) w) as [[|] w1]; [exact Hst|].
  destruct (run_backtest c (Some flag) w1) as [[result|e] w2];
    [|apply IH; exact Hst].
  destruct (flag_get result "cancelled" false); [exact Hst|].
  destruct (dict_mem result "error"%string); [apply IH; exact Hst|].
  destruct (Qle_bool min_accuracy _); [|apply IH; exact Hst].
  cbn [valid_results best_config early_stopped cancelled last_idx].
  pose proof (tracked_accept st (entry_of c (num_get result "overall_accuracy" 0) result) Hst)
    as Hacc.
  destruct (beats _ (best_config st)).
  - match goal with
    | |- context [if ?b then (_, _) else _] => destruct b
    end; [exact (eq_sym Hacc) | apply IH; exact (eq_sym Hacc)].
  - apply IH. exact (eq_sym Hacc).
Qed.

(** C6. In every result of [find_optimal_config], [all_results] is sorted by
    descending [improvement_gap] and has at most 50 entries, and when it is
    not empty [optimal_config] is the configuration of its first entry. *)
Theorem all_results_ranked (r : ranges)
    (fixed_params : BacktestEngine.config -> BacktestEngine.config)
    (flag : nat -> bool) (w : world) :
  let res := fst (find_optimal_config run_backtest min_accuracy early_stop_threshold
                    early_stop_min_tested r fixed_params flag w) in
  StronglySorted (fun a b => (improvement_gap b <= improvement_gap a)%Q) (all_results res)
  /\ (List.length (all_results res) <= 50)%nat
  /\ match all_results res with
     | [] => True
     | first :: _ => optimal_config res = Some (config first)
     end.
Proof.
  unfold find_optimal_config.
  pose proof (search_loop_tracked flag
                (List.length (generate_parameter_combinations r fixed_params))
                (generate_parameter_combinations r fixed_params)
                O search_start w eq_refl) as Htr.
  destruct (search_loop _ _ _ _ _ _ _ _ _ _) as [st w'].
  cbn [fst all_results optimal_config] in *.
  split; [|split].
  - apply (firstn_sorted improvement_gap), sort_desc_sorted.
  - apply firstn_le_length.
  - unfold tracked in Htr. rewrite first_max_is_sorted_head in Htr.
    destruct (sort_desc improvement_gap (valid_results st)) as [|first l];
      [exact I|].
    simpl in *. now rewrite Htr.
Qed.

End Ranking.

(** Three accepted configurations with gaps 0.10, 0.40 and 0.25, found in
    that order, are listed as 0.40, 0.25, 0.10, and the optimal configuration
    is the one of gap 0.40. *)
Example all_results_of_three_accepted :
  let res := fst (OptimizationEngine.find_optimal_config Examples.mock_backtest
                    (4 # 10) (5 # 10) (5 # 10) Examples.six_ranges (fun c => c)
                    (fun _ => false) (Examples.fresh Examples.P4)) in
  map OptimizationEngine.improvement_gap (OptimizationEngine.all_results res)
  = [40 # 100; 25 # 100; 10 # 100]%Q
  /\ option_map BacktestEngine.top_n (OptimizationEngine.optimal_config res) = Some 2
  /\ OptimizationEngine.total_combinations_tested res = 6%nat.
Proof. vm_compute. repeat split; reflexivity. Qed.

(** ** The backtest loop *)

Section BacktestFacts.
Import DataProcessor BacktestEngine.

Variable cosine_similarity : vector -> vector -> Q.
Variable comb : Q -> Z -> option Q.

Ltac break_match :=
  match goal with
  | |- context [match ?x with _ => _ end] => destruct x eqn:?
  end.

Lemma evaluate_team_ok (p : DataProcessor.t) (practices : list string)
    (cfg : config) (months : list Z) (test_month : Z) (team : string)
    (pr : progress) (mc : month_counters) (s : SequenceMapper.mapper) :
  progress_ok pr ->
  progress_ok
    (fst (fst (evaluate_team cosine_similarity p practices cfg months test_month
                 team (pr, mc, s)))).
Proof.
  intros [Hm Hi]. unfold evaluate_team.
  repeat break_match; subst; simpl; try (split; assumption).
  all: split; simpl; [exact Hm|].
  all: apply Forall_app; split; [exact Hi|].
  all: constructor; [lia | constructor].
Qed.

Lemma run_teams_ok (p : DataProcessor.t) (practices : list string) (cfg : config)
    (cc : cancellation) (months : list Z) (test_month : Z) (teams : list string) :
  forall (team_count : Z) (pr : progress) (mc : month_counters) (w : world),
    progress_ok pr ->
    ending_ok fst (run_teams cosine_similarity p practices cfg cc months test_month
                     teams team_count pr mc w).
Proof.
  induction teams as [|team rest IH]; intros team_count pr mc w Hpr; [exact Hpr|].
  cbn [run_teams].
  destruct (match cc with
            | Some _ => if (team_count + 1) mod 10 =? 0 then poll cc w else (false, w)
            | None => (false, w)
            end) as [[|] w1]; [exact Hpr|].
  pose proof (evaluate_team_ok p practices cfg months test_month team pr mc
                (mapper w1) Hpr) as Hstep.
  destruct (evaluate_team _ _ _ _ _ _ _ _) as [[pr' mc'] s'].
  apply IH. exact Hstep.
Qed.

Lemma run_month_ok (p : DataProcessor.t) (practices : list string) (cfg : config)
    (cc : cancellation) (months : list Z) (teams : list string)
    (test_month_idx : nat) (pr : progress) (w : world) :
  progress_ok pr ->
  ending_ok (fun a => a)
    (run_month cosine_similarity p practices cfg cc months teams test_month_idx pr w).
Proof.
  intros Hpr. unfold run_month.
  destruct (poll cc w) as [[|] w1]; [exact Hpr|].
  destruct (nth_error months test_month_idx) as [test_month|]; [|exact I].
  destruct (firstn test_month_idx months) as [|t0 train] eqn:Htrain; [exact Hpr|].
  destruct (poll cc w1) as [[|] w2]; [exact Hpr|].
  destruct (SequenceMapper.learn_sequences_up_to_month p test_month (mapper w2))
    as [[path|e] s']; [|exact I].
  pose proof (run_teams_ok p practices cfg cc months test_month teams 0 pr
                {| month_predictions := 0; month_correct := 0;
                   teams_tested_this_month := [] |}
                {| mapper := s'; polls := polls w2 |} Hpr) as Hteams.
  destruct (run_teams _ _ _ _ _ _ _ _ _ _ _ _) as [[pr' mc] w3|pr' w3|e w3];
    simpl in *; [|exact Hteams|exact I].
  destruct Hteams as [Hm Hi]. split; simpl; [|exact Hi].
  apply Forall_app. split; [exact Hm|].
  constructor; [reflexivity | constructor].
Qed.

Lemma run_months_ok (p : DataProcessor.t) (practices : list string) (cfg : config)
    (cc : cancellation) (months : list Z) (teams : list string) (idxs : list nat) :
  forall (pr : progress) (w : world),
    progress_ok pr ->
    ending_ok (fun a => a)
      (run_months cosine_similarity p practices cfg cc months teams idxs pr w).
Proof.
  induction idxs as [|i idxs IH]; intros pr w Hpr; [exact Hpr|].
  cbn [run_months].
  pose proof (run_month_ok p practices cfg cc months teams i pr w Hpr) as Hstep.
  destruct (run_month _ _ _ _ _ _ _ _ _ _) as [pr' w'|pr' w'|e w'];
    simpl in *; auto.
Qed.

Lemma start_ok : progress_ok start.
Proof. split; constructor. Qed.

(** What a call of [run_backtest] returns: the error dictionary exactly when
    the store has fewer than four months, else an exception or the report of
    a well-formed progress. *)
Lemma run_backtest_cases (p : DataProcessor.t) (practices : list string)
    (cfg : config) (cc : cancellation) (w : world) :
  match fst (run_backtest cosine_similarity comb p practices cfg cc w) with
  | Raise _ => (4 <= List.length (get_all_months p))%nat
  | Ok d =>
      ((List.length (get_all_months p) < 4)%nat /\ d = insufficient_data)
      \/ ((4 <= List.length (get_all_months p))%nat
          /\ exists pr, progress_ok pr /\ reports comb practices (top_n cfg) d pr)
  end.
Proof.
  unfold run_backtest. rewrite sorted_length.
  destruct (List.length (get_all_months p) <? 4)%nat eqn:Hlen.
  - apply Nat.ltb_lt in Hlen. simpl. auto.
  - apply Nat.ltb_ge in Hlen.
    pose proof (run_months_ok p practices cfg cc (sorted (get_all_months p))
                  (get_all_teams p)
                  (seq 3 (List.length (get_all_months p) - 3)) start w start_ok) as Hrun.
    destruct (run_months _ _ _ _ _ _ _ _ _ _) as [pr w'|pr w'|e w'];
      simpl in *; [| |exact Hlen].
    + right. split; [exact Hlen|]. exists pr. split; [exact Hrun | now right].
    + right. split; [exact Hlen|]. exists pr. split; [exact Hrun | now left].
Qed.

Lemma reports_no_error (practices : list string) (t : Z)
    (d : dict string value) (pr : progress) :
  reports comb practices t d pr -> dict_mem d "error"%string = false.
Proof. intros [->| ->]; reflexivity. Qed.

Lemma reports_keys (practices : list string) (t : Z)
    (d : dict string value) (pr : progress) :
  reports comb practices t d pr ->
  dict_keys d
  = ["status"; "per_month_results"; "total_predictions"; "correct_predictions";
     "overall_accuracy"; "random_baseline"; "improvement_gap"; "improvement_factor";
     "teams_tested"; "avg_improvements_per_case"; "cancelled"]%string.
Proof. intros [->| ->]; reflexivity. Qed.

End BacktestFacts.

(** ** Results of a backtest (C4, C5, C7, C8) *)

Section BacktestResults.
Import DataProcessor BacktestEngine.

Variable cosine_similarity : vector -> vector -> Q.
Variable comb : Q -> Z -> option Q.

(** C8. [run_backtest] returns its "Need at least 4 time periods" error
    exactly when the store holds fewer than four distinct months, the months
    of the store being those of [get_all_months]: a duplicate-free list of
    the months that occur in some team's history. *)
Theorem insufficient_data_iff_fewer_than_four (p : DataProcessor.t)
    (practices : list string) (cfg : config) (cc : cancellation) (w : world) :
  NoDup (get_all_months p)
  /\ (forall m, In m (get_all_months p)
                <-> exists team (h : history), In (team, h) p /\ In m (dict_keys h))
  /\ ((exists d, fst (run_backtest cosine_similarity comb p practices cfg cc w) = Ok d
                 /\ dict_mem d "error"%string = true)
      <-> (List.length (get_all_months p) < 4)%nat).
Proof.
  split; [apply get_all_months_NoDup|].
  split; [apply get_all_months_In|].
  pose proof (run_backtest_cases cosine_similarity comb p practices cfg cc w) as Hc.
  destruct (fst (run_backtest cosine_similarity comb p practices cfg cc w)) as [d|e].
  - destruct Hc as [[Hlen ->]|[Hlen [pr [_ Hrep]]]].
    + split; [auto|]. intros _. now exists insufficient_data.
    + apply reports_no_error in Hrep. split; [|lia].
      intros [d' [[= <-] Herr]]. congruence.
  - split; [|lia]. intros [d [Hd _]]. discriminate.
Qed.

(** C7. With at least four months in the store, a cancellation predicate
    that answers [true] at its first poll makes [run_backtest] return a
    dictionary with [cancelled = True], no per-month result and no prediction,
    whose keys are those of the result of every uncancelled run. *)
Theorem cancelled_at_first_poll (p : DataProcessor.t) (practices : list string)
    (cfg : config) (check : nat -> bool) (w : world) :
  (4 <= List.length (get_all_months p))%nat ->
  check (polls w) = true ->
  exists d,
    fst (run_backtest cosine_similarity comb p practices cfg (Some check) w) = Ok d
    /\ dict_get d "cancelled"%string = Some (VBool true)
    /\ dict_get d "per_month_results"%string = Some (VMonths [])
    /\ dict_get d "total_predictions"%string = Some (VInt 0)
    /\ forall p' practices' cfg' cc' w' d',
         fst (run_backtest cosine_similarity comb p' practices' cfg' cc' w') = Ok d' ->
         dict_get d' "cancelled"%string = Some (VBool false) ->
         dict_mem d' "error"%string = false ->
         dict_keys d' = dict_keys d.
Proof.
  intros Hlen Hcheck.
  exists (_build_partial_results comb practices start (top_n cfg)).
  split; [|repeat split].
  - unfold run_backtest. rewrite sorted_length.
    destruct (List.length (get_all_months p) <? 4)%nat eqn:E.
    { apply Nat.ltb_lt in E. lia. }
    destruct (List.length (get_all_months p) - 3)%nat as [|k] eqn:Ek; [lia|].
    cbn [seq run_months]. unfold run_month, poll. rewrite Hcheck. reflexivity.
  - intros p' practices' cfg' cc' w' d' Hrun _ Herr.
    pose proof (run_backtest_cases cosine_similarity comb p' practices' cfg' cc' w') as Hc.
    rewrite Hrun in Hc. destruct Hc as [[_ ->]|[_ [pr [_ Hrep]]]]; [discriminate|].
    now rewrite (reports_keys comb _ _ _ _ Hrep).
Qed.

(** C5. The [overall_accuracy] of a result is the plain mean of the
    accuracies of its [per_month_results], each of which is
    [correct / predictions] (0 for a month without predictions); per-month
    accuracies 0.5, 1.0 and 0.0 give 0.5. *)
Theorem overall_accuracy_is_unweighted_mean (p : DataProcessor.t)
    (practices : list string) (cfg : config) (cc : cancellation) (w : world)
    (d : dict string value) :
  fst (run_backtest cosine_similarity comb p practices cfg cc w) = Ok d ->
  dict_mem d "error"%string = false ->
  exists per_month overall,
    dict_get d "per_month_results"%string = Some (VMonths per_month)
    /\ dict_get d "overall_accuracy"%string = Some (VFloat overall)
    /\ Forall month_ok per_month
    /\ (per_month <> [] ->
        (overall == sum_Q (map accuracy per_month)
                    / inject_Z (Z.of_nat (List.length per_month)))%Q)
    /\ (Forall2 Qeq (map accuracy per_month) [1 # 2; 1; 0]%Q -> (overall == 1 # 2)%Q).
Proof.
  intros Hrun Herr.
  pose proof (run_backtest_cases cosine_similarity comb p practices cfg cc w) as Hc.
  rewrite Hrun in Hc. destruct Hc as [[_ ->]|[_ [pr [[Hm _] Hrep]]]]; [discriminate|].
  exists (per_month_results pr), (overall_accuracy_of (per_month_results pr)).
  split; [destruct Hrep as [->| ->]; reflexivity|].
  split; [destruct Hrep as [->| ->]; reflexivity|].
  split; [exact Hm|]. split.
  - destruct (per_month_results pr); [congruence|]. intros _. reflexivity.
  - destruct (per_month_results pr) as [|a [|b [|c [|x l]]]]; simpl;
      intros H; inversion H as [|? ? ? ? Ha H1]; subst;
      inversion H1 as [|? ? ? ? Hb H2]; subst;
      inversion H2 as [|? ? ? ? Hc H3]; subst;
      inversion H3; subst.
    unfold overall_accuracy_of, sum_Q. simpl. rewrite Ha, Hb, Hc. reflexivity.
Qed.

End BacktestResults.


(** ** The random baseline (C4) *)

Section RandomBaseline.
Import DataProcessor BacktestEngine.

Lemma fold_add_shift (l : list Z) (a : Z) :
  fold_left Z.add l a = a + sum_Z l.
Proof.
  unfold sum_Z. revert a. induction l as [|x l IH]; intros a; simpl; [lia|].
  rewrite (IH (a + x)), (IH x). lia.
Qed.



Variable comb : Q -> Z -> option Q.


Variable cosine_similarity : vector -> vector -> Q.



Lemma not_integral_difference (N : Z) (k : Q) :
  ~ is_integral k -> ~ is_integral (inject_Z N - k).
Proof.
  intros Hk [z Hz]. apply Hk. exists (N - z).
  unfold Z.sub. rewrite inject_Z_plus, inject_Z_opp. lra.
Qed.






End RandomBaseline.

(** ** The theorems at the example stores *)

Section AtFourMonths.
Import DataProcessor BacktestEngine Examples.

(** The run of [run_backtest] on [store_four] with the default configuration
    and no cancellation predicate. *)
Lemma run_four (comb : Q -> Z -> option Q) :
  fst (run_backtest cosine_exact comb store_four P4 default_config None (fresh P4))
  = Ok (final_results comb P4 progress_four 2).
Proof. vm_compute. reflexivity. Qed.


(** The same on [store_six], over three test months. *)
Lemma run_six (comb : Q -> Z -> option Q) :
  fst (run_backtest cosine_exact comb store_six P4 default_config None (fresh P4))
  = Ok (final_results comb P4 progress_six 2).
Proof. vm_compute. reflexivity. Qed.





(** The same run with a [comb] that casts its arguments to integers, as
    older releases do, has a baseline of 5/6. *)
Remark random_baseline_when_comb_does_not_raise :
  dict_get (final_results comb_real P4 progress_four 2) "random_baseline"%string
  = Some (VFloat (33 # 48))
  /\ dict_get (final_results comb_cast P4 progress_four 2) "random_baseline"%string
     = Some (VFloat (5 # 6)).
Proof. split; reflexivity. Qed.

(** On [store_six] the three test months have accuracies 1/2, 1 and 0 on 2,
    1 and 2 predictions: the overall accuracy is their mean 1/2, not the
    share 2/5 of correct predictions. *)
Lemma overall_accuracy_is_unweighted_mean_witness :
  exists per_month overall,
    dict_get (final_results comb_real P4 progress_six 2) "per_month_results"%string
    = Some (VMonths per_month)
    /\ map predictions per_month = [2; 1; 2]
    /\ map correct per_month = [1; 1; 0]
    /\ Forall2 Qeq (map accuracy per_month) [1 # 2; 1; 0]%Q
    /\ dict_get (final_results comb_real P4 progress_six 2) "overall_accuracy"%string
       = Some (VFloat overall)
    /\ dict_get (final_results comb_real P4 progress_six 2) "correct_predictions"%string
       = Some (VInt 2)
    /\ dict_get (final_results comb_real P4 progress_six 2) "total_predictions"%string
       = Some (VInt 5)
    /\ Forall month_ok per_month
    /\ (overall == sum_Q (map accuracy per_month)
                   / inject_Z (Z.of_nat (List.length per_month)))%Q
    /\ (overall == 1 # 2)%Q
    /\ ~ (overall == 2 # 5)%Q.
Proof.
  destruct (overall_accuracy_is_unweighted_mean cosine_exact comb_real store_six P4
              default_config None (fresh P4) _ (run_six comb_real) eq_refl)
    as [per_month [overall [Hpm [Hov [Hok [Hmean Hthree]]]]]].
  assert (Hacc : Forall2 Qeq (map accuracy per_month) [1 # 2; 1; 0]%Q).
  { vm_compute in Hpm. injection Hpm as <-.
    repeat constructor; reflexivity. }
  assert (Hne : per_month <> []) by (intros ->; inversion Hacc).
  pose proof (Hthree Hacc) as Hhalf.
  exists per_month, overall.
  split; [exact Hpm|].
  split; [vm_compute in Hpm; injection Hpm as <-; reflexivity|].
  split; [vm_compute in Hpm; injection Hpm as <-; reflexivity|].
  split; [exact Hacc|]. split; [exact Hov|].
  split; [reflexivity|]. split; [reflexivity|].
  split; [exact Hok|]. split; [exact (Hmean Hne)|].
  split; [exact Hhalf|].
  rewrite Hhalf. discriminate.
Defined.

Lemma cancelled_at_first_poll_witness :
  exists d,
    fst (run_backtest cosine_exact comb_real store_four P4 default_config
           (Some (fun _ => true)) (fresh P4)) = Ok d
    /\ dict_get d "cancelled"%string = Some (VBool true)
    /\ dict_get d "per_month_results"%string = Some (VMonths [])
    /\ dict_get d "total_predictions"%string = Some (VInt 0).
Proof.
  destruct (cancelled_at_first_poll cosine_exact comb_real store_four P4
              default_config (fun _ => true) (fresh P4))
    as [d [Hrun [Hc [Hm [Ht _]]]]].
  - vm_compute. lia.
  - reflexivity.
  - exists d. auto.
Defined.

End AtFourMonths.

(** ** The recommender (C1, C2, C10) *)

Section Recommender.
Import DataProcessor SimilarityEngine RecommendationEngine.

Lemma Qmax_cases (x y : Q) :
  (Qmax x y = x \/ Qmax x y = y) /\ (x <= Qmax x y)%Q /\ (y <= Qmax x y)%Q.
Proof.
  unfold Qmax. destruct (Qle_bool x y) eqn:E.
  - apply Qle_bool_iff in E. repeat split; auto. apply Qle_refl.
  - assert (Hlt : (y < x)%Q).
    { apply Qnot_le_lt. intros Hle. apply Qle_bool_iff in Hle. congruence. }
    repeat split; auto; [apply Qle_refl | now apply Qlt_le_weak].
Qed.

Lemma fold_Qmax_spec (l : list Q) (a : Q) :
  (fold_left Qmax l a = a \/ In (fold_left Qmax l a) l)
  /\ (a <= fold_left Qmax l a)%Q
  /\ forall x, In x l -> (x <= fold_left Qmax l a)%Q.
Proof.
  revert a. induction l as [|y l IH]; intros a; simpl.
  - repeat split; auto; [apply Qle_refl | tauto].
  - destruct (IH (Qmax a y)) as [Hin [Hle Hall]].
    destruct (Qmax_cases a y) as [Hc [Ha Hy]].
    repeat split.
    + destruct Hin as [Hin|Hin]; [|auto].
      rewrite Hin. destruct Hc as [->| ->]; auto.
    + eapply Qle_trans; eauto.
    + intros x [->|Hx]; [eapply Qle_trans; eauto | auto].
Qed.

(** [max_or_one] of a non-empty map is one of its values and bounds them all. *)
Lemma max_or_one_spec (scores : dict string Q) :
  (forall q c, In (q, c) scores -> (c <= max_or_one scores)%Q)
  /\ (scores <> [] -> exists q, In (q, max_or_one scores) scores).
Proof.
  unfold max_or_one, max_of, dict_values.
  destruct scores as [|[q0 c0] scores]; simpl; [split; [tauto | congruence]|].
  destruct (fold_Qmax_spec (map snd scores) c0) as [Hin [Hle Hall]]. split.
  - intros q c [[= -> ->]|Hqc]; [exact Hle|].
    apply Hall. apply in_map_iff. now exists (q, c).
  - intros _. destruct Hin as [->|Hin]; [eauto|].
    apply in_map_iff in Hin as [[q c] [E Hqc]]. simpl in E. subst c. eauto.
Qed.

Lemma filter_scores_rescaled (practices : list string) (t : scoring) :
  forall (entries : list (string * Q)) (recs result : list item),
    incl entries (practices_scores t) ->
    Forall (rescaled practices t (max_or_one (practices_scores t))) recs ->
    filter_scores practices (current_scores t) (max_or_one (practices_scores t))
      entries recs = Ok result ->
    Forall (rescaled practices t (max_or_one (practices_scores t))) result.
Proof.
  induction entries as [|[practice score] entries IH]; intros recs result Hincl Hrecs;
    simpl.
  - now intros [= <-].
  - assert (Hrest : incl entries (practices_scores t)).
    { intros x Hx. apply Hincl. now right. }
    destruct (index practices practice) as [practice_idx|] eqn:Hidx; [|discriminate].
    destruct (nth_error (current_scores t) practice_idx) as [level|] eqn:Hlevel;
      [|discriminate].
    destruct (Qle_bool 1 level) eqn:Hmax; [now apply IH|].
    apply IH; [exact Hrest|].
    apply Forall_app. split; [exact Hrecs|]. constructor; [|constructor].
    exists score, practice_idx. simpl. repeat split; auto.
    + apply Hincl. now left.
    + apply Qnot_le_lt. intros Hle. apply Qle_bool_iff in Hle. congruence.
Qed.

Lemma take_incl {A} (k : Z) (l : list A) : incl (take k l) l.
Proof.
  intros x. unfold take.
  destruct (0 <=? k); intros Hx;
    match type of Hx with
    | In _ (firstn ?n _) => rewrite <- (firstn_skipn n l)
    end; apply in_or_app; now left.
Qed.

Lemma filter_and_rank_rescaled (practices : list string) (t : scoring) (top_n : Z)
    (recs : list item) :
  filter_and_rank practices (current_scores t) (practices_scores t) top_n = Ok recs ->
  Forall (rescaled practices t (max_or_one (practices_scores t))) recs.
Proof.
  unfold filter_and_rank.
  destruct (filter_scores _ _ _ _ _) as [all|e] eqn:Hfilter; [|discriminate].
  intros [= <-].
  apply filter_scores_rescaled in Hfilter; [|apply incl_refl|constructor].
  rewrite Forall_forall in *. intros r Hr. apply Hfilter.
  apply take_incl in Hr.
  apply (Permutation_in r (Permutation_sym (sort_desc_perm item_score all))).
  exact Hr.
Qed.

Variable cosine_similarity : vector -> vector -> Q.

(** In a call that returns, the items are rescaled entries of the map of
    combined scores. *)
Lemma recommend_trace_rescaled (p : DataProcessor.t) (practices : list string)
    (target_team : string) (current_month top_n k_similar : Z) (allow : bool)
    (similarity_weight : Q) (lookahead recent : Z) (min_similarity : Q)
    (s : SequenceMapper.mapper) :
  match recommend_trace cosine_similarity p practices target_team current_month
          top_n k_similar allow similarity_weight lookahead recent min_similarity s with
  | (Ok t, _) =>
      Forall (rescaled practices t (max_or_one (practices_scores t))) (recommendations t)
  | (Raise _, _) => True
  end.
Proof.
  unfold recommend_trace.
  repeat match goal with
         | |- match (match ?x with _ => _ end) with _ => _ end => destruct x eqn:?
         | |- match (if ?x then _ else _) with _ => _ end => destruct x eqn:?
         | |- match (let (_, _) := ?x in _) with _ => _ end => destruct x eqn:?
         end; try exact I.
  all: match goal with
       | H : filter_and_rank _ ?cs ?ps _ = Ok _ |- _ =>
           exact (filter_and_rank_rescaled practices
                    {| current_scores := cs; similar_teams := _;
                       similarity_scores := _; sequence_scores := _;
                       practices_scores := ps; recommendations := _ |} _ _ H)
       end.
Qed.

End Recommender.

Section RecommenderClaims.
Import DataProcessor SimilarityEngine RecommendationEngine Examples.

(** C10. In every call of [recommend] that returns, the divisor of the final
    normalization is the greatest of all combined scores, those of the
    practices dropped for being at full maturity included, and every item
    returned is a combined score divided by it.  On [store_maxed] the greatest
    combined score belongs to P1, on which the target is at 1.0: the call
    returns the single item P2, with score 0.5. *)
Theorem final_divisor_is_max_over_all_scores :
  (forall cosine_similarity p practices target_team current_month top_n k_similar
          allow similarity_weight lookahead recent min_similarity s,
      match recommend_trace cosine_similarity p practices target_team current_month
              top_n k_similar allow similarity_weight lookahead recent
              min_similarity s with
      | (Ok t, _) =>
          let divisor := max_or_one (practices_scores t) in
          (forall q c, In (q, c) (practices_scores t) -> (c <= divisor)%Q)
          /\ (practices_scores t <> [] -> exists q, In (q, divisor) (practices_scores t))
          /\ Forall (rescaled practices t divisor) (recommendations t)
      | (Raise _, _) => True
      end)
  /\ exists t s',
       recommend_trace cosine_exact store_maxed P2 "TeamT" m2 2 19 false (6 # 10) 3 3
         (3 # 4) (SequenceMapper.init P2) = (Ok t, s')
       /\ fst (recommend cosine_exact store_maxed P2 "TeamT" m2 2 19 false (6 # 10) 3 3
                 (3 # 4) (SequenceMapper.init P2)) = Ok (recommendations t)
       /\ current_scores t = [1; 0]%Q
       /\ dict_keys (practices_scores t) = ["P1"; "P2"]%string
       /\ (score_get (practices_scores t) "P1" == 1)%Q
       /\ (score_get (practices_scores t) "P2" == 1 # 2)%Q
       /\ (max_or_one (practices_scores t) == 1)%Q
       /\ map item_practice (recommendations t) = ["P2"]%string
       /\ Forall (fun r => (item_score r == 1 # 2)%Q /\ (item_score r < 1)%Q)
            (recommendations t).
Proof.
  split.
  - intros cs p practices team month top_n k allow w L R ms s.
    pose proof (recommend_trace_rescaled cs p practices team month top_n k allow w
                  L R ms s) as H.
    destruct (recommend_trace cs p practices team month top_n k allow w L R ms s)
      as [[t|e] s']; [|exact I].
    destruct (max_or_one_spec (practices_scores t)) as [Hle Hin].
    cbv zeta. auto.
  - eexists. eexists. split; [vm_compute; reflexivity|].
    cbn [recommendations practices_scores current_scores].
    repeat split; try reflexivity.
    repeat constructor.
Qed.

(** C1, at a failing input. The name [similarity_weight] is rebound by the
    loop over the similar teams, so the argument of [recommend] never reaches
    the combination: two calls that differ in it only run alike.  On
    [store_weight], called with [similarity_weight = 0.6], the normalized
    similarity score of P3 and the normalized sequence score of P2 are both 1,
    and the combined scores are 1 for P3 and 0 for P2, computed with the
    similarity 1.0 of the last neighbour, where the argument would give 0.6
    and 0.4. *)
Theorem similarity_weight_argument_is_overwritten :
  (forall cosine_similarity p practices target_team current_month top_n k_similar
          allow w w' lookahead recent min_similarity s,
      recommend_trace cosine_similarity p practices target_team current_month
        top_n k_similar allow w lookahead recent min_similarity s
      = recommend_trace cosine_similarity p practices target_team current_month
          top_n k_similar allow w' lookahead recent min_similarity s)
  /\ exists t s',
       recommend_trace cosine_exact store_weight P3 "TeamA" m3 2 19 false (6 # 10) 3 3
         (3 # 4) (SequenceMapper.init P3) = (Ok t, s')
       /\ map nb_similarity (similar_teams t) = [1%Q]
       /\ (score_get (normalize (similarity_scores t)) "P3" == 1)%Q
       /\ (score_get (normalize (sequence_scores t)) "P3" == 0)%Q
       /\ (score_get (normalize (similarity_scores t)) "P2" == 0)%Q
       /\ (score_get (normalize (sequence_scores t)) "P2" == 1)%Q
       /\ (score_get (practices_scores t) "P3" == 1)%Q
       /\ (score_get (practices_scores t) "P2" == 0)%Q
       /\ ~ (score_get (practices_scores t) "P3"
             == (6 # 10) * score_get (normalize (similarity_scores t)) "P3"
                + (1 - (6 # 10)) * score_get (normalize (sequence_scores t)) "P3")%Q
       /\ ~ (score_get (practices_scores t) "P2"
             == (6 # 10) * score_get (normalize (similarity_scores t)) "P2"
                + (1 - (6 # 10)) * score_get (normalize (sequence_scores t)) "P2")%Q.
Proof.
  split.
  - intros cs p practices team month top_n k allow w w' L R ms s.
    unfold recommend_trace.
    destruct (get_team_history p team) as [h|e]; [|reflexivity].
    destruct (dict_get h month) as [scores|]; [|reflexivity].
    destruct (negb allow && _ && _); [reflexivity|].
    destruct (index _ month) as [idx|]; [|reflexivity].
    destruct (SequenceMapper.learn_sequences_up_to_month p month s) as [[path|e] s1];
      [|reflexivity].
    destruct (find_similar_teams cs p team month k ms) as [[|n l]|e]; reflexivity.
  - eexists. eexists. split; [vm_compute; reflexivity|].
    cbn [similar_teams similarity_scores sequence_scores practices_scores].
    repeat split; try reflexivity; vm_compute; discriminate.
Qed.

(** C2, at a failing input. The forward scan runs over
    [max_months_ahead = 3] months whatever the lookahead argument: two calls
    that differ in it only run alike.  On [store_late], called with a
    lookahead of 1, the scan from the neighbour's month [m1] visits [m2], [m3]
    and [m4], and the call recommends P2, which the neighbour improved three
    months after [m1] only. *)
Theorem lookahead_argument_is_not_read :
  (forall cosine_similarity p practices target_team current_month top_n k_similar
          allow similarity_weight L L' recent min_similarity s,
      recommend_trace cosine_similarity p practices target_team current_month
        top_n k_similar allow similarity_weight L recent min_similarity s
      = recommend_trace cosine_similarity p practices target_team current_month
          top_n k_similar allow similarity_weight L' recent min_similarity s)
  /\ forward_months 1 [m1; m2; m3; m4] 0 m4 = [m2; m3; m4]
  /\ exists t s',
       recommend_trace cosine_exact store_late P3 "TeamT" m4 2 19 false (6 # 10) 1 3
         (3 # 4) (SequenceMapper.init P3) = (Ok t, s')
       /\ map nb_team (similar_teams t) = ["TeamN"]%string
       /\ map nb_month (similar_teams t) = [m1]
       /\ dict_keys (similarity_scores t) = ["P2"]%string
       /\ map item_practice (recommendations t) = ["P2"]%string.
Proof.
  split; [|split].
  - intros cs p practices team month top_n k allow w L L' R ms s. reflexivity.
  - reflexivity.
  - eexists. eexists. split; [vm_compute; reflexivity|].
    repeat split; reflexivity.
Qed.

End RecommenderClaims.

(** * Further properties of the modelled code *)

(** ** More on dictionaries and lists *)

Section MoreDictFacts.
Context {K V : Type} `{EqKey K}.

Lemma dict_set_In (d : dict K V) (k k' : K) (v v' : V) :
  In (k', v') (dict_set d k v) -> (k' = k /\ v' = v) \/ In (k', v') d.
Proof.
  induction d as [|[k0 v0] d IH]; simpl.
  - intros [[= <- <-]|[]]. auto.
  - destruct (keqb k k0) eqn:E; simpl.
    + apply keqb_eq in E. subst k0. intros [[= <- <-]|Hin]; auto.
    + intros [Hin|Hin]; [auto|]. destruct (IH Hin); auto.
Qed.

Lemma dict_set_keys_In (d : dict K V) (k k' : K) (v : V) :
  In k' (dict_keys (dict_set d k v)) <-> k' = k \/ In k' (dict_keys d).
Proof.
  unfold dict_keys. induction d as [|[k0 v0] d IH]; simpl.
  - intuition.
  - destruct (keqb k k0) eqn:E; simpl.
    + apply keqb_eq in E. subst k0. intuition.
    + rewrite IH. intuition.
Qed.

Lemma dict_set_keys_NoDup (d : dict K V) (k : K) (v : V) :
  NoDup (dict_keys d) -> NoDup (dict_keys (dict_set d k v)).
Proof.
  unfold dict_keys. induction d as [|[k0 v0] d IH]; simpl; intros Hd.
  - constructor; [auto | constructor].
  - inversion Hd as [|? ? Hk0 Hd']; subst.
    destruct (keqb k k0) eqn:E; simpl; [now constructor|].
    constructor; [|now apply IH].
    intros Hin. apply (dict_set_keys_In d k k0 v) in Hin as [->|Hin]; [|auto].
    rewrite keqb_refl in E. discriminate.
Qed.

Lemma dict_get_none_keys (d : dict K V) (k : K) :
  dict_get d k = None <-> ~ In k (dict_keys d).
Proof.
  rewrite <- dict_mem_keys. unfold dict_mem.
  destruct (dict_get d k); split; intros; congruence.
Qed.

Lemma dict_In_get (d : dict K V) (k : K) (v : V) :
  NoDup (dict_keys d) -> In (k, v) d -> dict_get d k = Some v.
Proof.
  unfold dict_keys. induction d as [|[k0 v0] d IH]; simpl; intros Hd; [tauto|].
  inversion Hd as [|? ? Hk0 Hd']; subst.
  intros [[= -> ->]|Hin].
  - now rewrite keqb_refl.
  - destruct (keqb k k0) eqn:E; [|now apply IH].
    apply keqb_eq in E. subst k0. exfalso. apply Hk0.
    apply in_map_iff. now exists (k, v).
Qed.

End MoreDictFacts.

Lemma firstn_incl {A} (n : nat) (l : list A) : incl (firstn n l) l.
Proof.
  intros x Hx. rewrite <- (firstn_skipn n l). apply in_or_app. now left.
Qed.

Lemma firstn_NoDup {A} (n : nat) (l : list A) : NoDup l -> NoDup (firstn n l).
Proof.
  intros Hl. rewrite <- (firstn_skipn n l) in Hl.
  now apply NoDup_app_remove_r in Hl.
Qed.

Lemma take_NoDup {A B} (f : A -> B) (k : Z) (l : list A) :
  NoDup (map f l) -> NoDup (map f (SimilarityEngine.take k l)).
Proof.
  intros Hl. unfold SimilarityEngine.take.
  destruct (0 <=? k); rewrite <- firstn_map; now apply firstn_NoDup.
Qed.

Lemma take_length {A} (k : Z) (l : list A) :
  0 <= k -> (List.length (SimilarityEngine.take k l) <= Z.to_nat k)%nat.
Proof.
  intros Hk. unfold SimilarityEngine.take.
  apply Z.leb_le in Hk. rewrite Hk. apply firstn_le_length.
Qed.

Lemma take_sorted {A} (key : A -> Q) (k : Z) (l : list A) :
  StronglySorted (desc key) l -> StronglySorted (desc key) (SimilarityEngine.take k l).
Proof.
  intros Hl. unfold SimilarityEngine.take.
  destruct (0 <=? k); now apply firstn_sorted.
Qed.

(** ** [find_similar_teams] *)

Section SimilarTeams.
Import DataProcessor SimilarityEngine.

Variable cosine_similarity : vector -> vector -> Q.

Lemma compare_team_candidate (p : DataProcessor.t) (target_team : string)
    (target_vector : vector) (min_similarity : Q) (historical_month : Z)
    (team : string) (n : neighbour) :
  In n (compare_team cosine_similarity p target_team target_vector min_similarity
          historical_month team) ->
  nb_team n = team /\ nb_month n = historical_month /\ team <> target_team
  /\ exists h v,
       dict_get p team = Some h /\ dict_get h historical_month = Some v
       /\ nb_similarity n = cosine_similarity target_vector v
       /\ (min_similarity <= nb_similarity n)%Q.
Proof.
  unfold compare_team.
  destruct (keqb team target_team) eqn:E; [intros []|].
  destruct (dict_get p team) as [h|] eqn:Hh; [|intros []].
  destruct (dict_get h historical_month) as [v|] eqn:Hv; [|intros []].
  destruct (Qle_bool min_similarity _) eqn:Hle; [|intros []].
  intros [<-|[]]. repeat split.
  - intros ->. simpl in E. rewrite String.eqb_refl in E. discriminate.
  - exists h, v. repeat split; auto. now apply Qle_bool_iff.
Qed.

Lemma keep_best_values (l : list neighbour) :
  forall d v,
    In v (dict_values (fold_left keep_best l d)) ->
    In v (dict_values d) \/ In v l.
Proof.
  induction l as [|n l IH]; intros d v; simpl; [auto|].
  intros Hv. apply IH in Hv as [Hv|Hv]; [|auto].
  assert (Hset : In v (dict_values (dict_set d (nb_team n) n)) ->
                 In v (dict_values d) \/ n = v).
  { unfold dict_values. intros Hin. apply in_map_iff in Hin as [[k' v'] [E Hin]].
    simpl in E. subst v'. apply dict_set_In in Hin as [[_ ->]|Hin]; [auto|].
    left. apply in_map_iff. now exists (k', v). }
  unfold keep_best in Hv.
  destruct (dict_get d (nb_team n)) as [best|].
  - destruct (Qlt_bool _ _); [|auto]. destruct (Hset Hv); auto.
  - destruct (Hset Hv); auto.
Qed.

Lemma keep_best_keyed (l : list neighbour) :
  forall d, keyed d -> keyed (fold_left keep_best l d).
Proof.
  induction l as [|n l IH]; intros d Hd; simpl; [exact Hd|].
  apply IH.
  assert (Hset : keyed (dict_set d (nb_team n) n)).
  { destruct Hd as [Hnd Hk]. split; [now apply dict_set_keys_NoDup|].
    rewrite Forall_forall in *. intros [k' v'] Hin.
    apply dict_set_In in Hin as [[-> ->]|Hin]; [reflexivity | now apply Hk]. }
  unfold keep_best. destruct (dict_get d (nb_team n)) as [best|]; [|exact Hset].
  destruct (Qlt_bool _ _); [exact Hset | exact Hd].
Qed.

Lemma keyed_teams (d : dict string neighbour) :
  keyed d -> NoDup (map nb_team (dict_values d)).
Proof.
  intros [Hnd Hk]. unfold dict_values. rewrite map_map.
  replace (map (fun e => nb_team (snd e)) d) with (dict_keys d); [exact Hnd|].
  unfold dict_keys. apply map_ext_in. intros e He.
  rewrite Forall_forall in Hk. now apply Hk.
Qed.

(** What [find_similar_teams] returns when it returns. *)
Lemma find_similar_teams_result (p : DataProcessor.t) (target_team : string)
    (target_month k : Z) (min_similarity : Q) (result : list neighbour) :
  find_similar_teams cosine_similarity p target_team target_month k min_similarity
  = Ok result ->
  exists target_history target_vector all_similarities,
    dict_get p target_team = Some target_history
    /\ dict_get target_history target_month = Some target_vector
    /\ all_similarities
       = flat_map (fun historical_month =>
                     flat_map (compare_team cosine_similarity p target_team
                                 target_vector min_similarity historical_month)
                              (get_all_teams p))
                  (filter (fun m => m <? target_month) (get_all_months p))
    /\ all_similarities <> []
    /\ result = take k (sort_desc nb_similarity
                          (dict_values (fold_left keep_best all_similarities []))).
Proof.
  unfold find_similar_teams, get_team_history.
  destruct (dict_get p target_team) as [h|]; [|discriminate].
  destruct (dict_get h target_month) as [v|] eqn:Hv; [|discriminate].
  destruct (filter _ (get_all_months p)) as [|m0 past] eqn:Hpast; [discriminate|].
  destruct (flat_map _ (m0 :: past)) as [|n0 all] eqn:Hall; [discriminate|].
  intros [= <-]. exists h, v, (n0 :: all).
  split; [reflexivity|]. split; [exact Hv|]. split; [now rewrite Hall|].
  split; [discriminate | reflexivity].
Qed.

End SimilarTeams.

Section SimilarTeamsProperties.
Import DataProcessor SimilarityEngine Examples.

Variable cosine_similarity : vector -> vector -> Q.

Lemma all_similarities_candidate (p : DataProcessor.t) (target_team : string)
    (target_month : Z) (min_similarity : Q) (target_history : history)
    (target_vector : vector) (n : neighbour) :
  dict_get p target_team = Some target_history ->
  dict_get target_history target_month = Some target_vector ->
  In n (flat_map (fun historical_month =>
                    flat_map (compare_team cosine_similarity p target_team
                                target_vector min_similarity historical_month)
                             (get_all_teams p))
                 (filter (fun m => m <? target_month) (get_all_months p))) ->
  candidate cosine_similarity p target_team target_month min_similarity n.
Proof.
  intros Hh Hv Hin.
  apply in_flat_map in Hin as [m [Hm Hin]].
  apply in_flat_map in Hin as [team [_ Hin]].
  apply filter_In in Hm as [_ Hm]. apply Z.ltb_lt in Hm.
  apply compare_team_candidate in Hin
    as [Ht [Hmn [Hne [h [v [Hph [Hhv [Hs Hle]]]]]]]].
  unfold candidate. rewrite Ht, Hmn. repeat split; auto.
  exists target_history, target_vector, h, v. auto 10.
Qed.

(** X1. Every neighbour returned by [find_similar_teams] is another team,
    taken at a month strictly before the target month at which that team has
    a vector; its score is the cosine of that vector with the target's and is
    at least [min_similarity]. *)
Theorem find_similar_teams_only_past_neighbours (p : DataProcessor.t)
    (target_team : string) (target_month k : Z) (min_similarity : Q)
    (result : list neighbour) :
  find_similar_teams cosine_similarity p target_team target_month k min_similarity
  = Ok result ->
  Forall (candidate cosine_similarity p target_team target_month min_similarity) result.
Proof.
  intros Hr. apply find_similar_teams_result in Hr
    as [h [v [all [Hh [Hv [Hall [_ ->]]]]]]].
  rewrite Forall_forall. intros n Hn.
  apply take_incl in Hn.
  apply (Permutation_in n (Permutation_sym (sort_desc_perm nb_similarity _))) in Hn.
  apply keep_best_values in Hn as [[]|Hn].
  subst all. now apply (all_similarities_candidate p _ _ _ h v).
Qed.

(** X2. [find_similar_teams] never returns two entries for one team, lists
    its entries by descending similarity, and returns at most [k] of them. *)
Theorem find_similar_teams_distinct_ranked (p : DataProcessor.t)
    (target_team : string) (target_month k : Z) (min_similarity : Q)
    (result : list neighbour) :
  find_similar_teams cosine_similarity p target_team target_month k min_similarity
  = Ok result ->
  NoDup (map nb_team result)
  /\ StronglySorted (fun a b => (nb_similarity b <= nb_similarity a)%Q) result
  /\ (0 <= k -> (List.length result <= Z.to_nat k)%nat).
Proof.
  intros Hr. apply find_similar_teams_result in Hr
    as [h [v [all [_ [_ [_ [_ ->]]]]]]].
  split; [|split].
  - apply take_NoDup.
    apply (Permutation_NoDup
             (Permutation_map nb_team (sort_desc_perm nb_similarity _))).
    apply keyed_teams, keep_best_keyed. split; constructor.
  - apply (take_sorted nb_similarity), sort_desc_sorted.
  - apply take_length.
Qed.

Lemma dict_get_some_keys {V} (d : dict string V) (k : string) (v : V) :
  dict_get d k = Some v -> In k (dict_keys d).
Proof.
  intros Hg. apply dict_mem_keys. unfold dict_mem. now rewrite Hg.
Qed.

Lemma dict_set_nonempty {V} (d : dict string V) (k : string) (v : V) :
  dict_set d k v <> [].
Proof.
  destruct d as [|[k0 v0] d]; simpl; [discriminate|].
  destruct (String.eqb k k0); discriminate.
Qed.

Lemma keep_best_fold_nonempty (l : list neighbour) :
  forall d, d <> [] -> fold_left keep_best l d <> [].
Proof.
  induction l as [|x l IH]; intros d Hd; simpl; [exact Hd|].
  apply IH. unfold keep_best.
  destruct (dict_get d (nb_team x)); [|apply dict_set_nonempty].
  destruct (Qlt_bool _ _); [apply dict_set_nonempty | exact Hd].
Qed.

(** X3. [find_similar_teams] returns a list exactly when some candidate
    neighbour exists (which requires the target to have a vector at the
    target month); in every other case it raises [ValueError].  With
    [k >= 1] the list returned is not empty. *)
Theorem find_similar_teams_fails_without_candidate (p : DataProcessor.t)
    (target_team : string) (target_month k : Z) (min_similarity : Q) :
  match find_similar_teams cosine_similarity p target_team target_month k
          min_similarity with
  | Ok result =>
      (exists n, candidate cosine_similarity p target_team target_month
                   min_similarity n)
      /\ (1 <= k -> result <> [])
  | Raise e =>
      e = ValueError
      /\ forall n, ~ candidate cosine_similarity p target_team target_month
                      min_similarity n
  end.
Proof.
  destruct (find_similar_teams cosine_similarity p target_team target_month k
              min_similarity) as [result|e] eqn:Hr.
  - pose proof Hr as Hr'. apply find_similar_teams_result in Hr'
      as [h [v [all [Hh [Hv [Hall [Hne ->]]]]]]]. split.
    + destruct all as [|n all]; [congruence|]. exists n.
      apply (all_similarities_candidate p _ _ _ h v _ Hh Hv).
      rewrite <- Hall. now left.
    + intros Hk Hempty.
      assert (Hlen : List.length
                       (sort_desc nb_similarity
                          (dict_values (fold_left keep_best all []))) <> O).
      { rewrite <- (Permutation_length (sort_desc_perm nb_similarity _)).
        destruct all as [|n all]; [congruence|].
        change (fold_left keep_best (n :: all) [])
          with (fold_left keep_best all [(nb_team n, n)]).
        pose proof (keep_best_fold_nonempty all [(nb_team n, n)]
                      ltac:(discriminate)) as G.
        unfold dict_values. rewrite length_map.
        destruct (fold_left keep_best all [(nb_team n, n)]); [congruence | discriminate]. }
      unfold take in Hempty.
      destruct (0 <=? k) eqn:E; [|apply Z.leb_gt in E; lia].
      destruct (sort_desc _ _) as [|x l]; [now apply Hlen|].
      destruct (Z.to_nat k) eqn:Ek; [lia | discriminate].
  - unfold find_similar_teams, get_team_history in Hr.
    destruct (dict_get p target_team) as [h|] eqn:Hh.
    2:{ injection Hr as <-. split; [reflexivity|].
        intros n [_ [_ [h [v [h' [v' [Hh' _]]]]]]]. congruence. }
    destruct (dict_get h target_month) as [v|] eqn:Hv.
    2:{ injection Hr as <-. split; [reflexivity|].
        intros n [_ [_ [h0 [v0 [h' [v' [Hh' [Hv' _]]]]]]]]. congruence. }
    assert (Hnone :
              flat_map (fun historical_month =>
                          flat_map (compare_team cosine_similarity p target_team v
                                      min_similarity historical_month)
                                   (get_all_teams p))
                       (filter (fun m => m <? target_month) (get_all_months p)) = []
              /\ e = ValueError).
    { destruct (filter _ (get_all_months p)) as [|m0 past]; [now injection Hr as <-|].
      destruct (flat_map _ (m0 :: past)); [now injection Hr as <- | discriminate]. }
    destruct Hnone as [Hnone ->]. split; [reflexivity|].
    intros n [Hne [Hlt [h0 [v0 [h' [v' [Hh' [Hv' [Hp [Hm [Hs Hle]]]]]]]]]]].
    assert (h0 = h) by congruence. subst h0.
    assert (v0 = v) by congruence. subst v0.
    assert (Hin : In (nb_team n, cosine_similarity v v', nb_month n)
                     (flat_map (fun historical_month =>
                                  flat_map (compare_team cosine_similarity p target_team v
                                              min_similarity historical_month)
                                           (get_all_teams p))
                               (filter (fun m => m <? target_month) (get_all_months p)))).
    { apply in_flat_map. exists (nb_month n). split.
      - apply filter_In. split; [|now apply Z.ltb_lt].
        now apply (history_month_known p (nb_team n) h');
          [|unfold dict_mem; rewrite Hm].
      - apply in_flat_map. exists (nb_team n). split.
        + now apply (dict_get_some_keys p _ h').
        + unfold compare_team. rewrite (keqb_neq _ _ Hne), Hp, Hm.
          rewrite Hs in Hle. apply Qle_bool_iff in Hle. rewrite Hle. now left. }
    rewrite Hnone in Hin. exact Hin.
Qed.

End SimilarTeamsProperties.

Section SimilarTeamsWitnesses.
Import DataProcessor SimilarityEngine Examples.

Lemma find_similar_teams_only_past_neighbours_witness :
  Forall (candidate cosine_exact store_maxed "TeamT"%string m2 (3 # 4))
    [("TeamN"%string, 1%Q, m1)].
Proof.
  apply (find_similar_teams_only_past_neighbours cosine_exact store_maxed "TeamT"%string
           m2 19 (3 # 4)).
  reflexivity.
Defined.

(** For [TeamA] at the third month of [store_weight], [TeamB] is a candidate
    at two months and [TeamC] at one: each is listed once, [TeamB] first. *)
Lemma find_similar_teams_distinct_ranked_witness :
  find_similar_teams cosine_exact store_weight "TeamA"%string m3 19 0
  = Ok [("TeamB"%string, 1%Q, m1); ("TeamC"%string, 3 # 5, m2)]
  /\ NoDup (map nb_team [("TeamB"%string, 1%Q, m1); ("TeamC"%string, 3 # 5, m2)])
  /\ StronglySorted (fun a b => (nb_similarity b <= nb_similarity a)%Q)
       [("TeamB"%string, 1%Q, m1); ("TeamC"%string, 3 # 5, m2)]
  /\ (0 <= 19 ->
      (List.length [("TeamB"%string, 1%Q, m1); ("TeamC"%string, 3 # 5, m2)]
       <= Z.to_nat 19)%nat).
Proof.
  split; [reflexivity|].
  apply (find_similar_teams_distinct_ranked cosine_exact store_weight "TeamA"%string
           m3 19 0).
  reflexivity.
Defined.

End SimilarTeamsWitnesses.

(** ** [recommend] *)

Lemma sorted_fixpoint (l : list Z) : StronglySorted Z.le l -> sorted l = l.
Proof.
  induction 1 as [|x l Hl IH Hx]; [reflexivity|].
  simpl. rewrite IH. destruct l as [|y l]; [reflexivity|]. simpl.
  inversion Hx as [|? ? Hxy _]; subst.
  apply Z.leb_le in Hxy. now rewrite Hxy.
Qed.

Lemma sorted_twice (l : list Z) : sorted (sorted l) = sorted l.
Proof. apply sorted_fixpoint, sorted_sorted. Qed.

Section RecommendProperties.
Import DataProcessor SimilarityEngine RecommendationEngine.

Variable cosine_similarity : vector -> vector -> Q.

(** The steps behind a call of [recommend] that returns. *)
Lemma recommend_trace_inv (p : DataProcessor.t) (practices : list string)
    (target_team : string) (current_month top_n k_similar : Z) (allow : bool)
    (similarity_weight : Q) (lookahead recent : Z) (min_similarity : Q)
    (s s' : SequenceMapper.mapper) (t : scoring) :
  recommend_trace cosine_similarity p practices target_team current_month top_n
    k_similar allow similarity_weight lookahead recent min_similarity s = (Ok t, s') ->
  exists h path,
    dict_get p target_team = Some h
    /\ dict_get h current_month = Some (current_scores t)
    /\ SequenceMapper.learn_sequences_up_to_month p current_month s = (Ok path, s')
    /\ find_similar_teams cosine_similarity p target_team current_month k_similar
         min_similarity = Ok (similar_teams t)
    /\ similar_teams t <> []
    /\ similarity_scores t
       = similarity_scores_of p practices current_month lookahead (similar_teams t)
    /\ practices_scores t
       = combine (similarity_weight_after_loop similarity_weight (similar_teams t))
           (similarity_scores t) (sequence_scores t)
    /\ filter_and_rank practices (current_scores t) (practices_scores t) top_n
       = Ok (recommendations t).
Proof.
  unfold recommend_trace, get_team_history.
  destruct (dict_get p target_team) as [h|] eqn:Hh; [|discriminate].
  destruct (dict_get h current_month) as [scores|] eqn:Hs; [|discriminate].
  destruct (negb allow && _ && _); [discriminate|].
  destruct (index _ current_month) as [idx|]; [|discriminate].
  destruct (SequenceMapper.learn_sequences_up_to_month p current_month s)
    as [[path|e] s1] eqn:Hl; [|discriminate].
  destruct (find_similar_teams _ _ _ _ _ _) as [[|n l]|e] eqn:Hf; try discriminate.
  destruct (recently_improved _ _ _ _ _ _) as [recently|e]; [|discriminate].
  destruct (filter_and_rank _ _ _ _) as [recs|e] eqn:Hr; [|discriminate].
  intros [= <- <-]. exists h, path. cbn. repeat split; auto. discriminate.
Qed.

Lemma recommend_of_trace (p : DataProcessor.t) (practices : list string)
    (target_team : string) (current_month top_n k_similar : Z) (allow : bool)
    (similarity_weight : Q) (lookahead recent : Z) (min_similarity : Q)
    (s s' : SequenceMapper.mapper) (recs : list item) :
  recommend cosine_similarity p practices target_team current_month top_n
    k_similar allow similarity_weight lookahead recent min_similarity s = (Ok recs, s') ->
  exists t,
    recommend_trace cosine_similarity p practices target_team current_month top_n
      k_similar allow similarity_weight lookahead recent min_similarity s = (Ok t, s')
    /\ recommendations t = recs.
Proof.
  unfold recommend.
  destruct (recommend_trace _ _ _ _ _ _ _ _ _ _ _ _ _) as [[t|e] s1]; [|discriminate].
  intros [= <- <-]. now exists t.
Qed.

(** X4. [recommend] raises [ValueError] and leaves the sequence mapper as it
    was, without learning anything, when the team is unknown, when the team
    has no data for the baseline month, and, unless the override flag is set,
    when the store has two months or more and the baseline month is its
    first one. *)
Theorem recommend_rejects_without_learning (p : DataProcessor.t)
    (practices : list string) (target_team : string)
    (current_month top_n k_similar : Z) (allow : bool) (similarity_weight : Q)
    (lookahead recent : Z) (min_similarity : Q) (s : SequenceMapper.mapper) :
  dict_get p target_team = None
  \/ (exists h, dict_get p target_team = Some h /\ dict_get h current_month = None)
  \/ (allow = false /\ (2 <= List.length (get_all_months p))%nat
      /\ hd_error (get_all_months p) = Some current_month) ->
  recommend cosine_similarity p practices target_team current_month top_n
    k_similar allow similarity_weight lookahead recent min_similarity s
  = (Raise ValueError, s).
Proof.
  intros Hcase. unfold recommend, recommend_trace, get_team_history.
  destruct (dict_get p target_team) as [h|] eqn:Hh; [|reflexivity].
  destruct (dict_get h current_month) as [scores|] eqn:Hs; [|reflexivity].
  destruct Hcase as [Hc|[[h' [Hc1 Hc2]]|[-> [Hlen Hhd]]]]; [discriminate|congruence|].
  unfold get_all_months in *. rewrite sorted_twice.
  apply Nat.leb_le in Hlen. rewrite Hlen.
  destruct (sorted (month_set p)) as [|m0 l]; [discriminate|].
  injection Hhd as ->. simpl. rewrite Z.eqb_refl. reflexivity.
Qed.

Lemma combine_keys_NoDup (w : Q) (sim seq : dict string Q) :
  NoDup (dict_keys (combine w sim seq)).
Proof.
  unfold combine.
  apply (fold_left_invariant
           (fun (ps : dict string Q) practice =>
              dict_set ps practice
                (w * score_get (normalize sim) practice
                 + (1 - w) * score_get (normalize seq) practice)%Q)
           (fun ps => NoDup (dict_keys ps))).
  - intros a ps _ Hps. now apply dict_set_keys_NoDup.
  - constructor.
Qed.

Lemma filter_scores_NoDup (practices : list string) (cs : vector) (m : Q) :
  forall (entries : list (string * Q)) (recs result : list item),
    NoDup (map item_practice recs ++ map fst entries) ->
    filter_scores practices cs m entries recs = Ok result ->
    NoDup (map item_practice result).
Proof.
  induction entries as [|[practice score] entries IH]; intros recs result Hnd; simpl.
  - intros [= <-]. now rewrite app_nil_r in Hnd.
  - destruct (index practices practice) as [idx|]; [|discriminate].
    destruct (nth_error cs idx) as [level|]; [|discriminate].
    destruct (Qle_bool 1 level).
    + apply IH. simpl in Hnd. now apply NoDup_remove_1 in Hnd.
    + apply IH. rewrite map_app, <- app_assoc. exact Hnd.
Qed.

(** X5. The list returned by [recommend] has at most [top_n] items (for
    [top_n >= 0]), in descending order of score, on pairwise distinct
    practices, and no score exceeds 1. *)
Theorem recommend_bounded_ranked (p : DataProcessor.t)
    (practices : list string) (target_team : string)
    (current_month top_n k_similar : Z) (allow : bool) (similarity_weight : Q)
    (lookahead recent : Z) (min_similarity : Q) (s s' : SequenceMapper.mapper)
    (recs : list item) :
  recommend cosine_similarity p practices target_team current_month top_n
    k_similar allow similarity_weight lookahead recent min_similarity s = (Ok recs, s') ->
  (0 <= top_n -> (List.length recs <= Z.to_nat top_n)%nat)
  /\ StronglySorted (fun a b => (item_score b <= item_score a)%Q) recs
  /\ NoDup (map item_practice recs)
  /\ Forall (fun r => (item_score r <= 1)%Q) recs.
Proof.
  intros Hr. apply recommend_of_trace in Hr as [t [Ht <-]].
  pose proof (recommend_trace_rescaled cosine_similarity p practices target_team
                current_month top_n k_similar allow similarity_weight lookahead
                recent min_similarity s) as Hres.
  rewrite Ht in Hres.
  apply recommend_trace_inv in Ht as [h [path [_ [_ [_ [_ [_ [_ [Hps Hrank]]]]]]]]].
  unfold filter_and_rank in Hrank.
  destruct (filter_scores _ _ _ _ _) as [all|e] eqn:Hfilter; [|discriminate].
  injection Hrank as Hrank. rewrite <- Hrank.
  split; [apply take_length|].
  split; [apply (take_sorted item_score), sort_desc_sorted|].
  split.
  - apply take_NoDup.
    apply (Permutation_NoDup
             (Permutation_map item_practice (sort_desc_perm item_score all))).
    refine (filter_scores_NoDup _ _ _ _ _ _ _ Hfilter).
    simpl. rewrite Hps. apply combine_keys_NoDup.
  - rewrite Hrank. eapply Forall_impl; [|exact Hres].
    intros r [combined [idx [Hin [_ [_ [_ Hscore]]]]]]. rewrite Hscore.
    destruct (Qlt_bool 0 _) eqn:Hpos; [|discriminate].
    apply Qlt_bool_iff in Hpos.
    apply Qle_shift_div_r; [exact Hpos|]. rewrite Qmult_1_l.
    now apply (proj1 (max_or_one_spec (practices_scores t)) (item_practice r)).
Qed.

(** X6. Every item returned by [recommend] names a practice of the practice
    list, carries the level the team has on it at the baseline month, and
    that level is below 1.0. *)
Theorem recommend_skips_full_maturity (p : DataProcessor.t)
    (practices : list string) (target_team : string)
    (current_month top_n k_similar : Z) (allow : bool) (similarity_weight : Q)
    (lookahead recent : Z) (min_similarity : Q) (s s' : SequenceMapper.mapper)
    (recs : list item) :
  recommend cosine_similarity p practices target_team current_month top_n
    k_similar allow similarity_weight lookahead recent min_similarity s = (Ok recs, s') ->
  exists h current_scores,
    dict_get p target_team = Some h
    /\ dict_get h current_month = Some current_scores
    /\ Forall (fun r =>
                 exists practice_idx,
                   index practices (item_practice r) = Some practice_idx
                   /\ nth_error practices practice_idx = Some (item_practice r)
                   /\ nth_error current_scores practice_idx = Some (item_level r)
                   /\ (item_level r < 1)%Q) recs.
Proof.
  intros Hr. apply recommend_of_trace in Hr as [t [Ht <-]].
  pose proof (recommend_trace_rescaled cosine_similarity p practices target_team
                current_month top_n k_similar allow similarity_weight lookahead
                recent min_similarity s) as Hres.
  rewrite Ht in Hres.
  apply recommend_trace_inv in Ht as [h [path [Hh [Hs _]]]].
  exists h, (current_scores t). split; [exact Hh|]. split; [exact Hs|].
  eapply Forall_impl; [|exact Hres].
  intros r [combined [idx [_ [Hidx [Hlevel [Hlt _]]]]]].
  exists idx. repeat split; auto.
  clear - Hidx. revert idx Hidx.
  induction practices as [|q qs IH]; intros idx; simpl; [discriminate|].
  destruct (String.eqb (item_practice r) q) eqn:E.
  - apply String.eqb_eq in E. intros [= <-]. simpl. now rewrite E.
  - destruct (index qs (item_practice r)) as [i|]; [|discriminate].
    intros [= <-]. simpl. now apply IH.
Qed.

End RecommendProperties.

Section ForwardScan.
Import RecommendationEngine.

(** X7. The forward scan over a neighbour's months visits the months that
    follow the historical one, in order, at most three of them and none later
    than the baseline month; it stops short of three only at the end of the
    neighbour's months or at a month later than the baseline. *)
Theorem forward_months_stay_within_baseline (lookahead : Z)
    (similar_months : list Z) (hist_idx : nat) (current_month : Z) :
  (forall i m,
      nth_error (forward_months lookahead similar_months hist_idx current_month) i
      = Some m ->
      (i < 3)%nat
      /\ nth_error similar_months (hist_idx + 1 + i) = Some m
      /\ m <= current_month)
  /\ ((List.length (forward_months lookahead similar_months hist_idx current_month) < 3)%nat ->
      match nth_error similar_months
              (hist_idx + 1
               + List.length (forward_months lookahead similar_months hist_idx
                                current_month)) with
      | Some m => current_month < m
      | None => True
      end).
Proof.
  unfold forward_months, max_months_ahead. cbn [seq forward_months_from].
  replace (hist_idx + 1 + 0)%nat with (hist_idx + 1)%nat by lia.
  destruct (nth_error similar_months (hist_idx + 1)) as [a|] eqn:Ha.
  2:{ split; [intros [|i] m; discriminate|]. cbn. rewrite Nat.add_0_r, Ha. auto. }
  destruct (current_month <? a) eqn:Ca.
  { apply Z.ltb_lt in Ca. split; [intros [|i] m; discriminate|].
    cbn. rewrite Nat.add_0_r, Ha. auto. }
  apply Z.ltb_ge in Ca.
  destruct (nth_error similar_months (hist_idx + 2)) as [b|] eqn:Hb.
  2:{ split.
      - intros [|[|i]] m; cbn; try discriminate. intros [= <-].
        rewrite Nat.add_0_r. auto with arith.
      - cbn. replace (hist_idx + 1 + 1)%nat with (hist_idx + 2)%nat by lia.
        now rewrite Hb. }
  destruct (current_month <? b) eqn:Cb.
  { apply Z.ltb_lt in Cb. split.
    - intros [|[|i]] m; cbn; try discriminate. intros [= <-].
      rewrite Nat.add_0_r. auto with arith.
    - cbn. replace (hist_idx + 1 + 1)%nat with (hist_idx + 2)%nat by lia.
      now rewrite Hb. }
  apply Z.ltb_ge in Cb.
  destruct (nth_error similar_months (hist_idx + 3)) as [c|] eqn:Hc.
  2:{ split.
      - intros [|[|[|i]]] m; cbn; try discriminate; intros [= <-].
        + rewrite Nat.add_0_r. auto with arith.
        + replace (hist_idx + 1 + 1)%nat with (hist_idx + 2)%nat by lia.
          auto with arith.
      - cbn. replace (hist_idx + 1 + 2)%nat with (hist_idx + 3)%nat by lia.
        now rewrite Hc. }
  destruct (current_month <? c) eqn:Cc.
  { apply Z.ltb_lt in Cc. split.
    - intros [|[|[|i]]] m; cbn; try discriminate; intros [= <-].
      + rewrite Nat.add_0_r. auto with arith.
      + replace (hist_idx + 1 + 1)%nat with (hist_idx + 2)%nat by lia.
        auto with arith.
    - cbn. replace (hist_idx + 1 + 2)%nat with (hist_idx + 3)%nat by lia.
      now rewrite Hc. }
  apply Z.ltb_ge in Cc. split.
  - intros [|[|[|[|i]]]] m; cbn; try discriminate; intros [= <-].
    + rewrite Nat.add_0_r. auto with arith.
    + replace (hist_idx + 1 + 1)%nat with (hist_idx + 2)%nat by lia.
      auto with arith.
    + replace (hist_idx + 1 + 2)%nat with (hist_idx + 3)%nat by lia.
      auto with arith.
  - cbn. lia.
Qed.

End ForwardScan.

Section AsOfBaseline.
Import DataProcessor SequenceMapper Past.


Lemma learn_leaves_snapshot (p : DataProcessor.t) (M : Z) (s s' : mapper)
    (path : SequenceMapper.path) :
  learn_sequences_up_to_month p M s = (Ok path, s') ->
  practices s' = practices s
  /\ learned s' = true
  /\ dict_get (sequence_cache s') M
     = Some (transition_matrix s', practice_improvement_freq s').
Proof.
  unfold learn_sequences_up_to_month.
  destruct (dict_get (sequence_cache s) M) as [[ctm cfreq]|] eqn:Hc.
  - intros [= _ <-]. simpl. auto.
  - destruct (List.length _ <? 2)%nat.
    + intros [= _ <-]. simpl. now rewrite dict_get_set_same.
    + destruct (for_each _ _ _) as [[u|e] [tm freq]]; [|discriminate].
      intros [= _ <-]. simpl. now rewrite dict_get_set_same.
Qed.

Variable cosine_similarity : vector -> vector -> Q.


End AsOfBaseline.

(** ** The sequence mapper *)

Section MapperProperties.
Import DataProcessor SequenceMapper.

(** X9. A call of [learn_sequences_up_to_month] never drops or changes a
    snapshot of the cache, and never changes the practice list; the only key
    it may add is its own cutoff. *)
Theorem learn_cache_only_grows (p : DataProcessor.t) (M : Z) (s : mapper) :
  practices (snd (learn_sequences_up_to_month p M s)) = practices s
  /\ (forall M' w,
         dict_get (sequence_cache s) M' = Some w ->
         dict_get (sequence_cache (snd (learn_sequences_up_to_month p M s))) M'
         = Some w)
  /\ (forall M',
         M' <> M ->
         dict_get (sequence_cache (snd (learn_sequences_up_to_month p M s))) M'
         = dict_get (sequence_cache s) M').
Proof.
  unfold learn_sequences_up_to_month.
  destruct (dict_get (sequence_cache s) M) as [[ctm cfreq]|] eqn:Hc; simpl; [auto|].
  assert (Hset : forall v,
             (forall M' w, dict_get (sequence_cache s) M' = Some w ->
                           dict_get (dict_set (sequence_cache s) M v) M' = Some w)
             /\ (forall M', M' <> M ->
                            dict_get (dict_set (sequence_cache s) M v) M'
                            = dict_get (sequence_cache s) M')).
  { intros v. split.
    - intros M' w Hw. destruct (Z.eq_dec M' M) as [->|Hne]; [congruence|].
      now rewrite dict_get_set_other.
    - intros M' Hne. now rewrite dict_get_set_other. }
  destruct (List.length _ <? 2)%nat; simpl; [split; [reflexivity | apply Hset]|].
  destruct (for_each _ _ _) as [[u|e] [tm freq]]; simpl;
    (split; [reflexivity|]); [apply Hset | auto].
Qed.

Lemma sum_Z_cons (x : Z) (l : list Z) : sum_Z (x :: l) = x + sum_Z l.
Proof. unfold sum_Z at 1. simpl. apply fold_add_shift. Qed.

Lemma sum_Z_app (l1 l2 : list Z) : sum_Z (l1 ++ l2) = sum_Z l1 + sum_Z l2.
Proof.
  induction l1 as [|x l1 IH]; [reflexivity|].
  simpl. rewrite !sum_Z_cons, IH. lia.
Qed.

Lemma sum_Z_perm (l1 l2 : list Z) : Permutation l1 l2 -> sum_Z l1 = sum_Z l2.
Proof.
  induction 1; rewrite ?sum_Z_cons; lia.
Qed.

Lemma sum_Z_nonneg (l : list Z) : Forall (fun c => 1 <= c) l -> 0 <= sum_Z l.
Proof.
  induction 1 as [|x l Hx Hl IH]; [reflexivity|]. rewrite sum_Z_cons. lia.
Qed.

Lemma sum_Z_bounds_member (l : list Z) (c : Z) :
  Forall (fun c => 1 <= c) l -> In c l -> c <= sum_Z l.
Proof.
  induction 1 as [|x l Hx Hl IH]; [intros []|].
  rewrite sum_Z_cons. pose proof (sum_Z_nonneg l Hl).
  intros [->|Hin]; [lia|]. specialize (IH Hin). lia.
Qed.

Lemma sum_Q_cons (x : Q) (l : list Q) : (sum_Q (x :: l) == x + sum_Q l)%Q.
Proof.
  unfold sum_Q. simpl.
  assert (G : forall l a, (fold_left Qplus l a == a + fold_left Qplus l 0)%Q).
  { clear. induction l as [|y l IH]; intros a; simpl; [ring|].
    rewrite (IH (a + y)%Q), (IH (0 + y)%Q). ring. }
  rewrite G. ring.
Qed.

Lemma sum_Q_scaled (t : Q) (cs : list Z) :
  (sum_Q (map (fun c => inject_Z c / t) cs) == inject_Z (sum_Z cs) / t)%Q.
Proof.
  induction cs as [|c cs IH].
  - unfold sum_Q, sum_Z. simpl. unfold Qdiv. ring.
  - cbn [map]. rewrite sum_Q_cons, sum_Z_cons, IH, inject_Z_plus.
    unfold Qdiv. ring.
Qed.

(** X10. [get_typical_next_practices] raises [ValueError] exactly when the
    mapper has not learned; otherwise it returns at most [top_n] pairs, the
    empty list for a practice without a row, and each pair is a successor
    recorded in the row of the practice with its count divided by the total
    of the row. *)
Theorem get_typical_next_practices_answers (s : mapper) (practice : string)
    (top_n : nat) :
  match get_typical_next_practices s practice top_n with
  | Raise e => e = ValueError /\ learned s = false
  | Ok nexts =>
      learned s = true
      /\ (List.length nexts <= top_n)%nat
      /\ (dict_get (transition_matrix s) practice = None -> nexts = [])
      /\ forall next probability,
           In (next, probability) nexts ->
           exists row count,
             dict_get (transition_matrix s) practice = Some row
             /\ In (next, count) row
             /\ probability
                = (inject_Z count / inject_Z (sum_Z (dict_values row)))%Q
  end.
Proof.
  unfold get_typical_next_practices.
  destruct (learned s); simpl; [|auto].
  destruct (dict_get (transition_matrix s) practice) as [row|] eqn:Hrow.
  2:{ repeat split; auto using Nat.le_0_l; try (intros ? ? []). }
  destruct (sum_Z (dict_values row) =? 0).
  { repeat split; auto using Nat.le_0_l; try discriminate; try (intros ? ? []). }
  split; [reflexivity|]. split; [|split; [discriminate|]].
  - rewrite length_map. unfold most_common. apply firstn_le_length.
  - intros next probability Hin.
    apply in_map_iff in Hin as [[q c] [[= <- <-] Hin]].
    exists row, c. repeat split.
    unfold most_common in Hin. apply firstn_incl in Hin.
    now apply (Permutation_in _ (Permutation_sym (sort_desc_perm _ row))) in Hin.
Qed.

End MapperProperties.

Section PositiveCounts.
Import DataProcessor SequenceMapper.

Lemma dict_set_Forall {V} (P : string * V -> Prop) (d : dict string V)
    (k : string) (v : V) :
  Forall P d -> (forall k', P (k', v)) -> Forall P (dict_set d k v).
Proof.
  intros Hd Hv. rewrite Forall_forall in *. intros [k' v'] Hin.
  apply dict_set_In in Hin as [[_ ->]|Hin]; auto.
Qed.

Lemma counter_get_nonneg (c : counter) (k : string) :
  Forall (fun e => 1 <= snd e) c -> 0 <= counter_get c k.
Proof.
  intros Hc. unfold counter_get.
  destruct (dict_get c k) as [n|] eqn:Hn; [|lia].
  apply dict_get_In in Hn. rewrite Forall_forall in Hc.
  specialize (Hc _ Hn). simpl in Hc. lia.
Qed.

Lemma counter_incr_positive (c : counter) (k : string) :
  Forall (fun e => 1 <= snd e) c -> Forall (fun e => 1 <= snd e) (counter_incr c k).
Proof.
  intros Hc. apply dict_set_Forall; [exact Hc|].
  intros k'. simpl. pose proof (counter_get_nonneg c k Hc). lia.
Qed.

Lemma matrix_incr_positive (tm : matrix) (prev curr : string) :
  Forall (fun e => Forall (fun c => 1 <= snd c) (snd e)) tm ->
  Forall (fun e => Forall (fun c => 1 <= snd c) (snd e)) (matrix_incr tm prev curr).
Proof.
  intros Htm. apply dict_set_Forall; [exact Htm|].
  intros k'. simpl. apply counter_incr_positive. unfold matrix_row.
  destruct (dict_get tm prev) as [row|] eqn:Hrow; [|constructor].
  apply dict_get_In in Hrow. rewrite Forall_forall in Htm.
  exact (Htm _ Hrow).
Qed.

Lemma find_improved_positive (practices : list string) :
  forall (cv nv : vector) (j : nat) (improved : list string) (freq : counter),
    Forall (fun e => 1 <= snd e) freq ->
    Forall (fun e => 1 <= snd e)
      (snd (find_improved practices j cv nv improved freq)).
Proof.
  induction cv as [|c cv IH]; intros nv j improved freq Hfreq; [exact Hfreq|].
  destruct nv as [|x nv]; [exact Hfreq|]. simpl.
  destruct (Qlt_bool c x); [|now apply IH].
  destruct (nth_error practices j) as [name|]; [|exact Hfreq].
  apply IH. now apply counter_incr_positive.
Qed.

Lemma add_transitions_positive (improved : list string) (tm : matrix) :
  Forall (fun e => Forall (fun c => 1 <= snd c) (snd e)) tm ->
  Forall (fun e => Forall (fun c => 1 <= snd c) (snd e)) (add_transitions improved tm).
Proof.
  unfold add_transitions.
  apply (fold_left_invariant
           (fun tm '(prev, curr) => matrix_incr tm prev curr)
           (fun tm => Forall (fun e => Forall (fun c => 1 <= snd c) (snd e)) tm)).
  intros [prev curr] tm' _ Htm. now apply matrix_incr_positive.
Qed.

Lemma learn_pair_positive (practices : list string) (M : Z) (h : history)
    (pair : Z * Z) (w : matrix * counter) :
  counts_positive w -> counts_positive (snd (learn_pair practices M h pair w)).
Proof.
  intros [Htm Hfreq]. unfold learn_pair. destruct pair as [m1 m2].
  destruct ((M <=? m1) || (M <=? m2)); [split; assumption|].
  destruct (dict_get h m1) as [v1|]; [|split; assumption].
  destruct (dict_get h m2) as [v2|]; [|split; assumption].
  pose proof (find_improved_positive practices v1 v2 O [] (snd w) Hfreq) as Hf.
  destruct (find_improved practices 0 v1 v2 [] (snd w)) as [[improved|e] freq'];
    split; simpl in *; auto.
  now apply add_transitions_positive.
Qed.

Lemma learn_team_positive (p : DataProcessor.t) (practices : list string)
    (M : Z) (available : list Z) (team : string) (w : matrix * counter) :
  counts_positive w ->
  counts_positive (snd (learn_team p practices M available team w)).
Proof.
  intros Hw. unfold learn_team. destruct (get_team_history p team) as [h|e]; [|exact Hw].
  apply for_each_invariant; [|exact Hw].
  intros pair w' _ Hw'. now apply learn_pair_positive.
Qed.

Lemma learn_positive (p : DataProcessor.t) (M : Z) (s : mapper) :
  cache_positive s ->
  counts_positive
    (transition_matrix (snd (learn_sequences_up_to_month p M s)),
     practice_improvement_freq (snd (learn_sequences_up_to_month p M s)))
  /\ cache_positive (snd (learn_sequences_up_to_month p M s)).
Proof.
  intros Hs.
  assert (Hempty : counts_positive ([], [])) by (split; constructor).
  assert (Hset : forall w, counts_positive w ->
                           forall M' w', dict_get (dict_set (sequence_cache s) M w) M'
                                         = Some w' -> counts_positive w').
  { intros w Hw M' w'. destruct (Z.eq_dec M' M) as [->|Hne].
    - rewrite dict_get_set_same. now intros [= <-].
    - rewrite dict_get_set_other by exact Hne. apply Hs. }
  unfold learn_sequences_up_to_month.
  destruct (dict_get (sequence_cache s) M) as [[ctm cfreq]|] eqn:Hc; simpl.
  - split; [exact (Hs M _ Hc) | exact Hs].
  - destruct (List.length _ <? 2)%nat; simpl.
    + split; [exact Hempty|]. intros M' w'. now apply Hset.
    + pose proof (for_each_invariant
                    (learn_team p (practices s) M
                       (filter (fun m => m <? M) (get_all_months p)))
                    counts_positive (get_all_teams p)
                    (fun team w _ Hw =>
                       learn_team_positive p (practices s) M _ team w Hw)
                    ([], []) Hempty) as Hk.
      destruct (for_each _ _ _) as [[u|e] [tm freq]]; simpl in *.
      * split; [exact Hk|]. intros M' w'. now apply Hset.
      * split; [exact Hk | exact Hs].
Qed.

Lemma cache_positive_init (practices : list string) : cache_positive (init practices).
Proof. intros M w. simpl. discriminate. Qed.

Lemma sum_Z_firstn_le (n : nat) (l : list Z) :
  Forall (fun c => 1 <= c) l -> sum_Z (firstn n l) <= sum_Z l.
Proof.
  intros Hl. rewrite <- (firstn_skipn n l) at 2. rewrite sum_Z_app.
  assert (Hs : Forall (fun c => 1 <= c) (skipn n l)).
  { rewrite Forall_forall in *. intros c Hc. apply Hl.
    rewrite <- (firstn_skipn n l). apply in_or_app. now right. }
  pose proof (sum_Z_nonneg _ Hs). lia.
Qed.

(** X11. After a call of [learn_sequences_up_to_month] that returns (on a
    mapper whose cache was filled by such calls), every probability answered
    by [get_typical_next_practices] is a recorded count of at least 1 divided
    by the total of the row of the practice, a total the count does not
    exceed, so that the probability lies in (0, 1]; and the counts behind
    the probabilities of one answer add up to at most that total. *)
Theorem typical_next_probabilities (p : DataProcessor.t) (M : Z) (s s' : mapper)
    (path : SequenceMapper.path) (practice : string) (top_n : nat) :
  cache_positive s ->
  learn_sequences_up_to_month p M s = (Ok path, s') ->
  exists nexts total counts,
    get_typical_next_practices s' practice top_n = Ok nexts
    /\ 1 <= total
    /\ nexts = map (fun '(next, count) =>
                      (next, (inject_Z count / inject_Z total)%Q)) counts
    /\ Forall (fun e => 1 <= snd e <= total) counts
    /\ sum_Z (map snd counts) <= total
    /\ (nexts <> [] ->
        exists row,
          dict_get (transition_matrix s') practice = Some row
          /\ total = sum_Z (dict_values row)
          /\ incl counts row)
    /\ Forall (fun e => (0 < snd e)%Q /\ (snd e <= 1)%Q) nexts.
Proof.
  intros Hs Hl.
  destruct (learn_leaves_snapshot p M s s' path Hl) as [_ [Hlearned _]].
  pose proof (learn_positive p M s Hs) as [[Htm _] _].
  rewrite Hl in Htm. simpl in Htm.
  unfold get_typical_next_practices. rewrite Hlearned. simpl.
  destruct (dict_get (transition_matrix s') practice) as [row|] eqn:Hrow.
  2:{ exists [], 1, []. split; [reflexivity|]. split; [lia|].
      split; [reflexivity|]. split; [constructor|].
      split; [vm_compute; discriminate|]. split; [congruence | constructor]. }
  pose proof (dict_get_In _ _ _ Hrow) as Hin. rewrite Forall_forall in Htm.
  pose proof (Htm _ Hin) as Hpos. simpl in Hpos.
  assert (Hvals : Forall (fun c => 1 <= c) (dict_values row)).
  { unfold dict_values. rewrite Forall_forall in *. intros c Hc.
    apply in_map_iff in Hc as [e [<- He]]. now apply Hpos. }
  destruct (sum_Z (dict_values row) =? 0) eqn:Htot.
  { exists [], 1, []. split; [reflexivity|]. split; [lia|].
      split; [reflexivity|]. split; [constructor|].
      split; [vm_compute; discriminate|]. split; [congruence | constructor]. }
  apply Z.eqb_neq in Htot. pose proof (sum_Z_nonneg _ Hvals) as Hnn.
  assert (HT : (0 < inject_Z (sum_Z (dict_values row)))%Q).
  { rewrite <- (Zlt_Qlt 0). lia. }
  assert (Hperm : Permutation row (sort_desc (fun e => inject_Z (snd e)) row))
    by apply sort_desc_perm.
  assert (Hincl : incl (most_common row top_n) row).
  { intros e He. unfold most_common in He. apply firstn_incl in He.
    exact (Permutation_in _ (Permutation_sym Hperm) He). }
  assert (Hcounts : Forall (fun e => 1 <= snd e <= sum_Z (dict_values row))
                      (most_common row top_n)).
  { rewrite Forall_forall. intros [q c] He. apply Hincl in He.
    rewrite Forall_forall in Hpos. pose proof (Hpos _ He) as Hc. simpl in *.
    split; [exact Hc|].
    apply sum_Z_bounds_member; [exact Hvals|].
    unfold dict_values. apply in_map_iff. now exists (q, c). }
  exists (map (fun '(q, count) =>
                 (q, (inject_Z count / inject_Z (sum_Z (dict_values row)))%Q))
            (most_common row top_n)),
         (sum_Z (dict_values row)), (most_common row top_n).
  split; [reflexivity|]. split; [lia|]. split; [reflexivity|].
  split; [exact Hcounts|]. split; [|split].
  - unfold most_common. rewrite <- firstn_map.
    etransitivity; [apply sum_Z_firstn_le|].
    + apply (Permutation_Forall (Permutation_map snd Hperm)). exact Hvals.
    + apply Z.eq_le_incl, sum_Z_perm. symmetry.
      apply (Permutation_map snd Hperm).
  - intros _. exists row. auto.
  - rewrite Forall_forall. intros [q pr] Hq.
    apply in_map_iff in Hq as [[q' c] [[= <- <-] Hq]].
    rewrite Forall_forall in Hcounts. pose proof (Hcounts _ Hq) as [Hc1 Hc2].
    simpl in *. split.
    + apply Qlt_shift_div_l; [exact HT|]. rewrite Qmult_0_l.
      rewrite <- (Zlt_Qlt 0). lia.
    + apply Qle_shift_div_r; [exact HT|]. rewrite Qmult_1_l.
      now rewrite <- Zle_Qle.
Qed.

End PositiveCounts.

Section LearnAll.
Import DataProcessor SequenceMapper.

Lemma for_each_ext_in {A S} (f g : A -> S -> result unit * S) (l : list A) :
  (forall a s, In a l -> f a s = g a s) ->
  forall s, for_each f l s = for_each g l s.
Proof.
  induction l as [|a l IH]; intros Hfg s; [reflexivity|]. simpl.
  rewrite (Hfg a s (or_introl eq_refl)).
  destruct (g a s) as [[u|e] s']; [|reflexivity].
  apply IH. intros; apply Hfg; [now right].
Qed.

Lemma filter_all {A} (f : A -> bool) (l : list A) :
  (forall x, In x l -> f x = true) -> filter f l = l.
Proof.
  induction l as [|x l IH]; intros Hf; [reflexivity|]. simpl.
  rewrite (Hf x (or_introl eq_refl)), IH; [reflexivity|].
  intros; apply Hf; now right.
Qed.

Lemma consecutive_short {A} (l : list A) :
  (List.length l < 2)%nat -> consecutive l = [].
Proof. destruct l as [|a [|b l]]; simpl; [reflexivity | reflexivity | lia]. Qed.

Lemma learn_team_all_eq (p : DataProcessor.t) (practices : list string) (M : Z)
    (months : list Z) (team : string) (w : matrix * counter) :
  (forall m, In m months -> m < M) ->
  learn_team p practices M months team w = learn_team_all p practices months team w.
Proof.
  intros Hm. unfold learn_team, learn_team_all.
  destruct (get_team_history p team) as [h|e]; [|reflexivity].
  apply for_each_ext_in. intros [m1 m2] w' Hin.
  apply consecutive_In in Hin as [H1 H2].
  apply sorted_In, filter_In in H1 as [H1 _].
  apply sorted_In, filter_In in H2 as [H2 _].
  unfold learn_pair, learn_pair_all.
  assert (E1 : (M <=? m1) = false) by (apply Z.leb_gt; auto).
  assert (E2 : (M <=? m2) = false) by (apply Z.leb_gt; auto).
  now rewrite E1, E2.
Qed.

Lemma learn_team_all_short (p : DataProcessor.t) (practices : list string)
    (months : list Z) (teams : list string) (w : matrix * counter) :
  (List.length months < 2)%nat ->
  (forall team, In team teams -> In team (get_all_teams p)) ->
  for_each (learn_team_all p practices months) teams w = (Ok tt, w).
Proof.
  intros Hlen. induction teams as [|team teams IH]; intros Hteams; [reflexivity|].
  simpl. unfold learn_team_all at 1, get_team_history.
  destruct (dict_get p team) as [h|] eqn:Hh.
  - rewrite consecutive_short.
    + simpl. apply IH. intros; apply Hteams; now right.
    + rewrite sorted_length.
      pose proof (filter_length_le (fun m => dict_mem h m) months). lia.
  - exfalso. apply dict_get_none_keys in Hh. apply Hh.
    apply (Hteams team). now left.
Qed.

(** X12. On a mapper that holds no counts, [learn_sequences] computes what
    [learn_sequences_up_to_month] computes for a cutoff beyond every month of
    the store (and not yet cached): the same transition matrix, the same
    improvement frequencies, the same [learned] flag and the same outcome. *)
Theorem learn_sequences_is_learning_past_the_last_month (p : DataProcessor.t)
    (M : Z) (s : mapper) :
  (forall m, In m (get_all_months p) -> m < M) ->
  dict_get (sequence_cache s) M = None ->
  transition_matrix s = [] ->
  practice_improvement_freq s = [] ->
  transition_matrix (snd (learn_sequences p s))
  = transition_matrix (snd (learn_sequences_up_to_month p M s))
  /\ practice_improvement_freq (snd (learn_sequences p s))
     = practice_improvement_freq (snd (learn_sequences_up_to_month p M s))
  /\ learned (snd (learn_sequences p s))
     = learned (snd (learn_sequences_up_to_month p M s))
  /\ match fst (learn_sequences p s), fst (learn_sequences_up_to_month p M s) with
     | Ok _, Ok _ => True
     | Raise e, Raise e' => e = e'
     | _, _ => False
     end.
Proof.
  intros HM Hc Htm Hfreq. unfold learn_sequences, learn_sequences_up_to_month.
  rewrite Hc, Htm, Hfreq.
  rewrite (filter_all (fun m => m <? M) (get_all_months p))
    by (intros m Hm; apply Z.ltb_lt; auto).
  destruct (List.length (get_all_months p) <? 2)%nat eqn:Hlen.
  - apply Nat.ltb_lt in Hlen.
    pose proof (learn_team_all_short p (practices s) (get_all_months p)
                  (get_all_teams p) ([], []) Hlen (fun _ H => H)) as E.
    unfold matrix, counter, dict in *. rewrite E. simpl. repeat split; auto.
  - pose proof (for_each_ext_in
                  (learn_team p (practices s) M (get_all_months p))
                  (learn_team_all p (practices s) (get_all_months p))
                  (get_all_teams p)
                  (fun team w _ => learn_team_all_eq p (practices s) M _ team w HM)
                  ([], [])) as E.
    unfold matrix, counter, dict in *. rewrite E. clear E.
    destruct (for_each _ _ _) as [[u|e] [tm freq]]; simpl; repeat split; auto.
Qed.

Lemma learn_sequences_is_learning_past_the_last_month_witness :
  transition_matrix (snd (learn_sequences Examples.store_weight (init Examples.P3)))
  = transition_matrix
      (snd (learn_sequences_up_to_month Examples.store_weight Examples.m4
              (init Examples.P3)))
  /\ transition_matrix (snd (learn_sequences Examples.store_weight (init Examples.P3)))
     = [("P1"%string, [("P2"%string, 1)])].
Proof.
  split; [|reflexivity].
  apply (learn_sequences_is_learning_past_the_last_month Examples.store_weight
           Examples.m4 (init Examples.P3)); try reflexivity.
  intros m Hm. vm_compute in Hm.
  repeat destruct Hm as [<-|Hm]; try reflexivity. destruct Hm.
Defined.

(** *** [learn_sequences] accumulates *)

Lemma counter_get_incr (c : counter) (k k' : string) :
  counter_get (counter_incr c k) k'
  = counter_get c k' + (if String.eqb k' k then 1 else 0).
Proof.
  unfold counter_incr, counter_get at 1.
  destruct (String.eqb k' k) eqn:E.
  - apply String.eqb_eq in E. subst k'. now rewrite dict_get_set_same.
  - apply String.eqb_neq in E. rewrite dict_get_set_other by exact E.
    unfold counter_get. destruct (dict_get c k'); lia.
Qed.

Lemma matrix_get_incr (tm : matrix) (prev curr a b : string) :
  matrix_get (matrix_incr tm prev curr) a b
  = matrix_get tm a b + (if String.eqb a prev && String.eqb b curr then 1 else 0).
Proof.
  unfold matrix_get, matrix_incr, matrix_row at 1.
  destruct (String.eqb a prev) eqn:E.
  - apply String.eqb_eq in E. subst a. rewrite dict_get_set_same.
    rewrite counter_get_incr. simpl. reflexivity.
  - apply String.eqb_neq in E. rewrite dict_get_set_other by exact E.
    simpl. unfold matrix_row. lia.
Qed.

Lemma find_improved_offset (practices : list string) (d : string -> Z) :
  forall (cv nv : vector) (j : nat) (improved : list string) (freq freq0 : counter),
    (forall k, counter_get freq k = counter_get freq0 k + d k) ->
    fst (find_improved practices j cv nv improved freq)
    = fst (find_improved practices j cv nv improved freq0)
    /\ forall k,
         counter_get (snd (find_improved practices j cv nv improved freq)) k
         = counter_get (snd (find_improved practices j cv nv improved freq0)) k + d k.
Proof.
  induction cv as [|c cv IH]; intros nv j improved freq freq0 Hf; [simpl; auto|].
  destruct nv as [|x nv]; [simpl; auto|]. simpl.
  destruct (Qlt_bool c x); [|now apply IH].
  destruct (nth_error practices j) as [name|]; [|simpl; auto].
  apply IH. intros k. rewrite !counter_get_incr, Hf. lia.
Qed.

Lemma add_transitions_offset (dm : string -> string -> Z) (improved : list string) :
  forall tm tm0 : matrix,
    (forall a b, matrix_get tm a b = matrix_get tm0 a b + dm a b) ->
    forall a b,
      matrix_get (add_transitions improved tm) a b
      = matrix_get (add_transitions improved tm0) a b + dm a b.
Proof.
  unfold add_transitions. generalize (consecutive improved) as pairs.
  induction pairs as [|[prev curr] pairs IH]; intros tm tm0 Ht; [exact Ht|].
  simpl. apply IH. intros a b. rewrite !matrix_get_incr, Ht. lia.
Qed.

Lemma learn_pair_all_offset (practices : list string) (h : history)
    (dm : string -> string -> Z) (d : string -> Z) (pair : Z * Z)
    (w w0 : matrix * counter) :
  offset dm d w w0 ->
  fst (learn_pair_all practices h pair w) = fst (learn_pair_all practices h pair w0)
  /\ offset dm d (snd (learn_pair_all practices h pair w))
       (snd (learn_pair_all practices h pair w0)).
Proof.
  intros [Hm Hc]. unfold learn_pair_all. destruct pair as [m1 m2].
  destruct (dict_get h m1) as [v1|]; [|split; [reflexivity | split; assumption]].
  destruct (dict_get h m2) as [v2|]; [|split; [reflexivity | split; assumption]].
  destruct (find_improved_offset practices d v1 v2 O [] (snd w) (snd w0) Hc)
    as [Hr Hf].
  destruct (find_improved practices 0 v1 v2 [] (snd w)) as [r freq].
  destruct (find_improved practices 0 v1 v2 [] (snd w0)) as [r0 freq0].
  simpl in Hr, Hf. subst r0.
  destruct r as [improved|e]; (split; [reflexivity|]); split; simpl; auto.
  now apply add_transitions_offset.
Qed.

Lemma for_each_rel {A S} (f : A -> S -> result unit * S) (R : S -> S -> Prop)
    (l : list A) :
  (forall a s s0, R s s0 ->
                  fst (f a s) = fst (f a s0) /\ R (snd (f a s)) (snd (f a s0))) ->
  forall s s0, R s s0 ->
               fst (for_each f l s) = fst (for_each f l s0)
               /\ R (snd (for_each f l s)) (snd (for_each f l s0)).
Proof.
  intros Hf. induction l as [|a l IH]; intros s s0 HR; [simpl; auto|].
  simpl. destruct (Hf a s s0 HR) as [Hr Hs].
  destruct (f a s) as [r s1]. destruct (f a s0) as [r0 s2].
  simpl in Hr, Hs. subst r0. destruct r as [u|e]; [now apply IH | simpl; auto].
Qed.

Lemma learn_team_all_offset (p : DataProcessor.t) (practices : list string)
    (months : list Z) (dm : string -> string -> Z) (d : string -> Z)
    (team : string) (w w0 : matrix * counter) :
  offset dm d w w0 ->
  fst (learn_team_all p practices months team w)
  = fst (learn_team_all p practices months team w0)
  /\ offset dm d (snd (learn_team_all p practices months team w))
       (snd (learn_team_all p practices months team w0)).
Proof.
  intros Hw. unfold learn_team_all.
  destruct (get_team_history p team) as [h|e]; [|simpl; auto].
  apply for_each_rel; [|exact Hw].
  intros pair s s0. apply learn_pair_all_offset.
Qed.

Lemma learn_sequences_result (p : DataProcessor.t) (s : mapper) :
  fst (learn_sequences p s)
  = match fst (for_each (learn_team_all p (practices s) (get_all_months p))
                 (get_all_teams p)
                 (transition_matrix s, practice_improvement_freq s)) with
    | Ok _ => Ok tt
    | Raise e => Raise e
    end
  /\ transition_matrix (snd (learn_sequences p s))
     = fst (snd (for_each (learn_team_all p (practices s) (get_all_months p))
                   (get_all_teams p)
                   (transition_matrix s, practice_improvement_freq s)))
  /\ practice_improvement_freq (snd (learn_sequences p s))
     = snd (snd (for_each (learn_team_all p (practices s) (get_all_months p))
                   (get_all_teams p)
                   (transition_matrix s, practice_improvement_freq s))).
Proof.
  unfold learn_sequences.
  destruct (for_each _ _ _) as [[u|e] [tm freq]]; simpl; auto.
Qed.

(** X13. [learn_sequences] does not reset the mapper: whatever counts the
    mapper holds, the call adds to them the counts a fresh mapper would
    learn, with the same outcome.  Called twice on a fresh mapper it leaves
    every count doubled. *)
Theorem learn_sequences_adds_up (p : DataProcessor.t) (s : mapper) :
  let fresh := learn_sequences p (init (practices s)) in
  fst (learn_sequences p s) = fst fresh
  /\ (forall a b,
         matrix_get (transition_matrix (snd (learn_sequences p s))) a b
         = matrix_get (transition_matrix s) a b
           + matrix_get (transition_matrix (snd fresh)) a b)
  /\ (forall k,
         counter_get (practice_improvement_freq (snd (learn_sequences p s))) k
         = counter_get (practice_improvement_freq s) k
           + counter_get (practice_improvement_freq (snd fresh)) k)
  /\ (forall k,
         counter_get (practice_improvement_freq
                        (snd (learn_sequences p (snd fresh)))) k
         = 2 * counter_get (practice_improvement_freq (snd fresh)) k).
Proof.
  assert (G : forall s0 : mapper,
             fst (learn_sequences p s0)
             = fst (learn_sequences p (init (practices s0)))
             /\ (forall a b,
                    matrix_get (transition_matrix (snd (learn_sequences p s0))) a b
                    = matrix_get (transition_matrix s0) a b
                      + matrix_get (transition_matrix
                                      (snd (learn_sequences p (init (practices s0))))) a b)
             /\ (forall k,
                    counter_get (practice_improvement_freq (snd (learn_sequences p s0))) k
                    = counter_get (practice_improvement_freq s0) k
                      + counter_get (practice_improvement_freq
                                       (snd (learn_sequences p (init (practices s0))))) k)).
  { intros s0.
    destruct (learn_sequences_result p s0) as [E1 [E2 E3]].
    destruct (learn_sequences_result p (init (practices s0))) as [F1 [F2 F3]].
    rewrite E1, E2, E3, F1, F2, F3. clear E1 E2 E3 F1 F2 F3.
    destruct (for_each_rel
                (learn_team_all p (practices s0) (get_all_months p))
                (offset (matrix_get (transition_matrix s0))
                   (counter_get (practice_improvement_freq s0)))
                (get_all_teams p)
                (fun team w w0 Hw =>
                   learn_team_all_offset p (practices s0) (get_all_months p) _ _
                     team w w0 Hw)
                (transition_matrix s0, practice_improvement_freq s0)
                (transition_matrix (init (practices s0)),
                 practice_improvement_freq (init (practices s0))))
      as [Hr [Hm Hc]]; [split; intros; simpl; reflexivity|].
    cbn [practices init] in *.
    rewrite Hr. split; [reflexivity|].
    split; intros; rewrite ?Hm, ?Hc; lia. }
  intros fresh. destruct (G s) as [Hr [Hm Hc]].
  split; [exact Hr|]. split; [exact Hm|]. split; [exact Hc|].
  intros k. destruct (G (snd fresh)) as [_ [_ Hc2]].
  rewrite Hc2.
  assert (Hp : practices (snd fresh) = practices s).
  { unfold fresh, learn_sequences. simpl.
    destruct (for_each _ _ _) as [[u|e] [tm freq]]; reflexivity. }
  rewrite Hp. fold fresh. lia.
Qed.

End LearnAll.

(** ** More on the backtest loop *)

Section BacktestSound.
Import DataProcessor BacktestEngine.

Variable cosine_similarity : vector -> vector -> Q.
Variable comb : Q -> Z -> option Q.

Ltac break_match :=
  match goal with
  | |- context [match ?x with _ => _ end] => destruct x eqn:?
  end.

Lemma evaluate_team_per_month (p : DataProcessor.t) (practices : list string)
    (cfg : config) (months : list Z) (test_month : Z) (team : string)
    (pr : progress) (mc : month_counters) (s : SequenceMapper.mapper) :
  per_month_results
    (fst (fst (evaluate_team cosine_similarity p practices cfg months test_month
                 team (pr, mc, s))))
  = per_month_results pr.
Proof. unfold evaluate_team. repeat break_match; reflexivity. Qed.

Lemma set_add_incl (s teams : list string) (x : string) :
  incl s teams -> In x teams -> incl (set_add s x) teams.
Proof.
  intros Hs Hx y Hy. apply set_add_In in Hy as [->|Hy]; auto.
Qed.

Lemma evaluate_team_sound (teams : list string) (p : DataProcessor.t)
    (practices : list string) (cfg : config) (months : list Z) (test_month : Z)
    (team : string) (pr : progress) (mc : month_counters)
    (s : SequenceMapper.mapper) :
  In team teams ->
  loop_sound teams pr mc ->
  loop_sound teams
    (fst (fst (evaluate_team cosine_similarity p practices cfg months test_month
                 team (pr, mc, s))))
    (snd (fst (evaluate_team cosine_similarity p practices cfg months test_month
                 team (pr, mc, s)))).
Proof.
  intros Hteam Hs. pose proof Hs as [Hm [Ht [Hc [Hb [Hnd Hincl]]]]].
  unfold evaluate_team.
  repeat break_match; subst; simpl; try exact Hs.
  all: repeat split; simpl; try assumption; try lia.
  all: try (now apply set_add_NoDup).
  all: try (now apply set_add_incl).
Qed.

(** How the loop over teams ends. *)
Lemma run_teams_sound (all_teams : list string) (p : DataProcessor.t)
    (practices : list string) (cfg : config) (cc : cancellation)
    (months : list Z) (test_month : Z) (teams : list string) :
  incl teams all_teams ->
  forall (team_count : Z) (pr : progress) (mc : month_counters) (w : world),
    loop_sound all_teams pr mc ->
    match run_teams cosine_similarity p practices cfg cc months test_month teams
            team_count pr mc w with
    | Completed (pr', mc') w' =>
        loop_sound all_teams pr' mc'
        /\ per_month_results pr' = per_month_results pr
        /\ (cc = None -> polls w' = polls w)
    | Cancelled pr' w' =>
        (exists mc', loop_sound all_teams pr' mc')
        /\ per_month_results pr' = per_month_results pr
        /\ cc <> None
    | Failed _ _ => False
    end.
Proof.
  induction teams as [|team rest IH]; intros Hincl team_count pr mc w Hs.
  { simpl. auto. }
  cbn [run_teams].
  assert (Hpoll :
            match (match cc with
                   | Some _ =>
                       if (team_count + 1) mod 10 =? 0 then poll cc w else (false, w)
                   | None => (false, w)
                   end) with
            | (true, _) => cc <> None
            | (false, w1) => cc = None -> w1 = w
            end).
  { destruct cc as [check|]; [|reflexivity].
    destruct ((team_count + 1) mod 10 =? 0); simpl.
    - destruct (check (polls w)); [discriminate | intros; discriminate].
    - intros; discriminate. }
  destruct (match cc with
            | Some _ => if (team_count + 1) mod 10 =? 0 then poll cc w else (false, w)
            | None => (false, w)
            end) as [[|] w1].
  { split; [now exists mc|]. auto. }
  pose proof (evaluate_team_sound all_teams p practices cfg months test_month team
                pr mc (mapper w1) (Hincl team (or_introl eq_refl)) Hs) as Hstep.
  pose proof (evaluate_team_per_month p practices cfg months test_month team
                pr mc (mapper w1)) as Hpm.
  destruct (evaluate_team _ _ _ _ _ _ _ _) as [[pr' mc'] s']. simpl in Hstep, Hpm.
  assert (Hrest : incl rest all_teams) by (intros x Hx; apply Hincl; now right).
  specialize (IH Hrest (team_count + 1) pr' mc'
                {| mapper := s'; polls := polls w1 |} Hstep).
  destruct (run_teams _ _ _ _ _ _ _ _ _ _ _ _) as [[pr'' mc''] w''|pr'' w''|e w''];
    [| |exact IH].
  - destruct IH as [H1 [H2 H3]]. split; [exact H1|]. split; [congruence|].
    intros Hcc. rewrite (H3 Hcc). simpl. now rewrite (Hpoll Hcc).
  - destruct IH as [H1 [H2 H3]]. split; [exact H1|]. split; [congruence | exact H3].
Qed.

(** How one iteration of the loop over months ends. *)
Lemma run_month_sound (all_teams : list string) (p : DataProcessor.t)
    (practices : list string) (cfg : config) (cc : cancellation) (months : list Z)
    (teams : list string) (i : nat) (pr : progress) (w : world) :
  incl teams all_teams ->
  (1 <= i)%nat ->
  loop_sound all_teams pr no_month ->
  match run_month cosine_similarity p practices cfg cc months teams i pr w with
  | Completed pr' w' =>
      loop_sound all_teams pr' no_month
      /\ (exists r, per_month_results pr' = per_month_results pr ++ [r]
                    /\ month_at months r i)
      /\ (cc = None -> polls w' = polls w)
  | Cancelled pr' w' =>
      (exists mc', loop_sound all_teams pr' mc')
      /\ per_month_results pr' = per_month_results pr
      /\ cc <> None
  | Failed _ _ => True
  end.
Proof.
  intros Hincl Hi Hs. unfold run_month.
  assert (Hpoll : forall w0,
             match poll cc w0 with
             | (true, _) => cc <> None
             | (false, w1) => cc = None -> w1 = w0
             end).
  { intros w0. unfold poll. destruct cc as [check|]; [|reflexivity].
    destruct (check (polls w0)); [discriminate | intros; discriminate]. }
  pose proof (Hpoll w) as Hp1.
  destruct (poll cc w) as [[|] w1]; [split; [now exists no_month | auto]|].
  destruct (nth_error months i) as [test_month|] eqn:Hnth; [|exact I].
  destruct (firstn i months) as [|t0 train] eqn:Htrain.
  { exfalso. apply (f_equal (@List.length Z)) in Htrain.
    rewrite length_firstn in Htrain. simpl in Htrain.
    assert (i < List.length months)%nat by (apply nth_error_Some; congruence). lia. }
  pose proof (Hpoll w1) as Hp2.
  destruct (poll cc w1) as [[|] w2]; [split; [now exists no_month | auto]|].
  destruct (SequenceMapper.learn_sequences_up_to_month p test_month (mapper w2))
    as [[path|e] s']; [|exact I].
  pose proof (run_teams_sound all_teams p practices cfg cc months test_month teams
                Hincl 0 pr no_month {| mapper := s'; polls := polls w2 |} Hs)
    as Hteams.
  unfold no_month in Hteams.
  destruct (run_teams _ _ _ _ _ _ _ _ _ _ _ _) as [[pr' mc] w3|pr' w3|e w3];
    [| exact Hteams | exact I].
  destruct Hteams as [[Hm [Ht [Hc [Hb [Hnd Hin]]]]] [Hpm Hpolls]].
  split; [|split].
  - repeat split; simpl; auto; try lia.
    + apply Forall_app. split; [exact Hm|]. constructor; [|constructor].
      simpl. split; [exact Hb | reflexivity].
    + rewrite map_app, sum_Z_app. simpl. rewrite sum_Z_cons. unfold sum_Z at 2.
      simpl. lia.
    + rewrite map_app, sum_Z_app. simpl. rewrite sum_Z_cons. unfold sum_Z at 2.
      simpl. lia.
  - eexists. split; [simpl; rewrite Hpm; reflexivity|].
    split; simpl; [exact Hnth | now rewrite Htrain].
  - intros Hcc. rewrite (Hpolls Hcc). simpl.
    now rewrite (Hp2 Hcc), (Hp1 Hcc).
Qed.

(** How the loop over months ends. *)
Lemma run_months_sound (all_teams : list string) (p : DataProcessor.t)
    (practices : list string) (cfg : config) (cc : cancellation) (months : list Z)
    (teams : list string) (idxs : list nat) :
  incl teams all_teams ->
  Forall (fun i => (1 <= i)%nat) idxs ->
  forall (pr : progress) (w : world),
    loop_sound all_teams pr no_month ->
    match run_months cosine_similarity p practices cfg cc months teams idxs pr w with
    | Completed pr' w' =>
        loop_sound all_teams pr' no_month
        /\ (exists new, per_month_results pr' = per_month_results pr ++ new
                        /\ Forall2 (month_at months) new idxs)
        /\ (cc = None -> polls w' = polls w)
    | Cancelled pr' w' =>
        (exists mc', loop_sound all_teams pr' mc')
        /\ (exists new n, per_month_results pr' = per_month_results pr ++ new
                          /\ Forall2 (month_at months) new (firstn n idxs)
                          /\ (n < List.length idxs)%nat)
        /\ cc <> None
    | Failed _ _ => True
    end.
Proof.
  intros Hincl. induction idxs as [|i idxs IH]; intros Hidx pr w Hs.
  { simpl. split; [exact Hs|]. split; [|auto].
    exists []. rewrite app_nil_r. split; [reflexivity | constructor]. }
  inversion Hidx as [|? ? Hi Hrest]; subst.
  cbn [run_months].
  pose proof (run_month_sound all_teams p practices cfg cc months teams i pr w
                Hincl Hi Hs) as Hstep.
  destruct (run_month _ _ _ _ _ _ _ _ _ _) as [pr1 w1|pr1 w1|e w1]; [| |exact I].
  - destruct Hstep as [Hs1 [[r [Hpm1 Hat]] Hp1]].
    specialize (IH Hrest pr1 w1 Hs1).
    destruct (run_months _ _ _ _ _ _ _ _ _ _) as [pr2 w2|pr2 w2|e w2]; [| |exact I].
    + destruct IH as [Hs2 [[new [Hpm2 Hall]] Hp2]].
      split; [exact Hs2|]. split.
      * exists (r :: new). split; [|now constructor].
        rewrite Hpm2, Hpm1, <- app_assoc. reflexivity.
      * intros Hcc. now rewrite (Hp2 Hcc), (Hp1 Hcc).
    + destruct IH as [Hs2 [[new [n [Hpm2 [Hall Hn]]]] Hcc]].
      split; [exact Hs2|]. split; [|exact Hcc].
      exists (r :: new), (S n). split; [|split].
      * rewrite Hpm2, Hpm1, <- app_assoc. reflexivity.
      * simpl. now constructor.
      * simpl. lia.
  - destruct Hstep as [Hs1 [Hpm1 Hcc]].
    split; [exact Hs1|]. split; [|exact Hcc].
    exists [], O. rewrite app_nil_r. split; [exact Hpm1|].
    split; [constructor | simpl; lia].
Qed.

End BacktestSound.

(** ** What a backtest reports *)


Lemma firstn_seq_min (n a k : nat) : firstn n (seq a k) = seq a (Nat.min n k).
Proof.
  revert a k. induction n as [|n IH]; intros a [|k]; simpl; try reflexivity.
  now rewrite IH.
Qed.

Lemma accuracy_in_unit (r : BacktestEngine.month_result) :
  0 <= BacktestEngine.correct r <= BacktestEngine.predictions r ->
  BacktestEngine.month_ok r ->
  (0 <= BacktestEngine.accuracy r <= 1)%Q.
Proof.
  intros Hb Hok. unfold BacktestEngine.month_ok in Hok. rewrite Hok.
  destruct (0 <? BacktestEngine.predictions r) eqn:E.
  - apply Z.ltb_lt in E.
    assert (Hp : (0 < inject_Z (BacktestEngine.predictions r))%Q).
    { rewrite <- (Zlt_Qlt 0). exact E. }
    split.
    + apply Qle_shift_div_l; [exact Hp|]. rewrite Qmult_0_l.
      rewrite <- (Zle_Qle 0). lia.
    + apply Qle_shift_div_r; [exact Hp|]. rewrite Qmult_1_l.
      rewrite <- Zle_Qle. lia.
  - split; [apply Qle_refl | discriminate].
Qed.

Lemma sum_Q_in_unit (l : list Q) :
  Forall (fun x => (0 <= x <= 1)%Q) l ->
  (0 <= sum_Q l <= inject_Z (Z.of_nat (List.length l)))%Q.
Proof.
  induction 1 as [|x l [Hx0 Hx1] Hl [IH0 IH1]].
  { split; apply Qle_refl. }
  rewrite sum_Q_cons. split.
  - apply (Qplus_le_compat 0 x 0 (sum_Q l)); assumption.
  - cbn [List.length]. rewrite Nat2Z.inj_succ, <- Z.add_1_l, inject_Z_plus.
    apply Qplus_le_compat; assumption.
Qed.

Lemma overall_accuracy_in_unit (per_month : list BacktestEngine.month_result) :
  Forall (fun r => (0 <= BacktestEngine.accuracy r <= 1)%Q) per_month ->
  (0 <= BacktestEngine.overall_accuracy_of per_month <= 1)%Q.
Proof.
  intros H. unfold BacktestEngine.overall_accuracy_of.
  destruct per_month as [|r rest] eqn:E; [split; [apply Qle_refl | discriminate]|].
  rewrite <- E in *. 
  assert (Hall : Forall (fun x => (0 <= x <= 1)%Q) (map BacktestEngine.accuracy per_month)).
  { apply Forall_map. exact H. }
  apply sum_Q_in_unit in Hall. rewrite length_map in Hall. destruct Hall as [H0 H1].
  assert (Hlen : (0 < inject_Z (Z.of_nat (List.length per_month)))%Q).
  { rewrite <- (Zlt_Qlt 0). subst per_month. simpl. lia. }
  split.
  - apply Qle_shift_div_l; [exact Hlen|]. now rewrite Qmult_0_l.
  - apply Qle_shift_div_r; [exact Hlen|]. now rewrite Qmult_1_l.
Qed.

Section BacktestReports.
Import DataProcessor BacktestEngine.

Variable cosine_similarity : vector -> vector -> Q.
Variable comb : Q -> Z -> option Q.

Lemma start_sound (teams : list string) : loop_sound teams start no_month.
Proof.
  unfold loop_sound, start, no_month. simpl.
  repeat split; try constructor; try reflexivity; try lia.
  intros x [].
Qed.

(** The three ways [run_backtest] returns a dictionary. *)
Lemma run_backtest_sound (p : DataProcessor.t) (practices : list string)
    (cfg : config) (cc : cancellation) (w : world) :
  match run_backtest cosine_similarity comb p practices cfg cc w with
  | (Raise _, _) => True
  | (Ok d, w') =>
      ((List.length (get_all_months p) < 4)%nat /\ d = insufficient_data /\ w' = w)
      \/ (exists pr,
             d = final_results comb practices pr (top_n cfg)
             /\ loop_sound (get_all_teams p) pr no_month
             /\ Forall2 (month_at (get_all_months p)) (per_month_results pr)
                  (seq 3 (List.length (get_all_months p) - 3))
             /\ (cc = None -> polls w' = polls w))
      \/ (exists pr mc n,
             d = _build_partial_results comb practices pr (top_n cfg)
             /\ loop_sound (get_all_teams p) pr mc
             /\ Forall2 (month_at (get_all_months p)) (per_month_results pr) (seq 3 n)
             /\ (n < List.length (get_all_months p) - 3)%nat
             /\ cc <> None)
  end.
Proof.
  assert (E : sorted (get_all_months p) = get_all_months p)
    by apply sorted_twice.
  unfold run_backtest. rewrite !E.
  destruct (List.length (get_all_months p) <? 4)%nat eqn:Hlen.
  { apply Nat.ltb_lt in Hlen. left. auto. }
  pose proof (run_months_sound cosine_similarity (get_all_teams p) p practices cfg cc
                (get_all_months p) (get_all_teams p)
                (seq 3 (List.length (get_all_months p) - 3))
                (incl_refl _)) as Hrun.
  assert (Hidx : Forall (fun i => (1 <= i)%nat)
                   (seq 3 (List.length (get_all_months p) - 3))).
  { apply Forall_forall. intros i Hi. apply in_seq in Hi. lia. }
  specialize (Hrun Hidx start w (start_sound _)).
  destruct (run_months _ _ _ _ _ _ _ _ _ _) as [pr w'|pr w'|e w']; [| |exact I].
  - right; left. destruct Hrun as [Hs [[new [Hpm Hall]] Hp]].
    exists pr. simpl in Hpm. subst new. auto.
  - right; right. destruct Hrun as [[mc Hs] [[new [n [Hpm [Hall Hn]]]] Hcc]].
    simpl in Hpm. subst new. rewrite firstn_seq_min in Hall.
    rewrite length_seq in Hn.
    exists pr, mc, (Nat.min n (List.length (get_all_months p) - 3)).
    repeat split; auto; try apply Hs. lia.
Qed.

(** X14. In every result of a backtest that is not the error dictionary,
    the hits never exceed the predictions, neither in a month nor overall,
    and every accuracy, monthly and overall, lies between 0 and 1. *)
Theorem backtest_accuracy_bounds (p : DataProcessor.t) (practices : list string)
    (cfg : config) (cc : cancellation) (w : world) (d : dict string value) :
  fst (run_backtest cosine_similarity comb p practices cfg cc w) = Ok d ->
  dict_mem d "error"%string = false ->
  exists per_month total hits overall,
    dict_get d "per_month_results"%string = Some (VMonths per_month)
    /\ dict_get d "total_predictions"%string = Some (VInt total)
    /\ dict_get d "correct_predictions"%string = Some (VInt hits)
    /\ dict_get d "overall_accuracy"%string = Some (VFloat overall)
    /\ 0 <= hits <= total
    /\ Forall (fun r => 0 <= correct r <= predictions r
                        /\ (0 <= accuracy r <= 1)%Q) per_month
    /\ (0 <= overall <= 1)%Q.
Proof.
  intros Hrun Herr.
  pose proof (run_backtest_sound p practices cfg cc w) as Hs.
  destruct (run_backtest _ _ _ _ _ _ _) as [[d0|e] w']; simpl in Hrun; [|discriminate].
  injection Hrun as ->.
  assert (G : exists pr mc,
             (d = final_results comb practices pr (top_n cfg)
              \/ d = _build_partial_results comb practices pr (top_n cfg))
             /\ loop_sound (get_all_teams p) pr mc).
  { destruct Hs as [[_ [-> _]]|[[pr [-> [H _]]]|[pr [mc [n [-> [H _]]]]]]];
      [discriminate | exists pr, no_month; auto | exists pr, mc; auto]. }
  destruct G as [pr [mc [Hd [Hm [Ht [Hc [Hb [_ _]]]]]]]].
  assert (Hall : Forall (fun r => 0 <= correct r <= predictions r
                                  /\ (0 <= accuracy r <= 1)%Q)
                   (per_month_results pr)).
  { eapply Forall_impl; [|exact Hm]. intros r [H1 H2].
    split; [exact H1 | now apply accuracy_in_unit]. }
  assert (Hsum : sum_Z (map correct (per_month_results pr))
                 <= sum_Z (map predictions (per_month_results pr))).
  { clear - Hm. induction Hm as [|r l [Hr _] _ IH]; [reflexivity|].
    simpl. rewrite !sum_Z_cons. lia. }
  assert (Hnn : 0 <= sum_Z (map correct (per_month_results pr))).
  { clear - Hm. induction Hm as [|r l [Hr _] _ IH]; [reflexivity|].
    simpl. rewrite sum_Z_cons. lia. }
  exists (per_month_results pr), (total_predictions pr), (total_correct pr),
    (overall_accuracy_of (per_month_results pr)).
  split; [destruct Hd as [->| ->]; reflexivity|].
  split; [destruct Hd as [->| ->]; reflexivity|].
  split; [destruct Hd as [->| ->]; reflexivity|].
  split; [destruct Hd as [->| ->]; reflexivity|].
  split; [lia|]. split; [exact Hall|].
  apply overall_accuracy_in_unit.
  eapply Forall_impl; [|exact Hall]. intros r [_ H]. exact H.
Qed.


(** X16. The totals of a backtest that was not cancelled are the sums of the
    monthly counts; a cancelled one may have counted more than its recorded
    months show, never less.  The number of teams tested never exceeds the
    number of teams of the data. *)
Theorem backtest_totals_add_up (p : DataProcessor.t) (practices : list string)
    (cfg : config) (cc : cancellation) (w : world) (d : dict string value) :
  fst (run_backtest cosine_similarity comb p practices cfg cc w) = Ok d ->
  dict_mem d "error"%string = false ->
  exists per_month total hits tested,
    dict_get d "per_month_results"%string = Some (VMonths per_month)
    /\ dict_get d "total_predictions"%string = Some (VInt total)
    /\ dict_get d "correct_predictions"%string = Some (VInt hits)
    /\ dict_get d "teams_tested"%string = Some (VInt tested)
    /\ sum_Z (map predictions per_month) <= total
    /\ sum_Z (map correct per_month) <= hits
    /\ (dict_get d "cancelled"%string = Some (VBool false) ->
        total = sum_Z (map predictions per_month)
        /\ hits = sum_Z (map correct per_month))
    /\ 0 <= tested <= Z.of_nat (List.length (get_all_teams p)).
Proof.
  intros Hrun Herr.
  pose proof (run_backtest_sound p practices cfg cc w) as Hs.
  destruct (run_backtest _ _ _ _ _ _ _) as [[d0|e] w']; simpl in Hrun; [|discriminate].
  injection Hrun as ->.
  destruct Hs as [[_ [-> _]]|[[pr [-> [H _]]]|[pr [mc [n [-> [H _]]]]]]].
  - discriminate.
  - destruct H as [_ [Ht [Hc [_ [Hnd Hincl]]]]]. simpl in Ht, Hc.
    exists (per_month_results pr), (total_predictions pr), (total_correct pr),
      (Z.of_nat (List.length (all_teams_tested pr))).
    repeat split; try reflexivity; try lia.
    apply Nat2Z.inj_le. now apply NoDup_incl_length.
  - destruct H as [_ [Ht [Hc [Hb [Hnd Hincl]]]]].
    exists (per_month_results pr), (total_predictions pr), (total_correct pr),
      (Z.of_nat (List.length (all_teams_tested pr))).
    repeat split; try reflexivity; try lia; try discriminate.
    apply Nat2Z.inj_le. now apply NoDup_incl_length.
Qed.

(** X17. Without a cancellation check a backtest is never cancelled: what it
    returns carries the flag [cancelled] set to false. *)
Theorem backtest_without_check_is_not_cancelled (p : DataProcessor.t)
    (practices : list string) (cfg : config) (w : world) :
  match run_backtest cosine_similarity comb p practices cfg None w with
  | (Ok d, w') =>
      dict_get d "cancelled"%string = Some (VBool false) /\ polls w' = polls w
  | (Raise _, _) => True
  end.
Proof.
  pose proof (run_backtest_sound p practices cfg None w) as Hs.
  destruct (run_backtest _ _ _ _ _ _ _) as [[d|e] w']; [|exact I].
  destruct Hs as [[_ [-> ->]]|[[pr [-> [_ [_ Hp]]]]|[pr [mc [n [_ [_ [_ [_ Hcc]]]]]]]]].
  - split; reflexivity.
  - split; [reflexivity | now apply Hp].
  - now contradiction Hcc.
Qed.

Section Summary.
Variable format_error : value -> string.
Variable format_summary :
  value -> value -> Q -> Q -> Q -> value -> value -> value -> string.

(** X19. [get_accuracy_summary] never formats the report of a backtest: on
    the error dictionary of [run_backtest] it returns the error text, and on
    every other dictionary [run_backtest] returns, cancelled or not, it raises
    [KeyError] on the key [train_months], which [run_backtest] does not
    produce. *)
Theorem summary_of_backtest_raises_key_error (p : DataProcessor.t)
    (practices : list string) (cfg : config) (cc : cancellation) (w : world)
    (d : dict string value) :
  fst (run_backtest cosine_similarity comb p practices cfg cc w) = Ok d ->
  get_accuracy_summary format_error format_summary d
  = if dict_mem d "error"%string
    then Text (format_error
                 (VStr "Need at least 4 time periods (start from month 4)"))
    else MissingKey "train_months".
Proof.
  intros Hrun.
  pose proof (run_backtest_sound p practices cfg cc w) as Hs.
  destruct (run_backtest _ _ _ _ _ _ _) as [[d0|e] w']; simpl in Hrun; [|discriminate].
  injection Hrun as ->.
  destruct Hs as [[_ [-> _]]|[[pr [-> _]]|[pr [mc [n [-> _]]]]]].
  - reflexivity.
  - unfold get_accuracy_summary, final_results. simpl.
    destruct (Qlt_bool 0 _); reflexivity.
  - unfold get_accuracy_summary, _build_partial_results. simpl.
    destruct (Qlt_bool 0 _); reflexivity.
Qed.

End Summary.

End BacktestReports.

(** ** The polls of the cancellation check *)

Section BacktestPolls.
Import DataProcessor BacktestEngine.

Variable cosine_similarity : vector -> vector -> Q.
Variable comb : Q -> Z -> option Q.
Variable check : nat -> bool.

Lemma all_false_refl (a : nat) : all_false check a a.
Proof. intros k Hk. lia. Qed.

Lemma all_false_trans (a b c : nat) :
  all_false check a b -> all_false check b c -> all_false check a c.
Proof.
  intros H1 H2 k Hk. destruct (Nat.lt_ge_cases k b); [apply H1 | apply H2]; lia.
Qed.

Lemma all_false_stopped (a b c : nat) :
  (a <= b)%nat -> all_false check a b -> stopped_at check b c ->
  stopped_at check a c.
Proof.
  intros Hab H1 [Hlt [Ht H2]]. split; [lia|]. split; [exact Ht|].
  eapply all_false_trans; eassumption.
Qed.

(** One poll: a "go on" extends the run of polls, a "stop" ends it. *)
Lemma poll_trace (w : world) :
  match poll (Some check) w with
  | (true, w1) => stopped_at check (polls w) (polls w1)
  | (false, w1) =>
      (polls w <= polls w1)%nat /\ all_false check (polls w) (polls w1)
  end.
Proof.
  unfold poll. destruct (check (polls w)) eqn:E; simpl.
  - split; [lia|]. split; [exact E | apply all_false_refl].
  - split; [lia|]. intros k Hk. assert (k = polls w) by lia. now subst.
Qed.

Lemma run_teams_trace (p : DataProcessor.t) (practices : list string)
    (cfg : config) (months : list Z) (test_month : Z) (teams : list string) :
  forall (team_count : Z) (pr : progress) (mc : month_counters) (w : world),
    match run_teams cosine_similarity p practices cfg (Some check) months
            test_month teams team_count pr mc w with
    | Completed _ w' =>
        (polls w <= polls w')%nat /\ all_false check (polls w) (polls w')
    | Cancelled _ w' => stopped_at check (polls w) (polls w')
    | Failed _ _ => True
    end.
Proof.
  induction teams as [|team rest IH]; intros team_count pr mc w.
  { simpl. split; [lia | apply all_false_refl]. }
  cbn [run_teams].
  assert (Hpoll :
            match (if (team_count + 1) mod 10 =? 0
                   then poll (Some check) w else (false, w)) with
            | (true, w1) => stopped_at check (polls w) (polls w1)
            | (false, w1) =>
                (polls w <= polls w1)%nat /\ all_false check (polls w) (polls w1)
            end).
  { destruct ((team_count + 1) mod 10 =? 0); [apply poll_trace|].
    split; [lia | apply all_false_refl]. }
  destruct (if (team_count + 1) mod 10 =? 0 then poll (Some check) w else (false, w))
    as [[|] w1]; [exact Hpoll|].
  destruct Hpoll as [Hle Hfalse].
  destruct (evaluate_team _ _ _ _ _ _ _ _) as [[pr' mc'] s'].
  specialize (IH (team_count + 1) pr' mc' {| mapper := s'; polls := polls w1 |}).
  destruct (run_teams _ _ _ _ _ _ _ _ _ _ _ _) as [a w2|pr2 w2|e w2]; [| |exact I];
    simpl in IH.
  - destruct IH as [Hle2 Hf2]. split; [lia | eapply all_false_trans; eassumption].
  - eapply all_false_stopped; eassumption.
Qed.

Lemma run_month_trace (p : DataProcessor.t) (practices : list string)
    (cfg : config) (months : list Z) (teams : list string) (i : nat)
    (pr : progress) (w : world) :
  match run_month cosine_similarity p practices cfg (Some check) months teams i pr w with
  | Completed _ w' =>
      (polls w <= polls w')%nat /\ all_false check (polls w) (polls w')
  | Cancelled _ w' => stopped_at check (polls w) (polls w')
  | Failed _ _ => True
  end.
Proof.
  unfold run_month.
  pose proof (poll_trace w) as H1.
  destruct (poll (Some check) w) as [[|] w1]; [exact H1|]. destruct H1 as [Hle1 Hf1].
  destruct (nth_error months i) as [test_month|]; [|exact I].
  destruct (firstn i months) as [|t0 train]; [split; assumption|].
  pose proof (poll_trace w1) as H2.
  destruct (poll (Some check) w1) as [[|] w2].
  { eapply all_false_stopped; eassumption. }
  destruct H2 as [Hle2 Hf2].
  destruct (SequenceMapper.learn_sequences_up_to_month p test_month (mapper w2))
    as [[path|e] s']; [|exact I].
  pose proof (run_teams_trace p practices cfg months test_month teams 0 pr
                {| month_predictions := 0; month_correct := 0;
                   teams_tested_this_month := [] |}
                {| mapper := s'; polls := polls w2 |}) as H3.
  destruct (run_teams _ _ _ _ _ _ _ _ _ _ _ _) as [[pr' mc] w3|pr' w3|e w3];
    [| |exact I]; simpl in H3.
  - destruct H3 as [Hle3 Hf3]. split; [lia|].
    eapply all_false_trans; [exact Hf1|].
    eapply all_false_trans; eassumption.
  - eapply all_false_stopped; [exact Hle1 | exact Hf1|].
    eapply all_false_stopped; eassumption.
Qed.

Lemma run_months_trace (p : DataProcessor.t) (practices : list string)
    (cfg : config) (months : list Z) (teams : list string) (idxs : list nat) :
  forall (pr : progress) (w : world),
    match run_months cosine_similarity p practices cfg (Some check) months teams
            idxs pr w with
    | Completed _ w' =>
        (polls w <= polls w')%nat /\ all_false check (polls w) (polls w')
    | Cancelled _ w' => stopped_at check (polls w) (polls w')
    | Failed _ _ => True
    end.
Proof.
  induction idxs as [|i idxs IH]; intros pr w.
  { simpl. split; [lia | apply all_false_refl]. }
  cbn [run_months].
  pose proof (run_month_trace p practices cfg months teams i pr w) as H1.
  destruct (run_month _ _ _ _ _ _ _ _ _ _) as [pr1 w1|pr1 w1|e w1];
    [|exact H1|exact I].
  destruct H1 as [Hle1 Hf1]. specialize (IH pr1 w1).
  destruct (run_months _ _ _ _ _ _ _ _ _ _) as [pr2 w2|pr2 w2|e w2]; [| |exact I].
  - destruct IH as [Hle2 Hf2]. split; [lia | eapply all_false_trans; eassumption].
  - eapply all_false_stopped; eassumption.
Qed.

(** X18. A backtest is cancelled exactly by a poll of the cancellation check
    that answers "stop": the result is flagged cancelled when the last poll
    made answered "stop" and every poll before it "go on", and flagged not
    cancelled when every poll made answered "go on". *)
Theorem backtest_cancelled_by_last_poll (p : DataProcessor.t)
    (practices : list string) (cfg : config) (w : world) :
  match run_backtest cosine_similarity comb p practices cfg (Some check) w with
  | (Ok d, w') =>
      (dict_get d "cancelled"%string = Some (VBool true)
       /\ stopped_at check (polls w) (polls w'))
      \/ (dict_get d "cancelled"%string = Some (VBool false)
          /\ all_false check (polls w) (polls w'))
  | (Raise _, _) => True
  end.
Proof.
  unfold run_backtest.
  destruct (List.length (sorted (get_all_months p)) <? 4)%nat.
  { right. split; [reflexivity | apply all_false_refl]. }
  pose proof (run_months_trace p practices cfg (sorted (get_all_months p))
                (get_all_teams p)
                (seq 3 (List.length (sorted (get_all_months p)) - 3)) start w) as H.
  destruct (run_months _ _ _ _ _ _ _ _ _ _) as [pr w'|pr w'|e w']; [| |exact I].
  - right. split; [reflexivity | apply H].
  - left. split; [reflexivity | exact H].
Qed.

End BacktestPolls.

(** ** Accounting of the optimizer *)

Lemma flat_map_length_const {A B : Type} (f : A -> list B) (n : nat) (l : list A) :
  (forall x, List.length (f x) = n) ->
  List.length (flat_map f l) = (List.length l * n)%nat.
Proof.
  intros Hf. induction l as [|x l IH]; [reflexivity|].
  simpl. rewrite length_app, Hf, IH. reflexivity.
Qed.

Lemma nth_error_flat_map_block {A B : Type} (f : A -> list B) (n : nat)
    (l : list A) :
  (forall a, List.length (f a) = n) ->
  forall (i j : nat) (x : A),
    nth_error l i = Some x -> (j < n)%nat ->
    nth_error (flat_map f l) (i * n + j) = nth_error (f x) j.
Proof.
  intros Hf. induction l as [|a l IH]; intros i j x Hi Hj.
  - destruct i; discriminate.
  - destruct i as [|i]; simpl in Hi.
    + injection Hi as ->. simpl. apply nth_error_app1. rewrite Hf. exact Hj.
    + cbn [flat_map]. rewrite nth_error_app2 by (rewrite Hf; simpl; lia).
      rewrite Hf. replace (S i * n + j - n)%nat with (i * n + j)%nat
        by (simpl; lia).
      now apply IH.
Qed.

Section OptimizerAccounting.
Import OptimizationEngine.

(** X20. [generate_parameter_combinations] yields one configuration for each
    choice of one value from each of the six lists, in the order of
    [itertools.product] (the last list varies fastest): the configuration of
    the choice of indices [i1 .. i6] stands at the position these indices
    have in that order, with the fixed parameters applied, and the number of
    configurations is the product of the six lengths. *)
Theorem combinations_enumerate_choices (r : ranges)
    (fixed_params : BacktestEngine.config -> BacktestEngine.config) :
  let n1 := List.length (top_n_range r) in
  let n2 := List.length (similarity_weight_range r) in
  let n3 := List.length (k_similar_range r) in
  let n4 := List.length (similar_teams_lookahead_months_range r) in
  let n5 := List.length (recent_improvements_months_range r) in
  let n6 := List.length (min_similarity_threshold_range r) in
  List.length (generate_parameter_combinations r fixed_params)
  = (n1 * (n2 * (n3 * (n4 * (n5 * n6)))))%nat
  /\ forall (i1 i2 i3 i4 i5 i6 : nat) (top_n : Z) (similarity_weight : Q)
            (k_similar lookahead recent : Z) (min_sim : Q),
       nth_error (top_n_range r) i1 = Some top_n ->
       nth_error (similarity_weight_range r) i2 = Some similarity_weight ->
       nth_error (k_similar_range r) i3 = Some k_similar ->
       nth_error (similar_teams_lookahead_months_range r) i4 = Some lookahead ->
       nth_error (recent_improvements_months_range r) i5 = Some recent ->
       nth_error (min_similarity_threshold_range r) i6 = Some min_sim ->
       nth_error (generate_parameter_combinations r fixed_params)
         (i1 * (n2 * (n3 * (n4 * (n5 * n6))))
          + (i2 * (n3 * (n4 * (n5 * n6)))
             + (i3 * (n4 * (n5 * n6))
                + (i4 * (n5 * n6) + (i5 * n6 + i6)))))%nat
       = Some (fixed_params
                 {| BacktestEngine.top_n := top_n;
                    BacktestEngine.k_similar := k_similar;
                    BacktestEngine.similarity_weight := similarity_weight;
                    BacktestEngine.similar_teams_lookahead_months := lookahead;
                    BacktestEngine.recent_improvements_months := recent;
                    BacktestEngine.min_similarity_threshold := min_sim |}).
Proof.
  cbv zeta. split.
  - unfold generate_parameter_combinations.
    apply flat_map_length_const; intros top_n.
    apply flat_map_length_const; intros similarity_weight.
    apply flat_map_length_const; intros k_similar.
    apply flat_map_length_const; intros lookahead.
    apply flat_map_length_const; intros recent.
    apply length_map.
  - intros i1 i2 i3 i4 i5 i6 top_n similarity_weight k_similar lookahead recent
      min_sim H1 H2 H3 H4 H5 H6.
    assert (B1 : (i1 < List.length (top_n_range r))%nat)
      by (apply nth_error_Some; congruence).
    assert (B2 : (i2 < List.length (similarity_weight_range r))%nat)
      by (apply nth_error_Some; congruence).
    assert (B3 : (i3 < List.length (k_similar_range r))%nat)
      by (apply nth_error_Some; congruence).
    assert (B4 : (i4 < List.length (similar_teams_lookahead_months_range r))%nat)
      by (apply nth_error_Some; congruence).
    assert (B5 : (i5 < List.length (recent_improvements_months_range r))%nat)
      by (apply nth_error_Some; congruence).
    assert (B6 : (i6 < List.length (min_similarity_threshold_range r))%nat)
      by (apply nth_error_Some; congruence).
    set (n2 := List.length (similarity_weight_range r)) in *.
    set (n3 := List.length (k_similar_range r)) in *.
    set (n4 := List.length (similar_teams_lookahead_months_range r)) in *.
    set (n5 := List.length (recent_improvements_months_range r)) in *.
    set (n6 := List.length (min_similarity_threshold_range r)) in *.
    assert (C5 : (i5 * n6 + i6 < n5 * n6)%nat) by nia.
    assert (C4 : (i4 * (n5 * n6) + (i5 * n6 + i6) < n4 * (n5 * n6))%nat) by nia.
    assert (C3 : (i3 * (n4 * (n5 * n6)) + (i4 * (n5 * n6) + (i5 * n6 + i6))
                  < n3 * (n4 * (n5 * n6)))%nat) by nia.
    assert (C2 : (i2 * (n3 * (n4 * (n5 * n6)))
                  + (i3 * (n4 * (n5 * n6)) + (i4 * (n5 * n6) + (i5 * n6 + i6)))
                  < n2 * (n3 * (n4 * (n5 * n6))))%nat) by nia.
    unfold generate_parameter_combinations.
    erewrite nth_error_flat_map_block; [| |exact H1|exact C2].
    2:{ intros a1.
        apply flat_map_length_const; intros a2.
        apply flat_map_length_const; intros a3.
        apply flat_map_length_const; intros a4.
        apply flat_map_length_const; intros a5.
        apply length_map. }
    erewrite nth_error_flat_map_block; [| |exact H2|exact C3].
    2:{ intros a2.
        apply flat_map_length_const; intros a3.
        apply flat_map_length_const; intros a4.
        apply flat_map_length_const; intros a5.
        apply length_map. }
    erewrite nth_error_flat_map_block; [| |exact H3|exact C4].
    2:{ intros a3.
        apply flat_map_length_const; intros a4.
        apply flat_map_length_const; intros a5.
        apply length_map. }
    erewrite nth_error_flat_map_block; [| |exact H4|exact C5].
    2:{ intros a4.
        apply flat_map_length_const; intros a5.
        apply length_map. }
    erewrite nth_error_flat_map_block; [| |exact H5|exact B6].
    2:{ intros a5. apply length_map. }
    rewrite nth_error_map, H6. reflexivity.
Qed.

(** Of the 180 configurations of the default ranges, the one that takes the
    second [top_n], the third [similarity_weight], the fourth [k_similar] and
    the second threshold stands at position [1 * 45 + 2 * 15 + 3 * 3 + 1]. *)
Lemma combinations_enumerate_choices_witness :
  List.length (generate_parameter_combinations default_ranges (fun c => c)) = 180%nat
  /\ nth_error (generate_parameter_combinations default_ranges (fun c => c)) 85
     = Some {| BacktestEngine.top_n := 3;
               BacktestEngine.k_similar := 19;
               BacktestEngine.similarity_weight := 8 # 10;
               BacktestEngine.similar_teams_lookahead_months := 3;
               BacktestEngine.recent_improvements_months := 3;
               BacktestEngine.min_similarity_threshold := 5 # 10 |}.
Proof.
  destruct (combinations_enumerate_choices default_ranges (fun c => c))
    as [Hlen Hnth].
  split; [exact Hlen|].
  exact (Hnth 1%nat 2%nat 3%nat 0%nat 0%nat 1%nat 3 (8 # 10) 19 3 3 (5 # 10)
           eq_refl eq_refl eq_refl eq_refl eq_refl eq_refl).
Defined.

Variable run_backtest :
  BacktestEngine.config -> BacktestEngine.cancellation -> world
  -> result (dict string value) * world.
Variables (min_accuracy early_stop_threshold early_stop_min_tested : Q).

Lemma search_loop_ended (flag : nat -> bool) (total : nat)
    (combinations : list BacktestEngine.config) :
  forall (idx : nat) (st : search) (w : world),
    running idx st ->
    (idx + List.length combinations = total)%nat ->
    ended early_stop_threshold early_stop_min_tested total
      (fst (search_loop run_backtest min_accuracy early_stop_threshold
              early_stop_min_tested flag total combinations idx st w)).
Proof.
  induction combinations as [|c rest IH]; intros idx st w Hrun Hlen.
  { destruct Hrun as [Hc [He [Hv _]]]. simpl in *. unfold ended.
    rewrite Hc, He. lia. }
  destruct st as [valid best es ca li].
  destruct Hrun as [Hc [He [Hv Hli]]]. simpl in Hc, He, Hv, Hli. subst es ca.
  cbn [List.length] in Hlen.
  cbn [search_loop valid_results best_config early_stopped cancelled last_idx].
  destruct (BacktestEngine.poll (Some flag) w) as [[|] w1].
  { unfold ended. simpl. exists idx. repeat split; [lia | exact Hv]. }
  assert (Hnext : forall w2,
             ended early_stop_threshold early_stop_min_tested total
               (fst (search_loop run_backtest min_accuracy early_stop_threshold
                       early_stop_min_tested flag total rest (S idx)
                       {| valid_results := valid; best_config := best;
                          early_stopped := false; cancelled := false;
                          last_idx := Some idx |} w2))).
  { intros w2. apply IH; [|lia]. repeat split; simpl; auto. }
  destruct (run_backtest c (Some flag) w1) as [[result|e] w2]; [|apply Hnext].
  destruct (flag_get result "cancelled" false).
  { unfold ended. simpl. exists idx. repeat split; [lia | exact Hv]. }
  destruct (dict_mem result "error"%string); [apply Hnext|].
  destruct (Qle_bool min_accuracy _); [|apply Hnext].
  destruct (beats _ best).
  - match goal with
    | |- context [if ?b then (_, _) else _] => destruct b eqn:Hstop
    end.
    + unfold ended. simpl. eexists idx, _.
      split; [reflexivity|]. split; [lia|]. split.
      * rewrite length_app. simpl. lia.
      * split; [reflexivity | exact Hstop].
    + apply IH; [|lia]. repeat split; simpl; auto.
      rewrite length_app. simpl. lia.
  - apply IH; [|lia]. repeat split; simpl; auto.
    rewrite length_app. simpl. lia.
Qed.

Lemma search_loop_accepts (flag : nat -> bool) (total : nat)
    (all : list BacktestEngine.config)
    (combinations : list BacktestEngine.config) :
  incl combinations all ->
  forall (idx : nat) (st : search) (w : world),
    Forall (fun e => (min_accuracy <= model_accuracy e)%Q /\ In (config e) all)
      (valid_results st) ->
    Forall (fun e => (min_accuracy <= model_accuracy e)%Q /\ In (config e) all)
      (valid_results
         (fst (search_loop run_backtest min_accuracy early_stop_threshold
                 early_stop_min_tested flag total combinations idx st w))).
Proof.
  induction combinations as [|c rest IH]; intros Hincl idx st w Hst; [exact Hst|].
  assert (Hrest : incl rest all) by (intros x Hx; apply Hincl; now right).
  cbn [search_loop].
  destruct (BacktestEngine.poll (Some flag) w) as [[|] w1]; [exact Hst|].
  destruct (run_backtest c (Some flag) w1) as [[result|e] w2];
    [|apply IH; assumption].
  destruct (flag_get result "cancelled" false); [exact Hst|].
  destruct (dict_mem result "error"%string); [apply IH; assumption|].
  destruct (Qle_bool min_accuracy _) eqn:Hacc; [|apply IH; assumption].
  cbn [valid_results best_config early_stopped cancelled last_idx].
  assert (Hnew : Forall (fun e => (min_accuracy <= model_accuracy e)%Q
                                  /\ In (config e) all)
                   (valid_results st
                    ++ [entry_of c (num_get result "overall_accuracy" 0) result])).
  { apply Forall_app. split; [exact Hst|]. constructor; [|constructor].
    simpl. split; [now apply Qle_bool_iff | apply Hincl; now left]. }
  destruct (beats _ (best_config st)).
  - match goal with
    | |- context [if ?b then (_, _) else _] => destruct b
    end; [exact Hnew | apply IH; assumption].
  - apply IH; assumption.
Qed.

(** X21. The counts reported by [find_optimal_config] are consistent: the
    accepted results are no more than the combinations tested, which are no
    more than those available; [all_results] holds the 50 best accepted ones,
    or all of them when fewer; a search is never both cancelled and stopped
    early; and a search that is neither has tested every combination. *)
Theorem optimizer_counts_consistent (r : ranges)
    (fixed_params : BacktestEngine.config -> BacktestEngine.config)
    (flag : nat -> bool) (w : world) :
  let res := fst (find_optimal_config run_backtest min_accuracy early_stop_threshold
                    early_stop_min_tested r fixed_params flag w) in
  (valid_combinations res <= total_combinations_tested res)%nat
  /\ (total_combinations_tested res <= total_combinations_available res)%nat
  /\ List.length (all_results res) = Nat.min 50 (valid_combinations res)
  /\ result_cancelled res && result_early_stopped res = false
  /\ (result_cancelled res || result_early_stopped res = false ->
      total_combinations_tested res = total_combinations_available res).
Proof.
  unfold find_optimal_config.
  pose proof (search_loop_ended flag
                (List.length (generate_parameter_combinations r fixed_params))
                (generate_parameter_combinations r fixed_params)
                O search_start w) as Hend.
  destruct (search_loop _ _ _ _ _ _ _ _ _ _) as [st w'].
  cbn [fst all_results valid_combinations total_combinations_tested
         total_combinations_available result_cancelled result_early_stopped] in *.
  assert (Hrun : running 0 search_start) by (repeat split; simpl; auto).
  specialize (Hend Hrun eq_refl). unfold ended in Hend.
  assert (Hall : List.length (firstn 50 (sort_desc improvement_gap (valid_results st)))
                 = Nat.min 50 (List.length (valid_results st))).
  { rewrite length_firstn.
    now rewrite (Permutation_length (sort_desc_perm improvement_gap (valid_results st))). }
  destruct (cancelled st), (early_stopped st); simpl.
  - contradiction.
  - destruct Hend as [j [-> [Hj Hv]]]. repeat split; auto; try lia; try discriminate.
  - destruct Hend as [j [e [-> [Hj [Hv _]]]]]. repeat split; auto; try lia; try discriminate.
  - repeat split; auto; try lia.
Qed.

(** X22. Every entry of [all_results] has a model accuracy of at least
    [min_accuracy] and carries one of the generated configurations; and
    [optimal_config] is [None] exactly when no result was accepted. *)
Theorem optimizer_results_meet_min_accuracy (r : ranges)
    (fixed_params : BacktestEngine.config -> BacktestEngine.config)
    (flag : nat -> bool) (w : world) :
  let res := fst (find_optimal_config run_backtest min_accuracy early_stop_threshold
                    early_stop_min_tested r fixed_params flag w) in
  Forall (fun e => (min_accuracy <= model_accuracy e)%Q
                   /\ In (config e) (generate_parameter_combinations r fixed_params))
    (all_results res)
  /\ (optimal_config res = None <-> valid_combinations res = O).
Proof.
  unfold find_optimal_config.
  pose proof (search_loop_accepts flag
                (List.length (generate_parameter_combinations r fixed_params))
                (generate_parameter_combinations r fixed_params)
                (generate_parameter_combinations r fixed_params)
                (incl_refl _) O search_start w (Forall_nil _)) as Hacc.
  pose proof (search_loop_tracked run_backtest min_accuracy early_stop_threshold
                early_stop_min_tested flag
                (List.length (generate_parameter_combinations r fixed_params))
                (generate_parameter_combinations r fixed_params)
                O search_start w eq_refl) as Htr.
  destruct (search_loop _ _ _ _ _ _ _ _ _ _) as [st w'].
  cbn [fst all_results valid_combinations optimal_config] in *.
  split.
  - rewrite Forall_forall in *. intros e He. apply Hacc.
    apply firstn_incl in He.
    apply (Permutation_in _ (Permutation_sym (sort_desc_perm improvement_gap _))).
    exact He.
  - unfold tracked in Htr. rewrite Htr, first_max_is_sorted_head.
    pose proof (Permutation_length (sort_desc_perm improvement_gap (valid_results st)))
      as Hlen.
    destruct (sort_desc improvement_gap (valid_results st)) as [|first l];
      simpl in *; split; intros H; try reflexivity; try discriminate; lia.
Qed.

(** X23. When [find_optimal_config] reports an early stop, the optimal
    result it reports passes the early-stopping test at the reported share of
    combinations tested: its gap exceeds the threshold, with the minimum share
    tested or a gap above 0.30; or else its gap exceeds 0.20 with at least
    half of the combinations tested. *)
Theorem optimizer_early_stop_justified (r : ranges)
    (fixed_params : BacktestEngine.config -> BacktestEngine.config)
    (flag : nat -> bool) (w : world) :
  let res := fst (find_optimal_config run_backtest min_accuracy early_stop_threshold
                    early_stop_min_tested r fixed_params flag w) in
  result_early_stopped res = true ->
  exists e,
    optimal res = Some e
    /\ optimal_config res = Some (config e)
    /\ stop_rule early_stop_threshold early_stop_min_tested (improvement_gap e)
         (total_combinations_tested res) (total_combinations_available res) = true.
Proof.
  unfold find_optimal_config.
  pose proof (search_loop_ended flag
                (List.length (generate_parameter_combinations r fixed_params))
                (generate_parameter_combinations r fixed_params)
                O search_start w) as Hend.
  destruct (search_loop _ _ _ _ _ _ _ _ _ _) as [st w'].
  cbn [fst optimal optimal_config total_combinations_tested
         total_combinations_available result_early_stopped] in *.
  assert (Hrun : running 0 search_start) by (repeat split; simpl; auto).
  specialize (Hend Hrun eq_refl). unfold ended in Hend.
  intros Hes. rewrite Hes in *.
  destruct (cancelled st); [contradiction|].
  destruct Hend as [j [e [-> [Hj [Hv [-> Hstop]]]]]].
  exists e. simpl. auto.
Qed.

End OptimizerAccounting.

(** ** The months of the store, in order *)

Lemma sorted_NoDup_strict (l : list Z) :
  StronglySorted Z.le l -> NoDup l -> StronglySorted Z.lt l.
Proof.
  induction 1 as [|x l Hl IH Hx]; intros Hnd; [constructor|].
  inversion Hnd as [|? ? Hnotin Hnd']; subst.
  constructor; [now apply IH|].
  rewrite Forall_forall in *. intros y Hy. specialize (Hx y Hy).
  assert (x <> y) by (intros ->; contradiction). lia.
Qed.

(** X24. [get_all_months] lists, in strictly ascending order and so without
    repetition, exactly the months at which some team of the store has a
    vector. *)
Theorem get_all_months_ascending (p : DataProcessor.t) :
  StronglySorted Z.lt (DataProcessor.get_all_months p)
  /\ forall m,
       In m (DataProcessor.get_all_months p)
       <-> exists team h, In (team, h) p /\ dict_mem h m = true.
Proof.
  split.
  - apply sorted_NoDup_strict; [apply sorted_sorted | apply get_all_months_NoDup].
  - intros m. rewrite get_all_months_In.
    split; intros [team [h [Hin Hm]]]; exists team, h; split; auto;
      now apply dict_mem_keys.
Qed.

(** ** The further properties at the example stores *)

Section FurtherWitnesses.
Import DataProcessor SequenceMapper RecommendationEngine BacktestEngine Examples.

Lemma recommend_rejects_without_learning_witness :
  recommend cosine_exact store_weight P3 "TeamZ"%string m3 2 19 false (6 # 10) 3 3
    (3 # 4) (init P3)
  = (Raise ValueError, init P3).
Proof.
  apply (recommend_rejects_without_learning cosine_exact store_weight P3
           "TeamZ"%string m3 2 19 false (6 # 10) 3 3 (3 # 4) (init P3)).
  left. reflexivity.
Defined.

Lemma recommend_bounded_ranked_witness :
  exists recs s',
    recommend cosine_exact store_weight P3 "TeamA"%string m3 2 19 false (6 # 10)
      3 3 (3 # 4) (init P3) = (Ok recs, s')
    /\ map item_practice recs = ["P3"; "P2"]%string
    /\ (List.length recs <= 2)%nat
    /\ StronglySorted (fun a b => (item_score b <= item_score a)%Q) recs
    /\ NoDup (map item_practice recs)
    /\ Forall (fun r => (item_score r <= 1)%Q) recs.
Proof.
  eexists. eexists. split; [vm_compute; reflexivity|].
  split; [reflexivity|].
  destruct (recommend_bounded_ranked cosine_exact store_weight P3 "TeamA"%string
              m3 2 19 false (6 # 10) 3 3 (3 # 4) (init P3) _ _ eq_refl)
    as [Hlen [Hsorted [Hnd Hle]]].
  split; [apply Hlen; lia|]. split; [exact Hsorted|]. split; assumption.
Defined.

Lemma recommend_skips_full_maturity_witness :
  exists recs s' h current_scores,
    recommend cosine_exact store_maxed P2 "TeamT"%string m2 2 19 false (6 # 10)
      3 3 (3 # 4) (init P2) = (Ok recs, s')
    /\ map item_practice recs = ["P2"]%string
    /\ dict_get store_maxed "TeamT"%string = Some h
    /\ dict_get h m2 = Some current_scores
    /\ Forall (fun r =>
                 exists practice_idx,
                   index P2 (item_practice r) = Some practice_idx
                   /\ nth_error P2 practice_idx = Some (item_practice r)
                   /\ nth_error current_scores practice_idx = Some (item_level r)
                   /\ (item_level r < 1)%Q) recs.
Proof.
  destruct (recommend_skips_full_maturity cosine_exact store_maxed P2 "TeamT"%string
              m2 2 19 false (6 # 10) 3 3 (3 # 4) (init P2) _ _ eq_refl)
    as [h [current_scores [Hh [Hc Hall]]]].
  eexists. eexists. exists h, current_scores.
  split; [vm_compute; reflexivity|]. split; [reflexivity|].
  split; [exact Hh|]. split; [exact Hc | exact Hall].
Defined.


(** On [store_rows] the row of P1 holds P2 twice and P3 once: the answer
    for P1 has the two probabilities 2/3 and 1/3, of counts 2 and 1 and
    total 3. *)
Lemma typical_next_probabilities_witness :
  exists s' nexts total (counts : list (string * Z)),
    learn_sequences_up_to_month store_rows m4 (init P3) = (Ok Computed, s')
    /\ get_typical_next_practices s' "P1"%string 3 = Ok nexts
    /\ map fst nexts = ["P2"; "P3"]%string
    /\ Forall2 Qeq (map snd nexts) [2 # 3; 1 # 3]%Q
    /\ total = 3
    /\ List.length counts = 2%nat
    /\ Forall (fun e => 1 <= snd e <= total) counts
    /\ sum_Z (map snd counts) <= total
    /\ Forall (fun e => (0 < snd e)%Q /\ (snd e <= 1)%Q) nexts.
Proof.
  eexists.
  destruct (typical_next_probabilities store_rows m4 (init P3) _ Computed
              "P1"%string 3 (cache_positive_init P3) eq_refl)
    as [nexts [total [counts [Hn [Htot [Hmap [Hall [Hsum [Hrow Hunit]]]]]]]]].
  exists nexts, total, counts.
  split; [vm_compute; reflexivity|]. split; [exact Hn|].
  assert (Hnexts : nexts = [("P2"%string, 2 # 3); ("P3"%string, 1 # 3)]).
  { vm_compute in Hn. injection Hn as <-. reflexivity. }
  split; [now rewrite Hnexts|].
  split; [rewrite Hnexts; repeat constructor; reflexivity|].
  split.
  { destruct Hrow as [row [Hr [-> _]]]; [rewrite Hnexts; discriminate|].
    vm_compute in Hr. injection Hr as <-. reflexivity. }
  split.
  { apply (f_equal (@List.length _)) in Hmap.
    rewrite length_map, Hnexts in Hmap. simpl in Hmap. congruence. }
  auto.
Defined.

Lemma backtest_accuracy_bounds_witness :
  exists per_month total hits overall,
    dict_get (final_results comb_real P4 progress_six 2) "per_month_results"%string
    = Some (VMonths per_month)
    /\ dict_get (final_results comb_real P4 progress_six 2) "total_predictions"%string
       = Some (VInt total)
    /\ dict_get (final_results comb_real P4 progress_six 2) "correct_predictions"%string
       = Some (VInt hits)
    /\ dict_get (final_results comb_real P4 progress_six 2) "overall_accuracy"%string
       = Some (VFloat overall)
    /\ 0 <= hits <= total
    /\ Forall (fun r => 0 <= correct r <= predictions r
                        /\ (0 <= accuracy r <= 1)%Q) per_month
    /\ (0 <= overall <= 1)%Q.
Proof.
  apply (backtest_accuracy_bounds cosine_exact comb_real store_six P4
           default_config None (fresh P4) _ (run_six comb_real) eq_refl).
Defined.


Lemma backtest_totals_add_up_witness :
  exists per_month total hits,
    dict_get (final_results comb_real P4 progress_six 2) "per_month_results"%string
    = Some (VMonths per_month)
    /\ dict_get (final_results comb_real P4 progress_six 2) "total_predictions"%string
       = Some (VInt total)
    /\ dict_get (final_results comb_real P4 progress_six 2) "correct_predictions"%string
       = Some (VInt hits)
    /\ map predictions per_month = [2; 1; 2]
    /\ total = sum_Z (map predictions per_month)
    /\ hits = sum_Z (map correct per_month).
Proof.
  destruct (backtest_totals_add_up cosine_exact comb_real store_six P4
              default_config None (fresh P4) _ (run_six comb_real) eq_refl)
    as [per_month [total [hits [tested [Hpm [Ht [Hh [_ [_ [_ [Hsum _]]]]]]]]]]].
  exists per_month, total, hits. destruct (Hsum eq_refl).
  repeat split; auto.
  vm_compute in Hpm. injection Hpm as <-. reflexivity.
Defined.

Lemma summary_of_backtest_raises_key_error_witness :
  get_accuracy_summary (fun _ => "Error"%string)
    (fun _ _ _ _ _ _ _ _ => "BACKTEST RESULTS"%string)
    (final_results comb_real P4 progress_four 2)
  = MissingKey "train_months".
Proof.
  apply (summary_of_backtest_raises_key_error cosine_exact comb_real
           (fun _ => "Error"%string)
           (fun _ _ _ _ _ _ _ _ => "BACKTEST RESULTS"%string)
           store_four P4 default_config None (fresh P4) _ (run_four comb_real)).
Defined.

Lemma optimizer_early_stop_justified_witness :
  exists e,
    OptimizationEngine.optimal
      (fst (OptimizationEngine.find_optimal_config mock_backtest (4 # 10) (3 # 10)
              (5 # 10) six_ranges (fun c => c) (fun _ => false) (fresh P4)))
    = Some e
    /\ BacktestEngine.top_n (OptimizationEngine.config e) = 2
    /\ OptimizationEngine.stop_rule (3 # 10) (5 # 10)
         (OptimizationEngine.improvement_gap e) 2 6 = true.
Proof.
  destruct (optimizer_early_stop_justified mock_backtest (4 # 10) (3 # 10) (5 # 10)
              six_ranges (fun c => c) (fun _ => false) (fresh P4) eq_refl)
    as [e [He [Hc Hstop]]].
  exists e. split; [exact He|]. split; [|exact Hstop].
  vm_compute in He. injection He as <-. reflexivity.
Defined.

End FurtherWitnesses.

(** ** Listings of the learned sequences *)

Section SortByFacts.
Context {A : Type} (le : A -> A -> bool).

Lemma insert_by_perm (x : A) (l : list A) : Permutation (x :: l) (insert_by le x l).
Proof.
  induction l as [|y l IH]; simpl; [reflexivity|].
  destruct (le x y); [reflexivity|].
  rewrite perm_swap. now constructor.
Qed.

Lemma sort_by_perm (l : list A) : Permutation l (sort_by le l).
Proof.
  induction l as [|x l IH]; simpl; [constructor|].
  rewrite <- insert_by_perm. now constructor.
Qed.

Hypothesis le_total : forall a b, le a b = false -> le b a = true.
Hypothesis le_trans : forall a b c, le a b = true -> le b c = true -> le a c = true.

Lemma insert_by_sorted (x : A) (l : list A) :
  StronglySorted (fun a b => le a b = true) l ->
  StronglySorted (fun a b => le a b = true) (insert_by le x l).
Proof.
  induction 1 as [|y l Hl IH Hy]; simpl.
  - repeat constructor.
  - destruct (le x y) eqn:E.
    + constructor; [now constructor|]. constructor; [exact E|].
      eapply Forall_impl; [|exact Hy]. intros z Hz. now apply (le_trans x y z).
    + constructor; [exact IH|].
      apply (Permutation_Forall (insert_by_perm x l)).
      constructor; [now apply le_total | exact Hy].
Qed.

Lemma sort_by_sorted (l : list A) :
  StronglySorted (fun a b => le a b = true) (sort_by le l).
Proof.
  induction l as [|x l IH]; simpl; [constructor | now apply insert_by_sorted].
Qed.

End SortByFacts.

Lemma StronglySorted_weaken {A : Type} (R R' : A -> A -> Prop) (l : list A) :
  (forall a b, R a b -> R' a b) -> StronglySorted R l -> StronglySorted R' l.
Proof.
  intros HR. induction 1 as [|a l Hl IH Ha]; constructor; [exact IH|].
  eapply Forall_impl; [|exact Ha]. intros b. apply HR.
Qed.

Section Listings.
Import SequenceMapper.

Lemma sequence_key_le_spec (a b : sequence) :
  sequence_key_le a b = true
  <-> seq_count b < seq_count a
      \/ (seq_count a = seq_count b /\ (seq_probability b <= seq_probability a)%Q).
Proof.
  unfold sequence_key_le.
  rewrite orb_true_iff, andb_true_iff, Z.ltb_lt, Z.eqb_eq, Qle_bool_iff.
  split.
  - intros [H|[H1 H2]]; [left; lia | right]. split; [lia|].
    apply Qopp_le_compat in H2. now rewrite !Qopp_involutive in H2.
  - intros [H|[H1 H2]]; [left; lia | right]. split; [lia|].
    now apply Qopp_le_compat.
Qed.

Lemma sequence_key_le_total (a b : sequence) :
  sequence_key_le a b = false -> sequence_key_le b a = true.
Proof.
  intros H. apply sequence_key_le_spec.
  destruct (Z.lt_trichotomy (seq_count a) (seq_count b)) as [Hlt|[Heq|Hgt]].
  - now left.
  - right. split; [lia|].
    destruct (Qlt_le_dec (seq_probability b) (seq_probability a)) as [Hp|Hp];
      [|exact Hp].
    exfalso. assert (G : sequence_key_le a b = true); [|congruence].
    apply sequence_key_le_spec. right. split; [exact Heq | now apply Qlt_le_weak].
  - exfalso. assert (G : sequence_key_le a b = true); [|congruence].
    apply sequence_key_le_spec. now left.
Qed.

Lemma sequence_key_le_trans (a b c : sequence) :
  sequence_key_le a b = true -> sequence_key_le b c = true ->
  sequence_key_le a c = true.
Proof.
  rewrite !sequence_key_le_spec.
  intros [H1|[H1 P1]] [H2|[H2 P2]]; try (left; lia).
  right. split; [lia|]. now apply (Qle_trans _ (seq_probability b)).
Qed.

(** X25. [get_all_sequences] returns the empty list before anything is
    learned.  Afterwards it lists exactly the transitions of the matrix whose
    count is at least [min_count], each with its count and with the count
    divided by the total of its row as probability, by descending count and,
    among equal counts, by descending probability. *)
Theorem get_all_sequences_lists_transitions (s : mapper) (min_count : Z) :
  (learned s = false -> get_all_sequences s min_count = [])
  /\ (learned s = true ->
      (forall x,
          In x (get_all_sequences s min_count)
          <-> exists row,
                In (seq_from x, row) (transition_matrix s)
                /\ In (seq_to x, seq_count x) row
                /\ min_count <= seq_count x
                /\ seq_probability x
                   = (if 0 <? sum_Z (dict_values row)
                      then inject_Z (seq_count x) / inject_Z (sum_Z (dict_values row))
                      else 0)%Q)
      /\ StronglySorted
           (fun a b =>
              seq_count b < seq_count a
              \/ (seq_count a = seq_count b
                  /\ (seq_probability b <= seq_probability a)%Q))
           (get_all_sequences s min_count)).
Proof.
  unfold get_all_sequences. split; [intros ->; reflexivity|].
  intros ->. simpl. split.
  - intros [[[from to] count] prob].
    unfold seq_from, seq_to, seq_count, seq_probability. simpl.
    split.
    + intros Hin.
      apply (Permutation_in _ (Permutation_sym (sort_by_perm sequence_key_le _))) in Hin.
      apply in_flat_map in Hin as [[from' row] [Hrow Hx]].
      unfold sequences_of_row in Hx.
      apply in_map_iff in Hx as [[to' count'] [E Hf]].
      apply filter_In in Hf as [Hf Hc]. simpl in Hc. apply Z.leb_le in Hc.
      injection E as -> -> -> <-.
      exists row. auto.
    + intros [row [Hrow [Hto [Hc Hp]]]].
      apply (Permutation_in _ (sort_by_perm sequence_key_le _)).
      apply in_flat_map. exists (from, row). split; [exact Hrow|].
      unfold sequences_of_row. apply in_map_iff. exists (to, count).
      split; [now rewrite Hp|].
      apply filter_In. split; [exact Hto | now apply Z.leb_le].
  - eapply StronglySorted_weaken.
    + intros a b H. apply sequence_key_le_spec. exact H.
    + apply (sort_by_sorted sequence_key_le sequence_key_le_total
               sequence_key_le_trans).
Qed.

(** X26. [get_improvement_frequency] raises [ValueError] before anything is
    learned; afterwards it returns the improvement counts unchanged, entry
    for entry, listed by descending count. *)
Theorem get_improvement_frequency_keeps_counts (s : mapper) :
  match get_improvement_frequency s with
  | Raise e => e = ValueError /\ learned s = false
  | Ok freq =>
      learned s = true
      /\ Permutation (practice_improvement_freq s) freq
      /\ StronglySorted (fun a b => snd b <= snd a) freq
      /\ (NoDup (dict_keys (practice_improvement_freq s)) ->
          forall k, dict_get freq k = dict_get (practice_improvement_freq s) k)
  end.
Proof.
  unfold get_improvement_frequency.
  destruct (learned s); simpl; [|auto].
  split; [reflexivity|]. split; [apply sort_desc_perm|]. split.
  - pose proof (sort_desc_sorted (fun e : string * Z => inject_Z (snd e))
                  (practice_improvement_freq s)) as Hs.
    eapply StronglySorted_weaken; [|exact Hs].
    intros a b Hb. unfold desc in Hb. now rewrite Zle_Qle.
  - intros Hnd k.
    pose proof (sort_desc_perm (fun e : string * Z => inject_Z (snd e))
                  (practice_improvement_freq s)) as Hp.
    assert (Hnd' : NoDup (dict_keys (sort_desc (fun e : string * Z => inject_Z (snd e))
                                       (practice_improvement_freq s)))).
    { unfold dict_keys in *. eapply Permutation_NoDup; [|exact Hnd].
      now apply Permutation_map. }
    destruct (dict_get (practice_improvement_freq s) k) as [v|] eqn:E.
    + apply dict_In_get; [exact Hnd'|].
      apply (Permutation_in _ Hp). now apply dict_get_In.
    + apply dict_get_none_keys. apply dict_get_none_keys in E.
      intros Hin. apply E. unfold dict_keys in *.
      eapply Permutation_in; [|exact Hin].
      apply Permutation_sym. now apply Permutation_map.
Qed.

End Listings.
